(** * Enrichment and classification pipeline: a shallow embedding

    The Python sources [step1_json.py] and [step2.7.py] work on values
    decoded from JSON.  This file embeds the functions of the enrichment
    pipeline as Rocq functions over a model of those values, with Python
    exceptions made explicit, and proves (or refutes) the properties that
    the specification states about them.

    Conventions of the embedding:
    - a Python [str] is a Rocq [string] (a byte string; text is taken to
      be ASCII, so that [lower], [title], [isdigit] and the regular
      expression classes are the ASCII ones);
    - a Python [int] is a [Z]; a [float] carries its exact rational value
      and the text that [str] prints for it;
    - a [dict] decoded from JSON is an association list in insertion
      order; a dict literal with fixed keys that the program builds is a
      record;
    - a function that can raise returns a [result];
    - a clock reading is an argument, and the history file is a state
      that goes in and comes out. *)

From Stdlib Require Import ZArith QArith Qabs Qround List String Ascii Bool Lia.
From Stdlib Require Import Permutation Sorted DecimalString DecimalPos OrdersEx.
Import ListNotations.

Set Warnings "-register-all".

Local Open Scope string_scope.
Local Open Scope Z_scope.

(** ** Python object model *)

Module Py.

Inductive value : Type :=
| VNone
| VBool (b : bool)
| VInt (n : Z)
| VFloat (q : Q) (repr : string)
| VStr (s : string)
| VList (xs : list value)
| VDict (kvs : list (string * value)).

Definition dict : Type := list (string * value).

Inductive exn : Type :=
| AttributeError | TypeError | ValueError | IndexError | KeyError.

Inductive result (A : Type) : Type :=
| Ok (a : A)
| Raise (e : exn).

Arguments Ok {A} a.
Arguments Raise {A} e.

Definition bind {A B : Type} (c : result A) (k : A -> result B) : result B :=
  match c with
  | Ok a => k a
  | Raise e => Raise e
  end.

Fixpoint mapM {A B : Type} (f : A -> result B) (l : list A) : result (list B) :=
  match l with
  | [] => Ok []
  | x :: l' =>
      match f x with
      | Ok y => match mapM f l' with Ok ys => Ok (y :: ys) | Raise e => Raise e end
      | Raise e => Raise e
      end
  end.

Fixpoint foldM {A S : Type} (f : S -> A -> result S) (l : list A) (s : S) : result S :=
  match l with
  | [] => Ok s
  | x :: l' => match f s x with Ok s' => foldM f l' s' | Raise e => Raise e end
  end.

(** [bool(v)]: the truth value Python gives an object. *)
Definition truthy (v : value) : bool :=
  match v with
  | VNone => false
  | VBool b => b
  | VInt n => negb (n =? 0)
  | VFloat q _ => negb (Qeq_bool q 0)
  | VStr s => negb (String.eqb s "")
  | VList xs => match xs with [] => false | _ :: _ => true end
  | VDict kvs => match kvs with [] => false | _ :: _ => true end
  end.

(** [a or b] *)
Definition py_or (a b : value) : value := if truthy a then a else b.

(** Numbers compare by value across [bool], [int] and [float]. *)
Definition num_of (v : value) : option Q :=
  match v with
  | VBool b => Some (inject_Z (if b then 1 else 0))
  | VInt n => Some (inject_Z n)
  | VFloat q _ => Some q
  | _ => None
  end.

Fixpoint dict_get (kvs : dict) (k : string) : option value :=
  match kvs with
  | [] => None
  | (k', v) :: rest => if String.eqb k' k then Some v else dict_get rest k
  end.

(** [d[k] = v]: an existing key keeps its position, a new one goes last. *)
Fixpoint dict_set (kvs : dict) (k : string) (v : value) : dict :=
  match kvs with
  | [] => [(k, v)]
  | (k', v') :: rest =>
      if String.eqb k' k then (k', v) :: rest else (k', v') :: dict_set rest k v
  end.

(** [a == b] *)
Fixpoint py_eq (a b : value) {struct a} : bool :=
  match a, b with
  | VNone, VNone => true
  | VStr s, VStr t => String.eqb s t
  | VList xs, VList ys =>
      (fix go (xs ys : list value) {struct xs} : bool :=
         match xs, ys with
         | [], [] => true
         | x :: xs', y :: ys' => py_eq x y && go xs' ys'
         | _, _ => false
         end) xs ys
  | VDict kvs, VDict kvs' =>
      Nat.eqb (List.length kvs) (List.length kvs') &&
      (fix go (kvs : dict) {struct kvs} : bool :=
         match kvs with
         | [] => true
         | (k, v) :: rest =>
             match dict_get kvs' k with
             | Some v' => py_eq v v' && go rest
             | None => false
             end
         end) kvs
  | _, _ =>
      match num_of a, num_of b with
      | Some x, Some y => Qeq_bool x y
      | _, _ => false
      end
  end.

(** [x in xs] for a list or tuple [xs]. *)
Definition py_in (x : value) (xs : list value) : bool :=
  existsb (fun y => py_eq y x) xs.

(** Lists and dicts cannot be dictionary keys or set members. *)
Definition hashable (v : value) : bool :=
  match v with
  | VList _ | VDict _ => false
  | _ => true
  end.

(** [a < b]; raises [TypeError] where Python does. *)
Fixpoint py_lt (a b : value) {struct a} : result bool :=
  match a, b with
  | VStr s, VStr t => Ok (String.ltb s t)
  | VList xs, VList ys =>
      (fix go (xs ys : list value) {struct xs} : result bool :=
         match xs, ys with
         | [], [] => Ok false
         | [], _ :: _ => Ok true
         | _ :: _, [] => Ok false
         | x :: xs', y :: ys' => if py_eq x y then go xs' ys' else py_lt x y
         end) xs ys
  | _, _ =>
      match num_of a, num_of b with
      | Some x, Some y => Ok (negb (Qle_bool y x))
      | _, _ => Raise TypeError
      end
  end.

(** *** Text *)

Definition is_digit (c : ascii) : bool :=
  let n := N_of_ascii c in (48 <=? n)%N && (n <=? 57)%N.

Definition is_upper (c : ascii) : bool :=
  let n := N_of_ascii c in (65 <=? n)%N && (n <=? 90)%N.

Definition is_lower (c : ascii) : bool :=
  let n := N_of_ascii c in (97 <=? n)%N && (n <=? 122)%N.

(** Whitespace as [\s] and [str.strip] see it (ASCII). *)
Definition is_space (c : ascii) : bool :=
  let n := N_of_ascii c in
  ((9 <=? n)%N && (n <=? 13)%N) || ((28 <=? n)%N && (n <=? 32)%N).

Definition lower_char (c : ascii) : ascii :=
  if is_upper c then ascii_of_N (N_of_ascii c + 32) else c.

Definition upper_char (c : ascii) : ascii :=
  if is_lower c then ascii_of_N (N_of_ascii c - 32) else c.

(** [s.lower()] *)
Fixpoint lower (s : string) : string :=
  match s with
  | EmptyString => EmptyString
  | String c s' => String (lower_char c) (lower s')
  end.

(** [s.title()]: a letter is upper-cased when the character before it is
    not a letter, lower-cased otherwise. *)
Fixpoint title_from (prev_cased : bool) (s : string) : string :=
  match s with
  | EmptyString => EmptyString
  | String c s' =>
      let cased := is_upper c || is_lower c in
      String (if prev_cased then lower_char c else upper_char c) (title_from cased s')
  end.

Definition title (s : string) : string := title_from false s.

(** [needle in hay] for strings. *)
Fixpoint contains (needle hay : string) : bool :=
  String.prefix needle hay ||
  match hay with
  | EmptyString => false
  | String _ hay' => contains needle hay'
  end.

(** [s.isdigit()] *)
Fixpoint all_digits (s : string) : bool :=
  match s with
  | EmptyString => true
  | String c s' => is_digit c && all_digits s'
  end.

Definition isdigit (s : string) : bool :=
  negb (String.eqb s "") && all_digits s.

(** [s.replace(c, "")] for a one-character [c]. *)
Fixpoint remove_char (c : ascii) (s : string) : string :=
  match s with
  | EmptyString => EmptyString
  | String d s' => if Ascii.eqb d c then remove_char c s' else String d (remove_char c s')
  end.

(** The longest prefix of [s] whose characters satisfy [p], and the rest. *)
Fixpoint span (p : ascii -> bool) (s : string) : string * string :=
  match s with
  | EmptyString => (EmptyString, EmptyString)
  | String c s' =>
      if p c then let (a, b) := span p s' in (String c a, b)
      else (EmptyString, s)
  end.

Definition digit_val (c : ascii) : Z := Z.of_N (N_of_ascii c) - 48.

(** [int(s)] for a string of digits. *)
Fixpoint int_of_digits_from (acc : Z) (s : string) : Z :=
  match s with
  | EmptyString => acc
  | String c s' => int_of_digits_from (10 * acc + digit_val c) s'
  end.

Definition int_of_digits (s : string) : Z := int_of_digits_from 0 s.

Definition str_of_int (n : Z) : string := NilZero.string_of_int (Z.to_int n).

Definition hex_digit (n : N) : ascii :=
  if (n <? 10)%N then ascii_of_N (48 + n) else ascii_of_N (87 + n).

(** [repr(s)] for a string: the quote is ["] only when the text holds a
    ['] and no ["]. *)
Fixpoint repr_chars (quote : ascii) (s : string) : string :=
  match s with
  | EmptyString => EmptyString
  | String c s' =>
      let n := N_of_ascii c in
      let rest := repr_chars quote s' in
      if Ascii.eqb c "\"%char then String "\"%char (String "\"%char rest)
      else if Ascii.eqb c quote then String "\"%char (String c rest)
      else if (n =? 10)%N then String "\"%char (String "n"%char rest)
      else if (n =? 13)%N then String "\"%char (String "r"%char rest)
      else if (n =? 9)%N then String "\"%char (String "t"%char rest)
      else if (n <? 32)%N || (n =? 127)%N then
        String "\"%char (String "x"%char
          (String (hex_digit (n / 16)) (String (hex_digit (n mod 16)) rest)))
      else String c rest
  end.

Definition repr_str (s : string) : string :=
  let quote :=
    if contains "'" s && negb (contains (String (ascii_of_N 34) EmptyString) s)
    then ascii_of_N 34 else "'"%char in
  String quote (repr_chars quote s ++ String quote EmptyString).

(** [repr(v)] *)
Fixpoint py_repr (v : value) : string :=
  match v with
  | VNone => "None"
  | VBool b => if b then "True" else "False"
  | VInt n => str_of_int n
  | VFloat _ r => r
  | VStr s => repr_str s
  | VList xs => "[" ++ String.concat ", " (map py_repr xs) ++ "]"
  | VDict kvs =>
      "{" ++ String.concat ", "
               (map (fun kv : string * value =>
                       let (k, x) := kv in repr_str k ++ ": " ++ py_repr x) kvs)
          ++ "}"
  end.

(** [str(v)] *)
Definition py_str (v : value) : string :=
  match v with
  | VStr s => s
  | _ => py_repr v
  end.

(** *** Access *)

(** [d.get(k, dflt)] on a value known to be a dict. *)
Definition get (d : dict) (k : string) (dflt : value) : value :=
  match dict_get d k with
  | Some v => v
  | None => dflt
  end.

(** [o.get(k, dflt)] on any object: only a dict has the method. *)
Definition attr_get (o : value) (k : string) (dflt : value) : result value :=
  match o with
  | VDict d => Ok (get d k dflt)
  | _ => Raise AttributeError
  end.

(** [d.get(key, dflt)] where [d] was decoded from JSON (its keys are
    strings) and [key] is any object. *)
Definition get_by (d : dict) (key : value) (dflt : value) : result value :=
  match key with
  | VStr k => Ok (get d k dflt)
  | VList _ | VDict _ => Raise TypeError
  | _ => Ok dflt
  end.

(** What [for x in v] visits. *)
Definition py_iter (v : value) : result (list value) :=
  match v with
  | VList xs => Ok xs
  | VStr s => Ok (map (fun c => VStr (String c EmptyString)) (list_ascii_of_string s))
  | VDict kvs => Ok (map (fun kv : string * value => VStr (fst kv)) kvs)
  | _ => Raise TypeError
  end.

(** A dict built by the program, whose keys are arbitrary hashable
    objects, in insertion order.  [kv_get] is [m.get(k)]: an unhashable
    key raises. *)
Fixpoint kv_find {A : Type} (m : list (value * A)) (k : value) : option A :=
  match m with
  | [] => None
  | (k', a) :: rest => if py_eq k' k then Some a else kv_find rest k
  end.

Fixpoint kv_set {A : Type} (m : list (value * A)) (k : value) (a : A) : list (value * A) :=
  match m with
  | [] => [(k, a)]
  | (k', a') :: rest =>
      if py_eq k' k then (k', a) :: rest else (k', a') :: kv_set rest k a
  end.

Definition kv_get {A : Type} (m : list (value * A)) (k : value) : result (option A) :=
  if hashable k then Ok (kv_find m k) else Raise TypeError.

(** [len(v)] *)
Definition py_len (v : value) : result Z :=
  match v with
  | VList xs => Ok (Z.of_nat (List.length xs))
  | VDict kvs => Ok (Z.of_nat (List.length kvs))
  | VStr s => Ok (Z.of_nat (String.length s))
  | _ => Raise TypeError
  end.

(** Stable insertion sort with a comparison that may raise: the order
    [list.sort] and [sorted] produce when every comparison they make
    succeeds. *)
Section Sorting.
Context {A : Type} (lt : A -> A -> result bool).

Fixpoint insert_sorted (x : A) (l : list A) : result (list A) :=
  match l with
  | [] => Ok [x]
  | y :: l' =>
      match lt y x with
      | Ok true =>
          match insert_sorted x l' with
          | Ok r => Ok (y :: r)
          | Raise e => Raise e
          end
      | Ok false => Ok (x :: y :: l')
      | Raise e => Raise e
      end
  end.

Fixpoint py_sorted (l : list A) : result (list A) :=
  match l with
  | [] => Ok []
  | x :: l' =>
      match py_sorted l' with
      | Ok r => insert_sorted x r
      | Raise e => Raise e
      end
  end.

End Sorting.

End Py.

Import Py.

Notation "x <- c ;; k" := (bind c (fun x => k))
  (at level 61, c at next level, right associativity).

(** ** Step 1: status extraction and status summary ([step1_json.py]) *)

(** [extract_status_id(match)]: the primary field, then index 1 of the
    score array. *)
Definition extract_status_id (m : value) : result value :=
  match m with
  | VDict d =>
      Ok (py_or (get d "status_id" VNone)
                (match get d "score" VNone with
                 | VList score =>
                     if 1 <? Z.of_nat (List.length score)
                     then nth 1 score VNone
                     else VNone
                 | _ => VNone
                 end))
  | _ => Raise AttributeError
  end.

(** The "official status mapping" of [create_unified_status_summary]. *)
Definition status_desc_map : list (value * string) :=
  [ (VInt 0, "Abnormal (suggest hiding)"); (VInt 1, "Not started");
    (VInt 2, "First half"); (VInt 3, "Half-time"); (VInt 4, "Second half");
    (VInt 5, "Overtime"); (VInt 6, "Overtime (deprecated)");
    (VInt 7, "Penalty Shoot-out"); (VInt 8, "End"); (VInt 9, "Delay");
    (VInt 10, "Interrupt"); (VInt 11, "Cut in half"); (VInt 12, "Cancel");
    (VInt 13, "To be determined") ].

(** [in_play_status_ids] of [create_unified_status_summary]. *)
Definition in_play_status_ids : list value :=
  [VInt 2; VInt 3; VInt 4; VInt 5; VInt 7].

(** The list literal of [step1_main], "In-Play status IDs". *)
Definition step1_in_play_ids : list value :=
  [VInt 2; VInt 3; VInt 4; VInt 5; VInt 6; VInt 7].

(** The two in-play predicates. *)
Definition in_play_summary (status_id : value) : bool :=
  py_in status_id in_play_status_ids.

Definition in_play_filter (status_id : value) : bool :=
  py_in status_id step1_in_play_ids.

(** One entry of [status_counts]: description and count. *)
Definition status_entry : Type := (string * Z)%type.

(** [status_counts], keyed by status id. *)
Definition status_table : Type := list (value * status_entry).

(** The body of the counting loop of [create_unified_status_summary],
    for one status id that is not [None]. *)
Definition count_status (st : status_table) (status_id : value) : result status_table :=
  d <- kv_get status_desc_map status_id ;;
  let status_desc := match d with Some s => s | None => "Unknown Status" end in
  found <- kv_get st status_id ;;
  let st1 := match found with
             | Some _ => st
             | None => kv_set st status_id (status_desc, 0)
             end in
  match kv_find st1 status_id with
  | Some (desc, n) => Ok (kv_set st1 status_id (desc, n + 1))
  | None => Raise KeyError
  end.

(** One pass of that loop: the table and [matches_with_status]. *)
Definition count_match (acc : status_table * Z) (m : value) : result (status_table * Z) :=
  status_id <- extract_status_id m ;;
  match status_id with
  | VNone => Ok acc
  | _ =>
      st <- count_status (fst acc) status_id ;;
      Ok (st, snd acc + 1)
  end.

(** The counters and lines of the returned dict.  The early return has
    no [matches_with_status] and [matches_without_status] keys. *)
Record status_summary : Type := {
  total_matches_fetched : Z;
  matches_with_status : option Z;
  matches_without_status : option Z;
  in_play_matches : Z;
  formatted_summary : list string
}.

(** [status_counts.get(sid, {}).get("count", 0)] *)
Definition count_of (st : status_table) (sid : value) : Z :=
  match kv_find st sid with
  | Some (_, n) => n
  | None => 0
  end.

(** [f"{description} (ID: {status_id}): {count}"] *)
Definition format_status_line (st : status_table) (status_id : value) : string :=
  match kv_find st status_id with
  | Some (description, count) =>
      (description ++ " (ID: " ++ py_str status_id ++ "): " ++ str_of_int count)%string
  | None => EmptyString
  end.

(** [create_unified_status_summary(live_matches_data)].  Of the returned
    dict the record keeps the counters and the formatted lines; the
    per-status breakdown repeats the same table and is left out. *)
Definition create_unified_status_summary (live_matches_data : value) : result status_summary :=
  let empty_summary :=
    {| total_matches_fetched := 0; matches_with_status := None;
       matches_without_status := None; in_play_matches := 0;
       formatted_summary := [] |} in
  if negb (truthy live_matches_data) then Ok empty_summary else
  match live_matches_data with
  | VDict d =>
      match dict_get d "results" with
      | None => Ok empty_summary
      | Some matches =>
          total_matches <- py_len matches ;;
          ms <- py_iter matches ;;
          acc <- foldM count_match ms (([] : status_table), 0) ;;
          let (status_counts, with_status) := acc : status_table * Z in
          keys <- py_sorted py_lt (map fst status_counts) ;;
          let lines := map (format_status_line status_counts) keys in
          let in_play_count :=
            fold_right Z.add 0 (map (count_of status_counts) in_play_status_ids) in
          Ok {| total_matches_fetched := total_matches;
                matches_with_status := Some with_status;
                matches_without_status := Some (total_matches - with_status);
                in_play_matches := in_play_count;
                formatted_summary :=
                  lines ++ [("IN-PLAY MATCHES: " ++ str_of_int in_play_count)%string] |}
      end
  | VList xs =>
      if py_in (VStr "results") xs then Raise TypeError else Ok empty_summary
  | VStr s =>
      if contains "results" s then Raise TypeError else Ok empty_summary
  | _ => Raise TypeError
  end.

(** The in-play counting loop at the end of [step1_main]. *)
Definition step1_main_in_play_count (live_data : value) : result Z :=
  matches <- attr_get live_data "results" (VList []) ;;
  ms <- py_iter matches ;;
  foldM (fun in_play_count m =>
           status_id <- extract_status_id m ;;
           Ok (if py_in status_id step1_in_play_ids
               then in_play_count + 1 else in_play_count))
        ms 0.

(** ** Step 2: extraction and summarization ([step2.7.py]) *)

Definition STATUS_FILTER : list value :=
  [VInt 2; VInt 3; VInt 4; VInt 5; VInt 6; VInt 7].

(** [status_id in STATUS_FILTER]: membership in a set hashes its argument. *)
Definition in_STATUS_FILTER (status_id : value) : result bool :=
  if hashable status_id then Ok (py_in status_id STATUS_FILTER) else Raise TypeError.

(** [first_result(mapping, key)] *)
Definition first_result (mapping : value) (key : value) : result value :=
  wrap <- match key with
          | VNone => Ok VNone
          | _ => attr_get mapping (py_str key) VNone
          end ;;
  match wrap with
  | VDict w =>
      let res := py_or (py_or (get w "results" VNone) (get w "result" VNone)) (VList []) in
      Ok (match res with
          | VList (x :: _) => x
          | _ => VDict []
          end)
  | _ => Ok (VDict [])
  end.

(** [_safe_minute(v)]: the leading integer of [str(v)], if any. *)
Definition _safe_minute (v : value) : option Z :=
  match v with
  | VNone => None
  | _ =>
      let (digits, _) := span is_digit (py_str v) in
      if String.eqb digits "" then None else Some (int_of_digits digits)
  end.

(** [abs(t[0] - 4.5)], the key of [min] in the time window selection. *)
Definition dist_4_5 (t : Z * value) : Q := Qabs (inject_Z (fst t) - (9 # 2)).

Definition Qlt_bool (x y : Q) : bool := negb (Qle_bool y x).

(** [min(l, key=key)] for a non-empty list [best :: l]: the first of the
    elements with the least key. *)
Fixpoint min_by {A : Type} (key : A -> Q) (best : A) (l : list A) : A :=
  match l with
  | [] => best
  | x :: l' => min_by key (if Qlt_bool (key x) (key best) then x else best) l'
  end.

(** The two list comprehensions that build [pts]. *)
Definition minute_points (entries : list value) : list (Z * value) :=
  let pts :=
    flat_map (fun ent =>
                match ent with
                | VList xs =>
                    if 1 <? Z.of_nat (List.length xs)
                    then [(_safe_minute (nth 1 xs VNone), ent)]
                    else []
                | _ => []
                end) entries in
  flat_map (fun me : option Z * value =>
              match fst me with
              | Some m => [(m, snd me)]
              | None => []
              end) pts.

Definition in_window_of (pts : list (Z * value)) : list value :=
  map snd (filter (fun me : Z * value => (3 <=? fst me) && (fst me <=? 6)) pts).

Definition under_ten_of (pts : list (Z * value)) : list (Z * value) :=
  filter (fun me : Z * value => fst me <? 10) pts.

(** [filter_by_time(entries)], local to [extract_odds]. *)
Definition filter_by_time (entries : value) : result (list value) :=
  ents <- py_iter entries ;;
  let pts := minute_points ents in
  let in_window := in_window_of pts in
  match in_window with
  | _ :: _ => Ok in_window
  | [] =>
      let under_ten := under_ten_of pts in
      Ok (match under_ten with
          | [] => []
          | t :: rest => [snd (min_by dist_4_5 t rest)]
          end)
  end.

(** [filter_odds_by_time(odds_entries)], the module-level copy. *)
Definition filter_odds_by_time (odds_entries : value) : result (list value) :=
  ents <- py_iter odds_entries ;;
  let pts := minute_points ents in
  let in_window := in_window_of pts in
  match in_window with
  | _ :: _ => Ok in_window
  | [] =>
      let under_ten := under_ten_of pts in
      match under_ten with
      | t :: rest => Ok [snd (min_by dist_4_5 t rest)]
      | [] => Ok []
      end
  end.

Record odds_data : Type := {
  full_time_result : dict;
  both_teams_to_score : dict;
  over_under : dict;
  spread : dict;
  raw : value;
  primary_over_under : option value
}.

(** [v.lower()]: only a string has the method. *)
Definition py_lower (v : value) : result string :=
  match v with
  | VStr s => Ok (lower s)
  | _ => Raise AttributeError
  end.

(** One pass of the loop over [("eu", "asia", "bs")]. *)
Definition odds_market (raw_odds : value) (data : odds_data) (key : string) : result odds_data :=
  entries <- attr_get raw_odds key (VList []) ;;
  selected <- filter_by_time entries ;;
  match selected with
  | VList entry :: _ =>
      if 5 <=? Z.of_nat (List.length entry) then
        let e i := nth i entry VNone in
        if String.eqb key "eu" then
          Ok {| full_time_result :=
                  [("home", e 2%nat); ("draw", e 3%nat); ("away", e 4%nat);
                   ("timestamp", e 0%nat); ("match_time", e 1%nat)];
                both_teams_to_score := both_teams_to_score data;
                over_under := over_under data;
                spread := spread data;
                raw := raw data;
                primary_over_under := primary_over_under data |}
        else if String.eqb key "asia" then
          Ok {| full_time_result := full_time_result data;
                both_teams_to_score := both_teams_to_score data;
                over_under := over_under data;
                spread :=
                  [("handicap", e 3%nat); ("home", e 2%nat); ("away", e 4%nat);
                   ("timestamp", e 0%nat); ("match_time", e 1%nat)];
                raw := raw data;
                primary_over_under := primary_over_under data |}
        else
          let line := e 3%nat in
          let row := VDict [("line", line); ("over", e 2%nat); ("under", e 4%nat);
                            ("timestamp", e 0%nat); ("match_time", e 1%nat)] in
          Ok {| full_time_result := full_time_result data;
                both_teams_to_score := both_teams_to_score data;
                over_under := dict_set (over_under data) (py_str line) row;
                spread := spread data;
                raw := raw data;
                primary_over_under := Some row |}
      else Ok data
  | _ => Ok data
  end.

(** The inner loop over the selections of one market. *)
Definition btts_selection (btts : dict) (sel : value) : result dict :=
  name <- attr_get sel "name" (VStr "") ;;
  nm <- py_lower name ;;
  if String.eqb nm "yes" || String.eqb nm "no" then
    odds <- attr_get sel "odds" VNone ;;
    Ok (dict_set btts nm odds)
  else Ok btts.

(** The body of the loop over [betting.markets]. *)
Definition btts_market (btts : dict) (m : value) : result dict :=
  name <- attr_get m "name" VNone ;;
  if py_eq name (VStr "Both Teams to Score") then
    selections <- attr_get m "selections" (VList []) ;;
    sels <- py_iter selections ;;
    foldM btts_selection sels btts
  else Ok btts.

(** [extract_odds(match)] *)
Definition extract_odds (match_ : dict) : result odds_data :=
  let raw_odds := py_or (get match_ "odds" (VDict [])) (VDict []) in
  let data := {| full_time_result := []; both_teams_to_score := [];
                 over_under := []; spread := []; raw := raw_odds;
                 primary_over_under := None |} in
  data <- foldM (odds_market raw_odds) ["eu"; "asia"; "bs"] data ;;
  markets <- attr_get (get match_ "betting" (VDict [])) "markets" (VList []) ;;
  ms <- py_iter markets ;;
  btts <- foldM btts_market ms (both_teams_to_score data) ;;
  Ok {| full_time_result := full_time_result data;
        both_teams_to_score := btts;
        over_under := over_under data;
        spread := spread data;
        raw := raw data;
        primary_over_under := primary_over_under data |}.

(** The weather table of [extract_environment]. *)
Definition weather_desc : list (value * string) :=
  [ (VInt 1, "Sunny"); (VInt 2, "Partly Cloudy"); (VInt 3, "Cloudy");
    (VInt 4, "Overcast"); (VInt 5, "Foggy"); (VInt 6, "Light Rain");
    (VInt 7, "Rain"); (VInt 8, "Heavy Rain"); (VInt 9, "Snow");
    (VInt 10, "Thunder") ].

(** The ascending wind thresholds, in mph. *)
Definition wind_descs : list (Q * string) :=
  [ (1, "Calm"); (4, "Light Air"); (8, "Light Breeze"); (13, "Gentle Breeze");
    (19, "Moderate Breeze"); (25, "Fresh Breeze"); (32, "Strong Breeze");
    (39, "Near Gale"); (47, "Gale"); (55, "Strong Gale"); (64, "Storm");
    (73, "Violent Storm") ]%Q.

(** [next((label for lim, label in descs if mph < lim), "Hurricane")] *)
Fixpoint wind_label (descs : list (Q * string)) (mph : Q) : string :=
  match descs with
  | [] => "Hurricane"
  | (lim, label) :: rest => if Qlt_bool mph lim then label else wind_label rest mph
  end.

(** [int(wc) if isinstance(wc, str) and wc.isdigit() else wc] *)
Definition weather_code (wc : value) : value :=
  match wc with
  | VStr s => if isdigit s then VInt (int_of_digits s) else wc
  | _ => wc
  end.

Definition is_measure_char (c : ascii) : bool :=
  is_digit c || Ascii.eqb c "."%char || Ascii.eqb c "-"%char.

Fixpoint pow10 (n : nat) : positive :=
  match n with
  | O => 1%positive
  | S n' => (10 * pow10 n')%positive
  end.

(** [float(s)] for text made of digits, dots and dashes, the only text
    [extract_environment] passes to it: an optional sign, then digits with
    at most one dot and at least one digit.  The value is the exact
    decimal; the rounding to a binary double is not modelled. *)
Definition py_float (s : string) : result Q :=
  let (negative, body) :=
    match s with
    | String "-"%char r => (true, r)
    | _ => (false, s)
    end in
  let (ip, rest) := span is_digit body in
  let signed (q : Q) : Q := if negative then Qopp q else q in
  match rest with
  | EmptyString =>
      if String.eqb ip "" then Raise ValueError
      else Ok (signed (inject_Z (int_of_digits ip)))
  | String "."%char fr =>
      let (fp, rest2) := span is_digit fr in
      if negb (String.eqb rest2 "") then Raise ValueError
      else if String.eqb ip "" && String.eqb fp "" then Raise ValueError
      else Ok (signed (Qmake (int_of_digits (ip ++ fp)) (pow10 (String.length fp))))
  | _ => Raise ValueError
  end.

Fixpoint rev_string (acc s : string) : string :=
  match s with
  | EmptyString => acc
  | String c s' => rev_string (String c acc) s'
  end.

(** [s.strip()] *)
Definition strip (s : string) : string :=
  let s1 := snd (span is_space s) in
  rev_string "" (snd (span is_space (rev_string "" s1))).

(** [re.match] of the measure pattern on [str(val)]: group 1 is the
    longest run of digits, dots and dashes at the start (at least one
    character), whitespace is skipped, group 2 is the longest run of
    non-digits that follows.  The result is [float(group 1)] and group 2
    stripped, or [(None, None)] without a match. *)
Definition parse_measure (val : value) : result (option Q * option string) :=
  let (g1, rest) := span is_measure_char (py_str val) in
  if String.eqb g1 "" then Ok (None, None)
  else
    let rest' := snd (span is_space rest) in
    let g2 := fst (span (fun c => negb (is_digit c)) rest') in
    num <- py_float g1 ;;
    Ok (Some num, Some (strip g2)).

Record measure : Type := {
  m_raw : value;
  m_value : option Q;
  m_unit : option string
}.

Record env_parsed : Type := {
  env_raw : value;
  weather : value;
  weather_description : string;
  temperature : measure;
  wind : measure;
  pressure : measure;
  humidity : measure;
  wind_description : string
}.

Definition env_measure (env : value) (key : string) : result measure :=
  val <- attr_get env key VNone ;;
  nu <- parse_measure val ;;
  Ok {| m_raw := val; m_value := fst nu; m_unit := snd nu |}.

(** [extract_environment(match)] *)
Definition extract_environment (match_ : dict) : result env_parsed :=
  let env := py_or (get match_ "environment" (VDict [])) (VDict []) in
  wc <- attr_get env "weather" VNone ;;
  let w := weather_code wc in
  d <- kv_get weather_desc w ;;
  let description := match d with Some s => s | None => "Unknown" end in
  t <- env_measure env "temperature" ;;
  wi <- env_measure env "wind" ;;
  p <- env_measure env "pressure" ;;
  h <- env_measure env "humidity" ;;
  let wv : Q :=
    match m_value wi with
    | Some q => if Qeq_bool q 0 then 0%Q else q
    | None => 0%Q
    end in
  wind_text <- attr_get env "wind" (VStr "") ;;
  let mph := if contains "m/s" (lower (py_str wind_text))
             then (wv * (2237 # 1000))%Q else wv in
  Ok {| env_raw := env; weather := w; weather_description := description;
        temperature := t; wind := wi; pressure := p; humidity := h;
        wind_description := wind_label wind_descs mph |}.

Record event : Type := {
  ev_type : value;
  ev_time : value;
  ev_team : value;
  ev_player : value;
  ev_detail : value
}.

Definition event_types : list value :=
  [VStr "goal"; VStr "yellowcard"; VStr "redcard"; VStr "penalty"; VStr "substitution"].

(** [extract_events(match)] *)
Definition extract_events (match_ : dict) : result (list event) :=
  evs <- py_iter (get match_ "events" (VList [])) ;;
  foldM (fun (acc : list event) ev =>
           ty <- attr_get ev "type" VNone ;;
           if negb (hashable ty) then Raise TypeError
           else if py_in ty event_types then
             time <- attr_get ev "time" VNone ;;
             team <- attr_get ev "team" VNone ;;
             player <- attr_get ev "player" VNone ;;
             detail <- attr_get ev "detail" VNone ;;
             Ok (acc ++ [{| ev_type := ty; ev_time := time; ev_team := team;
                            ev_player := player; ev_detail := detail |}])%list
           else Ok acc)
        evs [].

Record team_block : Type := {
  name : value;
  score_current : value;
  score_halftime : value;
  score_detailed : value;
  position : value;
  country : value;
  logo_url : value
}.

Record competition_block : Type := {
  comp_name : value;
  comp_id : value;
  comp_country : value;
  comp_logo_url : value
}.

Record match_summary : Type := {
  match_id : value;
  status_id : value;
  status_description : value;
  status_match_time : value;
  home : team_block;
  away : team_block;
  competition : competition_block;
  round : value;
  venue : value;
  referee : value;
  neutral : bool;
  coverage : value;
  start_time : value;
  odds : odds_data;
  environment : env_parsed;
  events : list event;
  fetched_at : string
}.

(** The two entries [current, halftime] of one side of the score array. *)
Definition side_score (side : value) : value * value :=
  match side with
  | VList xs =>
      if 1 <? Z.of_nat (List.length xs)
      then (nth 0 xs VNone, nth 1 xs VNone)
      else (VInt 0, VInt 0)
  | _ => (VInt 0, VInt 0)
  end.

(** The fallback to the flat [home_scores] / [away_scores] list. *)
Definition live_fallback (scores live : value) : value :=
  if truthy scores && py_eq live (VInt 0) then
    match scores with
    | VList (x :: _) => x
    | _ => VInt 0
    end
  else live.

(** [extract_summary_fields(match)]; [now] is what [get_eastern_time()]
    reads from the clock. *)
Definition extract_summary_fields (now : string) (match_ : dict) : result match_summary :=
  let sd := get match_ "score" (VList []) in
  let '(home_pair, away_pair) :=
    match sd with
    | VList xs =>
        if 3 <? Z.of_nat (List.length xs)
        then (side_score (nth 2 xs VNone), side_score (nth 3 xs VNone))
        else ((VInt 0, VInt 0), (VInt 0, VInt 0))
    | _ => ((VInt 0, VInt 0), (VInt 0, VInt 0))
    end in
  let home_scores := get match_ "home_scores" (VList []) in
  let away_scores := get match_ "away_scores" (VList []) in
  let home_live := live_fallback home_scores (fst home_pair) in
  let away_live := live_fallback away_scores (fst away_pair) in
  o <- extract_odds match_ ;;
  e <- extract_environment match_ ;;
  evs <- extract_events match_ ;;
  Ok {| match_id := py_or (get match_ "match_id" VNone) (get match_ "id" VNone);
        status_id := get match_ "status_id" VNone;
        status_description := get match_ "status" (VStr "");
        status_match_time := get match_ "match_time" (VInt 0);
        home := {| name := get match_ "home_team" (VStr "Unknown");
                   score_current := home_live;
                   score_halftime := snd home_pair;
                   score_detailed := home_scores;
                   position := get match_ "home_position" VNone;
                   country := get match_ "home_country" VNone;
                   logo_url := get match_ "home_logo" VNone |};
        away := {| name := get match_ "away_team" (VStr "Unknown");
                   score_current := away_live;
                   score_halftime := snd away_pair;
                   score_detailed := away_scores;
                   position := get match_ "away_position" VNone;
                   country := get match_ "away_country" VNone;
                   logo_url := get match_ "away_logo" VNone |};
        competition := {| comp_name := get match_ "competition" (VStr "Unknown");
                          comp_id := get match_ "competition_id" VNone;
                          comp_country := get match_ "country" VNone;
                          comp_logo_url := get match_ "competition_logo" VNone |};
        round := get match_ "round" (VDict []);
        venue := get match_ "venue_id" VNone;
        referee := get match_ "referee_id" VNone;
        neutral := py_eq (get match_ "neutral" VNone) (VInt 1);
        coverage := get match_ "coverage" (VDict []);
        start_time := get match_ "scheduled" VNone;
        odds := o;
        environment := e;
        events := evs;
        fetched_at := now |}.

(** [a or b] where evaluating [b] may raise: [b] is evaluated only when
    [a] is falsy. *)
Definition py_or_else (a : value) (b : result value) : result value :=
  if truthy a then Ok a else b.

(** [{**d, **d2}] *)
Definition dict_update (d d2 : dict) : dict :=
  fold_left (fun acc kv => dict_set acc (fst kv) (snd kv)) d2 d.

(** [{c.get("id"): c.get("name") for c in cl if isinstance(c, dict)}] *)
Definition country_table (cl : list value) : result (list (value * value)) :=
  foldM (fun (acc : list (value * value)) c =>
           match c with
           | VDict d =>
               let id := get d "id" VNone in
               if hashable id then Ok (kv_set acc id (get d "name" VNone))
               else Raise TypeError
           | _ => Ok acc
           end)
        cl [].

(** The comprehension that flattens [odds_wrap["results"]] into one dict
    of market type to entries. *)
Definition odds_struct_of (odds_wrap : value) : result dict :=
  results <- attr_get odds_wrap "results" (VDict []) ;;
  match results with
  | VDict companies =>
      foldM (fun (acc : dict) mk =>
               match mk with
               | VDict markets => Ok (dict_update acc markets)
               | _ => Raise AttributeError
               end)
            (map snd companies) []
  | _ => Raise AttributeError
  end.

(** [x.get("country") or countries.get(x.get("country_id"))] *)
Definition resolve_country (countries : list (value * value)) (x : value) : result value :=
  c <- attr_get x "country" VNone ;;
  py_or_else c
    (cid <- attr_get x "country_id" VNone ;;
     found <- kv_get countries cid ;;
     Ok (match found with Some n => n | None => VNone end)).

(** The dict display that builds [merged] in [merge_and_summarize]. *)
Definition merged_record (live detail : dict) (odds_struct : dict) (odds_wrap : value)
    (countries : list (value * value)) (home away comp : value) : result dict :=
  let base := dict_update live detail in
  let environment :=
    get detail "environment" (get live "environment" (VDict [])) in
  let events := get detail "events" (get live "events" (VList [])) in
  home_name <- attr_get home "name" VNone ;;
  home_logo <- attr_get home "logo" VNone ;;
  home_country <- resolve_country countries home ;;
  away_name <- attr_get away "name" VNone ;;
  away_logo <- attr_get away "logo" VNone ;;
  away_country <- resolve_country countries away ;;
  competition_name <- attr_get comp "name" VNone ;;
  competition_logo <- attr_get comp "logo" VNone ;;
  competition_country <- resolve_country countries comp ;;
  Ok (fold_left (fun acc kv => dict_set acc (fst kv) (snd kv))
        [ ("odds", VDict odds_struct);
          ("environment", environment);
          ("events", events);
          ("home_team", py_or home_name (get live "home_name" VNone));
          ("home_logo", home_logo);
          ("home_country", home_country);
          ("away_team", py_or away_name (get live "away_name" VNone));
          ("away_logo", away_logo);
          ("away_country", away_country);
          ("competition", py_or competition_name (get live "competition_name" VNone));
          ("competition_logo", competition_logo);
          ("country", competition_country);
          ("odds_raw", odds_wrap) ]
        base).

(** [merge_and_summarize(live, payload)] *)
Definition merge_and_summarize (now : string) (live payload : value) : result match_summary :=
  match live with
  | VDict l =>
      let mid := py_or (get l "id" VNone) (get l "match_id" VNone) in
      dm <- attr_get payload "match_details" (VDict []) ;;
      om <- attr_get payload "match_odds" (VDict []) ;;
      tm <- attr_get payload "team_info" (VDict []) ;;
      cm <- attr_get payload "competition_info" (VDict []) ;;
      cw <- attr_get payload "countries" (VDict []) ;;
      cw_results <- attr_get cw "results" VNone ;;
      cw_result <- attr_get cw "result" VNone ;;
      let cl := py_or (py_or cw_results cw_result) (VList []) in
      cs <- py_iter cl ;;
      countries <- country_table cs ;;
      detail <- first_result dm mid ;;
      odds_wrap <- match om with
                   | VDict o => get_by o mid (VDict [])
                   | _ => Raise AttributeError
                   end ;;
      odds_struct <- odds_struct_of odds_wrap ;;
      home_id <- py_or_else (get l "home_team_id" VNone) (attr_get detail "home_team_id" VNone) ;;
      home <- first_result tm home_id ;;
      away_id <- py_or_else (get l "away_team_id" VNone) (attr_get detail "away_team_id" VNone) ;;
      away <- first_result tm away_id ;;
      comp_id <- py_or_else (get l "competition_id" VNone)
                            (attr_get detail "competition_id" VNone) ;;
      comp <- first_result cm comp_id ;;
      match detail with
      | VDict d =>
          merged <- merged_record l d odds_struct odds_wrap countries home away comp ;;
          extract_summary_fields now merged
      | _ => Raise TypeError
      end
  | _ => Raise AttributeError
  end.

(** *** History store *)

(** What [save_match_summaries] finds at the path of the history file. *)
Inductive file_state : Type :=
| NoFile
| Unreadable
| Stored (doc : value).

Definition MAX_HISTORY_ENTRIES : Z := 100.

(** [{str(s.get("match_id")): s for s in summaries if s.get("match_id")}] *)
Definition group_summaries (summaries : list value) : result dict :=
  foldM (fun (grouped : dict) s =>
           mid <- attr_get s "match_id" VNone ;;
           if truthy mid then Ok (dict_set grouped (py_str mid) s) else Ok grouped)
        summaries [].

(** [l[-n:]] *)
Definition last_n {A : Type} (n : Z) (l : list A) : list A :=
  skipn (List.length l - Z.to_nat n) l.

(** The body of the [try] block: the document that is written. *)
Definition updated_document (ny : string) (batch : dict) (file : file_state) : result dict :=
  data <- match file with
          | NoFile => Ok [("history", VList [])]
          | Unreadable => Raise ValueError
          | Stored loaded_data =>
              match loaded_data with
              | VDict d =>
                  if truthy (get d "history" VNone) then Ok d
                  else Ok [("history", VList [loaded_data])]
              | _ => Ok [("history", VList [loaded_data])]
              end
          end ;;
  let history := get data "history" VNone in
  n <- py_len history ;;
  match history with
  | VList entries =>
      let kept := if MAX_HISTORY_ENTRIES <=? n
                  then last_n MAX_HISTORY_ENTRIES entries else entries in
      let entries' := (kept ++ [VDict batch])%list in
      let data1 := dict_set data "history" (VList entries') in
      let data2 := dict_set data1 "last_updated" (get batch "timestamp" VNone) in
      let data3 := dict_set data2 "total_entries" (VInt (Z.of_nat (List.length entries'))) in
      let data4 := dict_set data3 "latest_match_count" (get batch "total_matches" VNone) in
      Ok (dict_set data4 "ny_timestamp" (VStr ny))
  | _ => Raise AttributeError
  end.

(** [save_match_summaries(summaries)]: [timestamp] and [ny] are the two
    clock readings.  The result is the returned flag and the file
    afterwards.  Building [grouped] happens before the [try], so an
    exception there leaves the function; any exception inside the [try]
    makes it return [False]. *)
Definition save_match_summaries (timestamp ny : string) (summaries : list value)
    (file : file_state) : result (bool * file_state) :=
  grouped <- group_summaries summaries ;;
  let batch := [ ("timestamp", VStr timestamp);
                 ("total_matches", VInt (Z.of_nat (List.length grouped)));
                 ("matches", VDict grouped) ] in
  match updated_document ny batch file with
  | Ok data => Ok (true, Stored (VDict data))
  | Raise _ => Ok (false, file)
  end.

(** ** Step 7: status filtering and display helpers ([step2.7.py]) *)

(** The table of [infer_country_from_teams], in source order. *)
Definition country_indicators : list (string * list string) :=
  [ ("australia", ["australia"; "aussie"; "socceroos"; "matildas"]);
    ("argentina", ["argentina"; "boca"; "river plate"; "racing club"]);
    ("brazil", ["brazil"; "sao paulo"; "flamengo"; "corinthians"; "palmeiras"]);
    ("england", ["england"; "manchester"; "liverpool"; "chelsea"; "arsenal"; "tottenham"]);
    ("spain", ["spain"; "real madrid"; "barcelona"; "atletico"; "sevilla"; "valencia"]);
    ("germany", ["germany"; "bayern"; "borussia"; "schalke"; "hamburg"]);
    ("france", ["france"; "psg"; "marseille"; "lyon"; "monaco"; "saint-etienne"]);
    ("italy", ["italy"; "juventus"; "inter"; "milan"; "roma"; "napoli"; "lazio"]);
    ("netherlands", ["netherlands"; "ajax"; "psv"; "feyenoord"]);
    ("portugal", ["portugal"; "porto"; "benfica"; "sporting"]);
    ("mexico", ["mexico"; "america"; "guadalajara"; "cruz azul"; "pumas"]);
    ("usa", ["usa"; "united states"; "la galaxy"; "seattle sounders"; "new york"]);
    ("south korea", ["korea"; "seoul"; "busan"; "daegu"]);
    ("japan", ["japan"; "tokyo"; "osaka"; "yokohama"; "kashima"]);
    ("china", ["china"; "beijing"; "shanghai"; "guangzhou"]);
    ("russia", ["russia"; "moscow"; "spartak"; "cska"; "dynamo"; "zenit"]);
    ("norway", ["norway"; "oslo"; "bergen"]);
    ("czech republic", ["czech"; "praha"; "prague"; "brno"]);
    ("austria", ["austria"; "vienna"; "salzburg"]) ].

(** The countries appended for one team name by the nested loop of the
    international-friendly case: one entry per matching indicator, in
    table order. *)
Definition matched_countries (table : list (string * list string)) (team : string) : list string :=
  flat_map (fun ci : string * list string =>
              flat_map (fun indicator =>
                          if contains indicator team then [fst ci] else [])
                       (snd ci))
           table.

(** The generic scan: the first country with an indicator in the text. *)
Fixpoint scan_indicators (table : list (string * list string)) (team_text : string)
    : option string :=
  match table with
  | [] => None
  | (c, indicators) :: rest =>
      if existsb (fun indicator => contains indicator team_text) indicators
      then Some c
      else scan_indicators rest team_text
  end.

(** The part of [infer_country_from_teams] after the three names have
    been read and lower-cased. *)
Definition infer_country (home_team away_team competition_ : string) : string :=
  let generic :=
    match scan_indicators country_indicators (home_team ++ " " ++ away_team) with
    | Some c => title c
    | None => "Unknown"
    end in
  if contains "international" competition_ && contains "friendly" competition_ then
    let home_countries := matched_countries country_indicators home_team in
    let away_countries := matched_countries country_indicators away_team in
    match home_countries, away_countries with
    | h :: _, a :: _ => if String.eqb h a then title h else "International"
    | h :: _, [] => title h
    | [], a :: _ => title a
    | [], [] => generic
    end
  else generic.

(** [infer_country_from_teams(match_data)] *)
Definition infer_country_from_teams (match_data : value) : result string :=
  h <- attr_get match_data "home_team" (VStr "") ;;
  home_team <- py_lower h ;;
  a <- attr_get match_data "away_team" (VStr "") ;;
  away_team <- py_lower a ;;
  c <- attr_get match_data "competition" (VStr "") ;;
  competition_ <- py_lower c ;;
  Ok (infer_country home_team away_team competition_).

(** [status_order] of [sort_matches_by_competition_and_time]. *)
Definition status_order : list (value * Z) :=
  [ (VInt 2, 1); (VInt 3, 2); (VInt 4, 3); (VInt 5, 4); (VInt 6, 5); (VInt 7, 6) ].

(** One competition group: its country and its [(match_id, match_data)]
    items. *)
Record comp_group : Type := {
  group_country : value;
  group_matches : list (string * value)
}.

(** The country of one match: the [country] field, "Unknown" when it is
    absent or falsy, and the inferred country when it is the text
    "None". *)
Definition match_country (match_data : value) : result value :=
  c0 <- attr_get match_data "country" (VStr "Unknown") ;;
  let c1 := py_or c0 (VStr "Unknown") in
  if py_in c1 [VNone; VStr "None"]
  then (s <- infer_country_from_teams match_data ;; Ok (VStr s))
  else Ok c1.

(** The body of the grouping loop. *)
Definition add_to_group (groups : list (value * comp_group)) (item : string * value)
    : result (list (value * comp_group)) :=
  let match_data := snd item in
  comp <- attr_get match_data "competition" (VStr "Unknown Competition") ;;
  country_ <- match_country match_data ;;
  found <- kv_get groups comp ;;
  match found with
  | Some g =>
      Ok (kv_set groups comp
            {| group_country := group_country g;
               group_matches := (group_matches g ++ [item])%list |})
  | None =>
      Ok (kv_set groups comp {| group_country := country_; group_matches := [item] |})
  end.

(** The sort key of one item: the tuple
    [(status_order.get(status_id, 99), match_id)]. *)
Definition match_sort_key (item : string * value) : result value :=
  sid <- attr_get (snd item) "status_id" (VInt 99) ;;
  rank <- kv_get status_order sid ;;
  mid <- attr_get (snd item) "match_id" (VStr "") ;;
  Ok (VList [VInt (match rank with Some r => r | None => 99 end); mid]).

(** The sort key of one group: [(country or "Unknown", comp)]. *)
Definition group_sort_key (g : value * comp_group) : result value :=
  Ok (VList [py_or (group_country (snd g)) (VStr "Unknown"); fst g]).

(** [sorted(l, key=key)] and [l.sort(key=key)]: the keys are computed
    first, then compared. *)
Definition sort_by_key {A : Type} (key : A -> result value) (l : list A) : result (list A) :=
  keyed <- mapM (fun x => k <- key x ;; Ok (k, x)) l ;;
  sorted <- py_sorted (fun a b : value * A => py_lt (fst a) (fst b)) keyed ;;
  Ok (map snd sorted).

(** The list [sorted_comps] of [sort_matches_by_competition_and_time]:
    the groups in output order, each with its country and its ordered
    items. *)
Definition sorted_comps (matches : value) : result (list (value * comp_group)) :=
  match matches with
  | VDict items =>
      competition_groups <- foldM add_to_group items [] ;;
      sorted_groups <-
        mapM (fun cg : value * comp_group =>
                ms <- sort_by_key match_sort_key (group_matches (snd cg)) ;;
                Ok (fst cg, {| group_country := group_country (snd cg);
                               group_matches := ms |}))
             competition_groups ;;
      sort_by_key group_sort_key sorted_groups
  | _ => Raise AttributeError
  end.

(** [sort_matches_by_competition_and_time(matches)]: the competitions in
    output order, each with its ordered items. *)
Definition sort_matches_by_competition_and_time (matches : value)
    : result (list (value * list (string * value))) :=
  groups <- sorted_comps matches ;;
  Ok (map (fun cg : value * comp_group => (fst cg, group_matches (snd cg))) groups).

(** How [process_environment_like_step2] renders a temperature or a wind:
    the arguments of the format string when the reading was numeric, the
    text otherwise. *)
Inductive temperature_display : Type :=
| TempCelsius (temp_c temp_f : Z)
| TempText (s : string).

Inductive wind_display : Type :=
| WindMph (wind_mph : Q) (description : string)
| WindText (s : string).

Record env_display : Type := {
  d_raw : value;
  d_weather : value;
  d_weather_description : string;
  d_temperature : temperature_display;
  d_wind_description : option string;
  d_wind : wind_display;
  d_pressure : string;
  d_humidity : string
}.

(** [int(v)] *)
Definition py_int (v : value) : result Z :=
  match v with
  | VInt n => Ok n
  | VBool b => Ok (if b then 1 else 0)
  | VFloat q _ => Ok (Z.quot (Qnum q) (Zpos (Qden q)))
  | VStr s =>
      let body := match s with String "-"%char r => r | _ => s end in
      if isdigit body
      then Ok (match s with
               | String "-"%char _ => - int_of_digits body
               | _ => int_of_digits body
               end)
      else Raise ValueError
  | _ => Raise TypeError
  end.

(** [round(q)]: to the nearest integer, ties to the even one. *)
Definition py_round (q : Q) : Z :=
  let f := Qfloor q in
  let r := (q - inject_Z f)%Q in
  if Qlt_bool r (1 # 2) then f
  else if Qlt_bool (1 # 2) r then f + 1
  else if Z.even f then f else f + 1.

(** [float(v)] for the values whose text is digits and dots. *)
Definition py_float_of (v : value) : result Q :=
  match v with
  | VInt n => Ok (inject_Z n)
  | VBool b => Ok (inject_Z (if b then 1 else 0))
  | VFloat q _ => Ok q
  | VStr s => py_float s
  | _ => Raise TypeError
  end.

(** [process_environment_like_step2(env)] *)
Definition process_environment_like_step2 (env : value) : result env_display :=
  wc <- attr_get env "weather" VNone ;;
  let w := weather_code wc in
  d <- kv_get weather_desc w ;;
  let description :=
    match d with
    | Some s => s
    | None => ("Unknown (" ++ py_str w ++ ")")%string
    end in
  temp <- attr_get env "temperature" VNone ;;
  t <- (if truthy temp && isdigit (remove_char "-"%char (py_str temp)) then
          temp_c <- py_int temp ;;
          Ok (TempCelsius temp_c
                (py_round (inject_Z temp_c * 9 / 5 + 32)%Q))
        else Ok (TempText (if truthy temp then py_str temp else "Unknown"))) ;;
  wind_ <- attr_get env "wind" VNone ;;
  wd <- (if truthy wind_ && isdigit (remove_char "."%char (py_str wind_)) then
           wind_mph <- py_float_of wind_ ;;
           let label := wind_label wind_descs wind_mph in
           Ok (Some label, WindMph wind_mph label)
         else Ok (None, WindText (if truthy wind_ then py_str wind_ else "Unknown"))) ;;
  p <- attr_get env "pressure" (VStr "Unknown") ;;
  h <- attr_get env "humidity" (VStr "Unknown") ;;
  Ok {| d_raw := env; d_weather := w; d_weather_description := description;
        d_temperature := t;
        d_wind_description := fst wd; d_wind := snd wd;
        d_pressure := (py_str p ++ " hPa")%string;
        d_humidity := (py_str h ++ "%")%string |}.

(** ** Definitions used to state the properties *)

(** The object [first_result] picks the first element from. *)
Definition selected_field (w : dict) : value :=
  py_or (py_or (get w "results" VNone) (get w "result" VNone)) (VList []).

(** The parsed minute of an entry: the leading integer of its second
    field. *)
Definition minute_of (ent : value) : option Z :=
  match ent with
  | VList (_ :: marker :: _) => _safe_minute marker
  | _ => None
  end.

(** The entries that keep a parsed minute, in input order. *)
Definition parsed_entries (entries : list value) : list (Z * value) :=
  flat_map (fun ent =>
              match minute_of ent with
              | Some m => [(m, ent)]
              | None => []
              end) entries.

(** The preferred window: a parsed minute from 3 to 6. *)
Definition in_window (t : Z * value) : bool := (3 <=? fst t) && (fst t <=? 6).

(** The fallback range: a parsed minute below 10. *)
Definition under_ten (t : Z * value) : bool := fst t <? 10.

(** The history list of a stored document. *)
Definition history_of (file : file_state) : list value :=
  match file with
  | Stored (VDict d) =>
      match get d "history" VNone with
      | VList entries => entries
      | _ => []
      end
  | _ => []
  end.

(** Appending batches one at a time; each item is the timestamp of the
    cycle and its summaries. *)
Fixpoint append_batches (batches : list (string * list value)) (file : file_state)
    : result file_state :=
  match batches with
  | [] => Ok file
  | (timestamp, summaries) :: rest =>
      r <- save_match_summaries timestamp timestamp summaries file ;;
      append_batches rest (snd r)
  end.

(** [n] batches, stamped "1", "2", ..., each with one summary. *)
Definition numbered_batches (n : nat) : list (string * list value) :=
  map (fun i => (str_of_int (Z.of_nat i), [VDict [("match_id", VStr "m1")]]))
      (seq 1 n).

(** The timestamp of a stored batch. *)
Definition batch_timestamp (batch : value) : value :=
  match batch with
  | VDict b => get b "timestamp" VNone
  | _ => VNone
  end.

(** A [bool], [int] or [float]. *)
Definition is_number (v : value) : bool :=
  match num_of v with
  | Some _ => true
  | None => false
  end.

(** Every key of a program-built dict is a number. *)
Definition keys_numeric {A : Type} (m : list (value * A)) : Prop :=
  Forall (fun ka => is_number (fst ka) = true) m.

(** The stable insertion sort for a total boolean comparison. *)
Fixpoint insert_pure {A : Type} (ltb : A -> A -> bool) (x : A) (l : list A) : list A :=
  match l with
  | [] => [x]
  | y :: l' => if ltb y x then y :: insert_pure ltb x l' else x :: y :: l'
  end.

(** [isort ltb l]: the elements of [l] inserted one by one, from the
    last to the first. *)
Fixpoint isort {A : Type} (ltb : A -> A -> bool) (l : list A) : list A :=
  match l with
  | [] => []
  | x :: l' => insert_pure ltb x (isort ltb l')
  end.

Definition b2z (b : bool) : Z := if b then 1 else 0.

(** A status id as the provider sends it: absent, or a number. *)
Definition status_ok (s : value) : Prop := s = VNone \/ is_number s = true.

(** How many of the status ids equal [v]. *)
Definition count_equal (v : value) (statuses : list value) : Z :=
  Z.of_nat (List.length (filter (fun s => py_eq s v) statuses)).

(** [a < b] on numbers. *)
Definition num_ltb (a b : value) : bool :=
  match num_of a, num_of b with
  | Some x, Some y => Qlt_bool x y
  | _, _ => false
  end.

(** [v.get(k, dflt)] read off a value that is a dict. *)
Definition field (v : value) (k : string) (dflt : value) : value :=
  match v with
  | VDict d => get d k dflt
  | _ => dflt
  end.

(** The elements of a value that can be iterated. *)
Definition items (v : value) : list value :=
  match py_iter v with
  | Ok l => l
  | Raise _ => []
  end.

(** The lower-cased name of a selection. *)
Definition lower_name (sel : value) : string :=
  match field sel "name" (VStr "") with
  | VStr s => lower s
  | _ => EmptyString
  end.

(** [nm in ("yes", "no")] *)
Definition yes_or_no (nm : string) : bool :=
  String.eqb nm "yes" || String.eqb nm "no".

(** The yes/no selections of one market, as (name, odds), in order. *)
Definition selection_pairs (sels : list value) : list (string * value) :=
  flat_map (fun sel =>
              if yes_or_no (lower_name sel)
              then [(lower_name sel, field sel "odds" VNone)]
              else []) sels.

(** The yes/no selections of every market named "Both Teams to Score". *)
Definition btts_pairs (markets : list value) : list (string * value) :=
  flat_map (fun m =>
              if py_eq (field m "name" VNone) (VStr "Both Teams to Score")
              then selection_pairs (items (field m "selections" (VList [])))
              else []) markets.

(** [match["betting"]["markets"]], empty when absent. *)
Definition betting_markets (match_ : dict) : list value :=
  items (field (get match_ "betting" (VDict [])) "markets" (VList [])).

(** Storing one (name, odds) pair. *)
Definition set_pair (d : dict) (p : string * value) : dict :=
  dict_set d (fst p) (snd p).

(** A record with a market "Both Teams to Score" that offers "Yes" and
    "No", next to another market. *)
Definition btts_example : dict :=
  [("id", VStr "m1");
   ("betting",
    VDict [("markets",
            VList [VDict [("name", VStr "Match Winner");
                          ("selections",
                           VList [VDict [("name", VStr "Yes"); ("odds", VInt 9)]])];
                   VDict [("name", VStr "Both Teams to Score");
                          ("selections",
                           VList [VDict [("name", VStr "Yes");
                                         ("odds", VFloat (17 # 10) "1.7")];
                                  VDict [("name", VStr "No");
                                         ("odds", VFloat (21 # 10) "2.1")];
                                  VDict [("name", VStr "Maybe");
                                         ("odds", VInt 5)]])]])])].

(** Some indicator of the country occurs in the text. *)
Definition mentions (text : string) (ci : string * list string) : bool :=
  existsb (fun indicator => contains indicator text) (snd ci).

(** The first country of the table, in source order, one of whose
    indicators occurs in the text. *)
Definition first_country_in (table : list (string * list string)) (text : string)
    : option string :=
  option_map fst (find (mentions text) table).

(** The same over the table of the program. *)
Definition first_country (text : string) : option string :=
  first_country_in country_indicators text.

(** What a three-way comparison must satisfy to order a sort. *)
Definition cmp_ok {K : Type} (cmp : K -> K -> comparison) : Prop :=
  (forall a b, cmp a b = Eq <-> a = b) /\
  (forall a b, cmp a b = CompOpp (cmp b a)) /\
  (forall a b c, cmp a b = Lt -> cmp b c = Lt -> cmp a c = Lt).

(** The strict order of a comparison, as a boolean. *)
Definition ltb_of {K : Type} (cmp : K -> K -> comparison) (a b : K) : bool :=
  match cmp a b with
  | Lt => true
  | _ => false
  end.

(** Tuples compare lexicographically. *)
Definition lex_cmp {K1 K2 : Type} (cmp1 : K1 -> K1 -> comparison)
    (cmp2 : K2 -> K2 -> comparison) (a b : K1 * K2) : comparison :=
  match cmp1 (fst a) (fst b) with
  | Eq => cmp2 (snd a) (snd b)
  | c => c
  end.

(** The comparison of two items by their keys. *)
Definition key_ltb {A K : Type} (cmp : K -> K -> comparison) (key : A -> K)
    (x y : A) : bool :=
  ltb_of cmp (key x) (key y).

(** [x] does not come after [y]. *)
Definition key_le {A K : Type} (cmp : K -> K -> comparison) (key : A -> K)
    (x y : A) : Prop :=
  cmp (key x) (key y) <> Gt.

(** One entry [(match_id, match_data)] of the mapping given to the
    grouper. *)
Definition item : Type := (string * value)%type.

(** The competition name of an item. *)
Definition item_competition (it : item) : string :=
  match field (snd it) "competition" (VStr "Unknown Competition") with
  | VStr s => s
  | _ => EmptyString
  end.

(** The status-priority rank: the entry of [status_order], 99 otherwise. *)
Definition item_rank (it : item) : Z :=
  match kv_find status_order (field (snd it) "status_id" (VInt 99)) with
  | Some r => r
  | None => 99
  end.

(** The [match_id] field of an item, the tie-break of the sort. *)
Definition item_match_id (it : item) : string :=
  match field (snd it) "match_id" (VStr "") with
  | VStr s => s
  | _ => EmptyString
  end.

(** The sort key of an item. *)
Definition item_key (it : item) : Z * string := (item_rank it, item_match_id it).

(** A country that is [None] or empty counts as "Unknown". *)
Definition country_name (c : value) : string :=
  match py_or c (VStr "Unknown") with
  | VStr s => s
  | _ => EmptyString
  end.

(** The sort key of a group: country name, then competition name. *)
Definition group_key (g : value * comp_group) : string * string :=
  (country_name (group_country (snd g)),
   match fst g with VStr s => s | _ => EmptyString end).

(** The two lexicographic orders of the grouper. *)
Definition rank_id_cmp : Z * string -> Z * string -> comparison :=
  lex_cmp Z.compare String.compare.

Definition country_comp_cmp : string * string -> string * string -> comparison :=
  lex_cmp String.compare String.compare.

(** The matches the grouper is specified for: a dict whose competition
    and match id are strings (or absent), whose country resolves to a
    string, and whose status id can be looked up. *)
Definition well_formed_match (md : value) : Prop :=
  exists d,
    md = VDict d /\
    (exists s, get d "competition" (VStr "Unknown Competition") = VStr s) /\
    (exists s, match_country md = Ok (VStr s)) /\
    hashable (get d "status_id" (VInt 99)) = true /\
    (exists s, get d "match_id" (VStr "") = VStr s).

(** The item belongs to competition [c]. *)
Definition has_comp (c : string) (it : item) : bool :=
  String.eqb (item_competition it) c.

(** A group holds the items of its competition seen so far, in input
    order, and has the country of the first of them. *)
Definition group_ok (seen : list item) (kg : value * comp_group) : Prop :=
  exists c first rest,
    fst kg = VStr c /\
    group_matches (snd kg) = filter (has_comp c) seen /\
    filter (has_comp c) seen = first :: rest /\
    match_country (snd first) = Ok (group_country (snd kg)).

(** The state of the grouping loop after the items [seen]: one group per
    competition met, each as [group_ok] says. *)
Definition grouped (seen : list item) (groups : list (value * comp_group)) : Prop :=
  NoDup (map fst groups) /\
  Forall (group_ok seen) groups /\
  (forall it, In it seen -> In (VStr (item_competition it)) (map fst groups)).

(** A group with its items sorted by [(rank, match_id)]. *)
Definition sort_group (cg : value * comp_group) : value * comp_group :=
  (fst cg, {| group_country := group_country (snd cg);
              group_matches := isort (key_ltb rank_id_cmp item_key)
                                     (group_matches (snd cg)) |}).

(** Three matches of one competition with status 3, 2 and 2, and one
    match of a competition without country. *)
Definition grouper_example : list item :=
  [ ("m3", VDict [("competition", VStr "Serie A"); ("country", VStr "Italy");
                  ("status_id", VInt 3); ("match_id", VStr "m3")]);
    ("m2", VDict [("competition", VStr "Serie A"); ("country", VStr "Italy");
                  ("status_id", VInt 2); ("match_id", VStr "m2")]);
    ("m1", VDict [("competition", VStr "Serie A"); ("country", VStr "Italy");
                  ("status_id", VInt 2); ("match_id", VStr "m1")]);
    ("m0", VDict [("competition", VStr "Cup"); ("country", VNone);
                  ("status_id", VInt 8); ("match_id", VStr "m0")]) ].

(** The batch that [save_match_summaries] appends. *)
Definition new_batch (timestamp : string) (grouped : dict) : dict :=
  [ ("timestamp", VStr timestamp);
    ("total_matches", VInt (Z.of_nat (List.length grouped)));
    ("matches", VDict grouped) ].

(** The prior content of the history file can be extended: there is no
    file, or the file holds JSON whose [history], when it counts as true,
    is a list. *)
Definition history_usable (file : file_state) : bool :=
  match file with
  | NoFile => true
  | Unreadable => false
  | Stored (VDict d) =>
      match get d "history" VNone with
      | VList _ => true
      | h => negb (truthy h)
      end
  | Stored _ => true
  end.

(** The (key, summary) pairs that the grouping keeps: one per summary
    whose [match_id] counts as true. *)
Definition summary_pairs (summaries : list value) : list (string * value) :=
  flat_map (fun s =>
              if truthy (field s "match_id" VNone)
              then [(py_str (field s "match_id" VNone), s)]
              else []) summaries.

(** The five fields that [extract_events] copies from an event. *)
Definition event_of (ev : value) : event :=
  {| ev_type := field ev "type" VNone;
     ev_time := field ev "time" VNone;
     ev_team := field ev "team" VNone;
     ev_player := field ev "player" VNone;
     ev_detail := field ev "detail" VNone |}.

(** The type of the event is one of the five that are kept. *)
Definition event_allowed (ev : value) : bool :=
  py_in (field ev "type" VNone) event_types.

(** The entry that one market is built from: the first entry that the
    time-window selector returns for the series, when it has at least five
    fields. *)
Definition selected_entry (raw_odds : value) (key : string) : option (list value) :=
  match attr_get raw_odds key (VList []) with
  | Ok entries =>
      match filter_by_time entries with
      | Ok (VList entry :: _) =>
          if 5 <=? Z.of_nat (List.length entry) then Some entry else None
      | _ => None
      end
  | Raise _ => None
  end.

(** The named fields of the three markets, from the positions of the
    entry. *)
Definition result_fields (entry : list value) : dict :=
  [("home", nth 2 entry VNone); ("draw", nth 3 entry VNone);
   ("away", nth 4 entry VNone); ("timestamp", nth 0 entry VNone);
   ("match_time", nth 1 entry VNone)].

Definition spread_fields (entry : list value) : dict :=
  [("handicap", nth 3 entry VNone); ("home", nth 2 entry VNone);
   ("away", nth 4 entry VNone); ("timestamp", nth 0 entry VNone);
   ("match_time", nth 1 entry VNone)].

Definition line_fields (entry : list value) : dict :=
  [("line", nth 3 entry VNone); ("over", nth 2 entry VNone);
   ("under", nth 4 entry VNone); ("timestamp", nth 0 entry VNone);
   ("match_time", nth 1 entry VNone)].

(** A record with a result series of three snapshots and a total series
    whose only snapshot is too short. *)
Definition odds_example : dict :=
  [("id", VStr "m1");
   ("odds",
    VDict [("eu", VList [VList [VInt 10; VStr "1"; VInt 2; VInt 3; VInt 4];
                         VList [VInt 20; VStr "4"; VInt 5; VInt 6; VInt 7];
                         VList [VInt 30; VStr "5"; VInt 8; VInt 9; VInt 1]]);
           ("bs", VList [VList [VInt 20; VStr "4"; VInt 5]])])].

(** The id under which [merge_and_summarize] looks a match up. *)
Definition lookup_id (live : dict) : value :=
  py_or (get live "id" VNone) (get live "match_id" VNone).

(** The detail record that [merge_and_summarize] finds for a match: the
    first result stored under the text of its id, empty when there is
    none. *)
Definition detail_record (live : dict) (payload : value) : dict :=
  match first_result (field payload "match_details" (VDict [])) (lookup_id live) with
  | Ok (VDict detail) => detail
  | _ => []
  end.

(** A live stub with status 2 whose detail record, stored under the text
    of the integer id, has status 4; the odds history is stored under the
    same text. *)
Definition merge_example_live : dict :=
  [("id", VInt 7); ("status_id", VInt 2); ("venue_id", VStr "v1")].

Definition merge_example_payload : value :=
  VDict [("match_details",
          VDict [("7", VDict [("results",
                               VList [VDict [("id", VInt 7); ("status_id", VInt 4)]])])]);
         ("match_odds",
          VDict [("7", VDict [("results",
                               VDict [("2", VDict [("eu",
                                 VList [VList [VInt 10; VStr "4"; VInt 2; VInt 3;
                                               VInt 4]])])])])])].

(** Every label that the country inference can return. *)
Definition country_labels : list string :=
  [ "International"; "Unknown"; "Australia"; "Argentina"; "Brazil"; "England";
    "Spain"; "Germany"; "France"; "Italy"; "Netherlands"; "Portugal"; "Mexico";
    "Usa"; "South Korea"; "Japan"; "China"; "Russia"; "Norway"; "Czech Republic";
    "Austria" ].

(** A match without country field whose teams name a Korean city. *)
Definition country_example : dict :=
  [("home_team", VStr "FC Seoul"); ("away_team", VStr "Atlantis");
   ("competition", VStr "K League"); ("country", VStr "None")].

(** A match whose wind reading is the bare number "12.5". *)
Definition wind_example : dict :=
  [("id", VStr "m1");
   ("environment", VDict [("weather", VStr "3"); ("wind", VStr "12.5")])].



(** A result series with snapshots at minutes 1, 8 and 12. *)
Definition selector_example : value :=
  VList [VList [VInt 10; VStr "12"; VInt 2; VInt 3; VInt 4];
         VList [VInt 20; VStr "8"; VInt 5; VInt 6; VInt 7];
         VList [VInt 30; VStr "1"; VInt 8; VInt 9; VInt 1]].

(** All the items held by the groups, group after group. *)
Definition group_items (groups : list (value * comp_group)) : list item :=
  flat_map (fun g : value * comp_group => group_matches (snd g)) groups.

(** The item is filed under the key [k]: [k] equals its competition. *)
Definition filed_under (k : value) (it : item) : Prop :=
  exists comp,
    attr_get (snd it) "competition" (VStr "Unknown Competition") = Ok comp /\
    py_eq k comp = true.

(** Matches with anything in their fields: a number as competition, no
    match id, a status that is text. *)
Definition untidy_example : list item :=
  [ ("a", VDict [("competition", VInt 7); ("status_id", VInt 3)]);
    ("b", VDict [("country", VStr "Peru"); ("status_id", VInt 2)]);
    ("c", VDict [("competition", VInt 7); ("status_id", VInt 2)]);
    ("d", VDict [("competition", VFloat 7 "7.0"); ("status_id", VStr "live")]) ].

(** ** Step 1: the detailed status mapping ([step1_json.py]) *)

(** One entry of [status_groups]. *)
Record status_group : Type := {
  sg_status_id : value;
  sg_count : Z;
  sg_match_ids : list value
}.

(** [status_desc_map.get(status_id, f"Unknown Status (ID: {status_id})")] *)
Definition detailed_status_desc (status_id : value) : result string :=
  d <- kv_get status_desc_map status_id ;;
  Ok (match d with
      | Some s => s
      | None => ("Unknown Status (ID: " ++ py_str status_id ++ ")")%string
      end).

(** The body of the loop of [create_detailed_status_mapping]; the groups
    are keyed by the description. *)
Definition add_status_group (status_groups : list (value * status_group)) (m : value)
    : result (list (value * status_group)) :=
  match_id_ <- attr_get m "id" (VStr "NO_ID") ;;
  status_id_ <- extract_status_id m ;;
  match status_id_ with
  | VNone => Ok status_groups
  | _ =>
      status_desc <- detailed_status_desc status_id_ ;;
      let groups1 :=
        match kv_find status_groups (VStr status_desc) with
        | Some _ => status_groups
        | None =>
            kv_set status_groups (VStr status_desc)
              {| sg_status_id := status_id_; sg_count := 0; sg_match_ids := [] |}
        end in
      match kv_find groups1 (VStr status_desc) with
      | Some g =>
          Ok (kv_set groups1 (VStr status_desc)
                {| sg_status_id := sg_status_id g;
                   sg_count := sg_count g + 1;
                   sg_match_ids := (sg_match_ids g ++ [match_id_])%list |})
      | None => Raise KeyError
      end
  end.

(** [create_detailed_status_mapping(live_matches_data)] *)
Definition create_detailed_status_mapping (live_matches_data : value)
    : result (list (value * status_group)) :=
  if negb (truthy live_matches_data) then Ok [] else
  match live_matches_data with
  | VDict d =>
      match dict_get d "results" with
      | None => Ok []
      | Some matches =>
          ms <- py_iter matches ;;
          foldM add_status_group ms []
      end
  | VList xs =>
      if py_in (VStr "results") xs then Raise TypeError else Ok []
  | VStr s =>
      if contains "results" s then Raise TypeError else Ok []
  | _ => Raise TypeError
  end.

(** The match has a status id, in either of the two places. *)
Definition has_status (m : value) : bool :=
  match extract_status_id m with
  | Ok VNone => false
  | Ok _ => true
  | Raise _ => false
  end.

(** The sum of the counts of all groups. *)
Definition total_count (status_groups : list (value * status_group)) : Z :=
  fold_right Z.add 0 (map (fun g => sg_count (snd g)) status_groups).

(** All the match ids listed, group after group. *)
Definition listed_ids (status_groups : list (value * status_group)) : list value :=
  flat_map (fun g : value * status_group => sg_match_ids (snd g)) status_groups.

(** A feed of five matches: two in the first half, one with an unknown
    code, one that ended, and one without status. *)
Definition feed_example : value :=
  VDict [("results",
          VList [VDict [("id", VStr "a"); ("status_id", VInt 2)];
                 VDict [("id", VStr "b"); ("status_id", VInt 8)];
                 VDict [("id", VStr "c"); ("score", VList [VStr "c"; VInt 2])];
                 VDict [("id", VStr "d")];
                 VDict [("status_id", VInt 42)]])].

(** ** Step 1: fetching with retries ([step1_json.py]) *)

(** What one request gives: the decoded body, or an exception. *)
Inductive response : Type :=
| Body (json : value)
| Failure.

(** What [fetch_json] did: the attempts on which it sent a request, and
    the waits between them, in seconds. *)
Record fetch_log : Type := {
  requests_sent : list Z;
  waits : list Z
}.

(** The loop [for attempt in range(3)] of [fetch_json]; [server] says how
    the request of each attempt ends. *)
Fixpoint fetch_attempts (server : Z -> response) (attempts : list Z) (log : fetch_log)
    : value * fetch_log :=
  match attempts with
  | [] => (VDict [], log)
  | attempt :: rest =>
      let log1 := {| requests_sent := (requests_sent log ++ [attempt])%list;
                     waits := waits log |} in
      match server attempt with
      | Body json => (json, log1)
      | Failure =>
          if attempt =? 2 then (VDict [], log1)
          else fetch_attempts server rest
                 {| requests_sent := requests_sent log1;
                    waits := (waits log1 ++ [2 ^ attempt])%list |}
      end
  end.

(** [fetch_json(url, params)] *)
Definition fetch_json (server : Z -> response) : value * fetch_log :=
  fetch_attempts server [0; 1; 2] {| requests_sent := []; waits := [] |}.

(** A server that fails twice and then answers. *)
Definition flaky_server (attempt : Z) : response :=
  if attempt <? 2 then Failure
  else Body (VDict [("results", VList [VDict [("id", VStr "a"); ("status_id", VInt 2)]])]).

(** The status id of a match, [None] when there is none to extract. *)
Definition status_of (m : value) : value :=
  match extract_status_id m with
  | Ok s => s
  | Raise _ => VNone
  end.

(** The companies of an odds wrapper, [(company id, markets)], in order. *)
Definition companies_of (odds_wrap : value) : dict :=
  match field odds_wrap "results" (VDict []) with
  | VDict companies => companies
  | _ => []
  end.

(** The markets of one company. *)
Definition markets_of (company : value) : dict :=
  match company with
  | VDict markets => markets
  | _ => []
  end.

(** The entries for a market type offered by the last company that has
    the type. *)
Definition last_offer (companies : dict) (mt : string) : option value :=
  fold_left (fun acc (c : string * value) =>
               match dict_get (markets_of (snd c)) mt with
               | Some od => Some od
               | None => acc
               end)
            companies None.

(** Two companies that both offer the result market; only the second
    offers totals. *)
Definition odds_wrap_example : value :=
  VDict [("results",
          VDict [("2", VDict [("eu", VList [VStr "first"])]);
                 ("9", VDict [("eu", VList [VStr "second"]);
                              ("bs", VList [VStr "totals"])])])].

(** ** Step 1: enrichment ([step1_json.py]) *)

(** The provider as [enrich_match_data] sees it: what each of the fetch
    functions returns for an id ([fetch_json] never raises). *)
Record provider : Type := {
  fetch_match_details : value -> value;
  fetch_match_odds : value -> value;
  fetch_team_info : value -> value;
  fetch_competition_info : value -> value;
  fetch_country_list : value
}.

(** The calls made to the provider. *)
Inductive request : Type :=
| MatchDetails (id : value)
| MatchOdds (id : value)
| TeamInfo (id : value)
| CompetitionInfo (id : value)
| CountryList.

(** [all_data] while it is being built, the live matches (the loop
    assigns to them), and the calls made so far. *)
Record enrichment : Type := {
  match_details : list (value * value);
  match_odds : list (value * value);
  team_info : list (value * value);
  competition_info : list (value * value);
  countries : option value;
  live_results : list value;
  calls : list request
}.

(** The first result of a detail envelope, as the loop unwraps it. *)
Definition unwrap_first (detail_wrap : value) : value :=
  match detail_wrap with
  | VDict w =>
      match py_or (py_or (get w "results" VNone) (get w "result" VNone)) (VList []) with
      | VList (x :: _) => x
      | _ => VDict []
      end
  | _ => VDict []
  end.

(** [if id and str(id) not in cache: cache[str(id)] = fetch(id)] *)
Definition fetch_missing (fetch : value -> value) (call : value -> request)
    (cache : list (value * value)) (log : list request) (id : value)
    : list (value * value) * list request :=
  if truthy id then
    match kv_find cache (VStr (py_str id)) with
    | Some _ => (cache, log)
    | None => (kv_set cache (VStr (py_str id)) (fetch id), (log ++ [call id])%list)
    end
  else (cache, log).

(** The body of the loop of [enrich_match_data] for one match (without
    its pause of a tenth of a second). *)
Definition enrich_match (server : provider) (st : enrichment) (m : value)
    : result enrichment :=
  match m with
  | VDict d =>
      let mid := get d "id" VNone in
      let detail_wrap := fetch_match_details server mid in
      if negb (hashable mid) then Raise TypeError else
      let details := kv_set (match_details st) mid detail_wrap in
      let odds := kv_set (match_odds st) mid (fetch_match_odds server mid) in
      let log := (calls st ++ [MatchDetails mid; MatchOdds mid])%list in
      let detail := unwrap_first detail_wrap in
      h <- attr_get detail "home_team_id" VNone ;;
      let home_id := py_or h (get d "home_team_id" VNone) in
      a <- attr_get detail "away_team_id" VNone ;;
      let away_id := py_or a (get d "away_team_id" VNone) in
      c <- attr_get detail "competition_id" VNone ;;
      let comp_id := py_or c (get d "competition_id" VNone) in
      status <- attr_get detail "status_id" VNone ;;
      let m' := match status with
                | VNone => m
                | _ => VDict (dict_set d "status_id" status)
                end in
      let (teams1, log1) :=
        fetch_missing (fetch_team_info server) TeamInfo (team_info st) log home_id in
      let (teams2, log2) :=
        fetch_missing (fetch_team_info server) TeamInfo teams1 log1 away_id in
      let (comps, log3) :=
        fetch_missing (fetch_competition_info server) CompetitionInfo
                      (competition_info st) log2 comp_id in
      Ok {| match_details := details; match_odds := odds; team_info := teams2;
            competition_info := comps; countries := countries st;
            live_results := (live_results st ++ [m'])%list; calls := log3 |}
  | _ => Raise AttributeError
  end.

(** [enrich_match_data(live_data, matches)] *)
Definition enrich_match_data (server : provider) (matches : value) : result enrichment :=
  _ <- py_len matches ;;
  ms <- py_iter matches ;;
  st <- foldM (enrich_match server) ms
          {| match_details := []; match_odds := []; team_info := [];
             competition_info := []; countries := None; live_results := [];
             calls := [] |} ;;
  Ok {| match_details := match_details st; match_odds := match_odds st;
        team_info := team_info st; competition_info := competition_info st;
        countries := Some (fetch_country_list server);
        live_results := live_results st;
        calls := (calls st ++ [CountryList])%list |}.

(** The text of the ids for which a team was requested, in order. *)
Definition team_calls (log : list request) : list string :=
  flat_map (fun r => match r with TeamInfo id => [py_str id] | _ => [] end) log.

(** The same for competitions. *)
Definition competition_calls (log : list request) : list string :=
  flat_map (fun r => match r with CompetitionInfo id => [py_str id] | _ => [] end) log.

(** The ids for which match details were requested, in order. *)
Definition detail_calls (log : list request) : list value :=
  flat_map (fun r => match r with MatchDetails id => [id] | _ => [] end) log.

(** The match after the loop has copied the status of its detail record
    into it. *)
Definition with_detail_status (server : provider) (m : value) : value :=
  match m with
  | VDict d =>
      let status :=
        field (unwrap_first (fetch_match_details server (get d "id" VNone)))
              "status_id" VNone in
      match status with
      | VNone => m
      | _ => VDict (dict_set d "status_id" status)
      end
  | _ => m
  end.

(** What the loop keeps true. *)
Definition enrich_inv (server : provider) (seen : list value) (st : enrichment) : Prop :=
  map fst (team_info st) = map VStr (team_calls (calls st)) /\
  NoDup (map fst (team_info st)) /\
  map fst (competition_info st) = map VStr (competition_calls (calls st)) /\
  NoDup (map fst (competition_info st)) /\
  detail_calls (calls st) = map (fun m => field m "id" VNone) seen /\
  live_results st = map (with_detail_status server) seen.

(** A provider whose detail records name team 5 as home team and carry
    status 4. *)
Definition provider_example : provider :=
  {| fetch_match_details := fun id =>
       VDict [("results", VList [VDict [("home_team_id", VInt 5);
                                        ("status_id", VInt 4)]])];
     fetch_match_odds := fun _ => VDict [];
     fetch_team_info := fun id => VDict [("results", VList [VDict [("name", VStr "Ajax")]])];
     fetch_competition_info := fun _ => VDict [];
     fetch_country_list := VDict [] |}.

(** ** Step 1: the comprehensive match breakdown ([step1_json.py]) *)

(** The status table of [create_comprehensive_match_breakdown]: code 0
    has a shorter name here than in the other two tables. *)
Definition breakdown_desc_map : list (value * string) :=
  [ (VInt 0, "Abnormal"); (VInt 1, "Not started");
    (VInt 2, "First half"); (VInt 3, "Half-time"); (VInt 4, "Second half");
    (VInt 5, "Overtime"); (VInt 6, "Overtime (deprecated)");
    (VInt 7, "Penalty Shoot-out"); (VInt 8, "End"); (VInt 9, "Delay");
    (VInt 10, "Interrupt"); (VInt 11, "Cut in half"); (VInt 12, "Cancel");
    (VInt 13, "To be determined") ].

(** [status_desc_map.get(status_id, f"Unknown Status (ID: {status_id})")] *)
Definition breakdown_status_desc (status_id : value) : result string :=
  d <- kv_get breakdown_desc_map status_id ;;
  Ok (match d with
      | Some s => s
      | None => ("Unknown Status (ID: " ++ py_str status_id ++ ")")%string
      end).

(** One entry of the [matches] of a group. *)
Record listed_match : Type := {
  lm_match_id : value;
  lm_home_team : value;
  lm_away_team : value;
  lm_score : string;
  lm_competition : value;
  lm_formatted : string
}.

(** One entry of [status_breakdown]. *)
Record breakdown_group : Type := {
  bg_status_id : value;
  bg_count : Z;
  bg_matches : list listed_match
}.

(** The name looked up for an id in [team_info] or [competition_info]:
    the [name] of the first result stored under the text of the id, and
    the placeholder when the id counts as false, is not in the table, or
    has no result there. *)
Definition side_table_name (table : list (value * value)) (id : value)
    (placeholder : string) : result value :=
  if truthy id then
    match kv_find table (VStr (py_str id)) with
    | Some (VDict w) =>
        match py_or (py_or (get w "results" VNone) (get w "result" VNone)) (VList []) with
        | VList (x :: _) => attr_get x "name" (VStr placeholder)
        | _ => Ok (VStr placeholder)
        end
    | _ => Ok (VStr placeholder)
    end
  else Ok (VStr placeholder).

(** The text [current_score] of a live match. *)
Definition current_score (d : dict) : string :=
  match dict_get d "score" with
  | Some (VList score) =>
      if 4 <=? Z.of_nat (List.length score) then
        match nth 2 score VNone, nth 3 score VNone with
        | VList home_score, VList away_score =>
            let h_total := match home_score with x :: _ => x | [] => VInt 0 end in
            let a_total := match away_score with x :: _ => x | [] => VInt 0 end in
            (py_str h_total ++ "-" ++ py_str a_total)%string
        | _, _ => "0-0"
        end
      else "0-0"
  | _ => "0-0"
  end.

(** The body of the loop of [create_comprehensive_match_breakdown]. *)
Definition add_breakdown (all_data : enrichment)
    (status_breakdown : list (value * breakdown_group)) (m : value)
    : result (list (value * breakdown_group)) :=
  match m with
  | VDict d =>
      let match_id_ := get d "id" (VStr "NO_ID") in
      status_id_ <- extract_status_id m ;;
      match status_id_ with
      | VNone => Ok status_breakdown
      | _ =>
          status_desc <- breakdown_status_desc status_id_ ;;
          let groups1 :=
            match kv_find status_breakdown (VStr status_desc) with
            | Some _ => status_breakdown
            | None =>
                kv_set status_breakdown (VStr status_desc)
                  {| bg_status_id := status_id_; bg_count := 0; bg_matches := [] |}
            end in
          found <- kv_get (match_details all_data) match_id_ ;;
          let match_detail :=
            match found with
            | Some detail_wrap => unwrap_first detail_wrap
            | None => VDict []
            end in
          h <- attr_get match_detail "home_team_id" VNone ;;
          let home_team_id := py_or h (get d "home_team_id" VNone) in
          a <- attr_get match_detail "away_team_id" VNone ;;
          let away_team_id := py_or a (get d "away_team_id" VNone) in
          home_team_name <-
            side_table_name (team_info all_data) home_team_id "Unknown Home Team" ;;
          away_team_name <-
            side_table_name (team_info all_data) away_team_id "Unknown Away Team" ;;
          let score := current_score d in
          c <- attr_get match_detail "competition_id" VNone ;;
          let comp_id_ := py_or c (get d "competition_id" VNone) in
          competition_name <-
            side_table_name (competition_info all_data) comp_id_ "Unknown Competition" ;;
          let listed :=
            {| lm_match_id := match_id_;
               lm_home_team := home_team_name;
               lm_away_team := away_team_name;
               lm_score := score;
               lm_competition := competition_name;
               lm_formatted :=
                 (py_str home_team_name ++ " vs " ++ py_str away_team_name ++ " ("
                  ++ score ++ ") - " ++ py_str competition_name)%string |} in
          match kv_find groups1 (VStr status_desc) with
          | Some g =>
              Ok (kv_set groups1 (VStr status_desc)
                    {| bg_status_id := bg_status_id g;
                       bg_count := bg_count g + 1;
                       bg_matches := (bg_matches g ++ [listed])%list |})
          | None => Raise KeyError
          end
      end
  | _ => Raise AttributeError
  end.

(** [create_comprehensive_match_breakdown(all_data)] for the [all_data]
    that [step1_main] builds: [live_data] is its [live_matches], the rest
    is what the enrichment has collected.  That dict is not empty and has
    the key [live_matches], so the early return is not taken. *)
Definition create_comprehensive_match_breakdown (live_data : value) (all_data : enrichment)
    : result (list (value * breakdown_group)) :=
  live_matches <- attr_get live_data "results" (VList []) ;;
  ms <- py_iter live_matches ;;
  foldM (add_breakdown all_data) ms [].

(** [in_play_statuses] of [print_comprehensive_match_breakdown]. *)
Definition in_play_statuses : list value :=
  [VStr "First half"; VStr "Half-time"; VStr "Second half"; VStr "Overtime";
   VStr "Penalty Shoot-out"].

(** [print_comprehensive_match_breakdown(comprehensive_match_breakdown)]:
    the number it prints as "IN-PLAY MATCHES TOTAL". *)
Definition print_comprehensive_match_breakdown
    (comprehensive_match_breakdown : list (value * breakdown_group)) : result Z :=
  keys <- py_sorted py_lt (map fst comprehensive_match_breakdown) ;;
  foldM (fun total_in_play status_desc =>
           match kv_find comprehensive_match_breakdown status_desc with
           | Some status_data =>
               Ok (if py_in status_desc in_play_statuses
                   then total_in_play + bg_count status_data
                   else total_in_play)
           | None => Raise KeyError
           end)
        keys 0.

(** The text of a key of the breakdown. *)
Definition key_text (k : value) : string :=
  match k with
  | VStr s => s
  | _ => EmptyString
  end.

(** The sum of the counts of the groups whose description satisfies [p]. *)
Definition count_where (p : string -> bool) (b : list (value * breakdown_group)) : Z :=
  fold_right Z.add 0
    (map (fun g : value * breakdown_group =>
            if p (key_text (fst g)) then bg_count (snd g) else 0) b).

(** The description under which the breakdown files a match. *)
Definition breakdown_desc_of (m : value) : string :=
  match breakdown_status_desc (status_of m) with
  | Ok s => s
  | Raise _ => EmptyString
  end.

(** The description is one of the in-play ones. *)
Definition in_play_name (desc : string) : bool := py_in (VStr desc) in_play_statuses.

(** What the loop of the breakdown keeps true after the matches [seen]. *)
Definition breakdown_inv (seen : list value) (b : list (value * breakdown_group)) : Prop :=
  Forall (fun g => exists desc, fst g = VStr desc) b /\
  NoDup (map fst b) /\
  Forall (fun g => bg_count (snd g) = Z.of_nat (List.length (bg_matches (snd g)))) b /\
  Forall (fun m => has_status m = true -> hashable (status_of m) = true) seen /\
  forall p : string -> bool,
    count_where p b
    = Z.of_nat (List.length
                  (filter (fun m => has_status m && p (breakdown_desc_of m)) seen)).

(** The enrichment of the feed of the example by the provider of the
    example. *)
Definition breakdown_example : enrichment :=
  {| match_details := [(VStr "a", fetch_match_details provider_example (VStr "a"))];
     match_odds := [];
     team_info := [(VStr "5", fetch_team_info provider_example (VInt 5))];
     competition_info := [];
     countries := None;
     live_results := [];
     calls := [] |}.

(** ** Step 1: the whole fetch ([step1_json.py]) *)

(** The counting loop of [fetch_live_data], for one match. *)
Definition count_raw_status (status_counts : list (value * Z)) (m : value)
    : result (list (value * Z)) :=
  status_id_ <- extract_status_id m ;;
  match status_id_ with
  | VNone => Ok status_counts
  | _ =>
      found <- kv_get status_counts status_id_ ;;
      Ok (kv_set status_counts status_id_
            (match found with Some n => n | None => 0 end + 1))
  end.

(** [fetch_live_data()]: the feed is fetched, its status ids are counted
    and listed in order for the log, and the feed is returned. *)
Definition fetch_live_data (live_server : Z -> response) : result value :=
  let live := fst (fetch_json live_server) in
  matches <- attr_get live "results" (VList []) ;;
  _ <- py_len matches ;;
  ms <- py_iter matches ;;
  status_counts <- foldM count_raw_status ms [] ;;
  _ <- py_sorted py_lt (map fst status_counts) ;;
  Ok live.

(** What [step1_main] returns, and the in-play count of its footer. *)
Record step1_result : Type := {
  live_matches_ : value;
  enriched_data : enrichment;
  footer_in_play_count : Z
}.

(** The feed after the enrichment: the matches of its [results] list are
    the objects that the loop of the enrichment has assigned to. *)
Definition feed_after (live_data : value) (enriched : enrichment) : value :=
  match live_data with
  | VDict d =>
      match dict_get d "results" with
      | Some (VList _) => VDict (dict_set d "results" (VList (live_results enriched)))
      | _ => live_data
      end
  | _ => live_data
  end.

(** [step1_main()] *)
Definition step1_main (live_server : Z -> response) (server : provider)
    : result step1_result :=
  live_data <- fetch_live_data live_server ;;
  matches <- attr_get live_data "results" (VList []) ;;
  enriched <- enrich_match_data server matches ;;
  let live_data' := feed_after live_data enriched in
  in_play_count <- step1_main_in_play_count live_data' ;;
  Ok {| live_matches_ := live_data'; enriched_data := enriched;
        footer_in_play_count := in_play_count |}.

(** A live feed with one match that carries no status; the provider of
    the example gives it status 4 in its detail record. *)
Definition quiet_feed (attempt : Z) : response :=
  Body (VDict [("results", VList [VDict [("id", VStr "m1")]])]).

(** The entry [status_counts] of the dict that
    [create_unified_status_summary] returns: the counts by description,
    [{data["description"]: data["count"] for data in status_counts.values()}]. *)
Definition counts_by_description (st : status_table) : list (value * Z) :=
  fold_left (fun acc (e : value * status_entry) =>
               kv_set acc (VStr (fst (snd e))) (snd (snd e)))
            st [].

Definition unified_status_counts (live_matches_data : value) : result (list (value * Z)) :=
  if negb (truthy live_matches_data) then Ok [] else
  match live_matches_data with
  | VDict d =>
      match dict_get d "results" with
      | None => Ok []
      | Some matches =>
          _ <- py_len matches ;;
          ms <- py_iter matches ;;
          acc <- foldM count_match ms (([] : status_table), 0) ;;
          _ <- py_sorted py_lt (map fst (fst acc)) ;;
          Ok (counts_by_description (fst acc))
      end
  | VList xs =>
      if py_in (VStr "results") xs then Raise TypeError else Ok []
  | VStr s =>
      if contains "results" s then Raise TypeError else Ok []
  | _ => Raise TypeError
  end.

(** The sum of the counts of a table. *)
Definition table_total (st : status_table) : Z :=
  fold_right Z.add 0 (map (fun e : value * status_entry => snd (snd e)) st).

(** The sum of the values of a dict of counts. *)
Definition counts_total (counts : list (value * Z)) : Z :=
  fold_right Z.add 0 (map snd counts).

(** A feed with three matches whose codes 42, 42 and 43 are not in the
    status table. *)
Definition unknown_codes_feed : value :=
  VDict [("results",
          VList [VDict [("id", VStr "a"); ("status_id", VInt 42)];
                 VDict [("id", VStr "b"); ("status_id", VInt 42)];
                 VDict [("id", VStr "c"); ("status_id", VInt 43)]])].

(** ** Step 7: the status summary of the footer ([step2.7.py]) *)












(** * Properties *)

(** ** Payload accessor *)

Lemma truthy_py_or_l (a b : value) : truthy a = true -> py_or a b = a.
Proof. unfold py_or; intros ->; reflexivity. Qed.

Lemma truthy_py_or_r (a b : value) : truthy a = false -> py_or a b = b.
Proof. unfold py_or; intros ->; reflexivity. Qed.

Lemma value_is_none (v : value) : v = VNone \/ v <> VNone.
Proof. destruct v; (now left) || (right; discriminate). Qed.

Lemma first_result_on_envelope (mapping w : dict) (key : value) :
  key <> VNone ->
  dict_get mapping (py_str key) = Some (VDict w) ->
  first_result (VDict mapping) key =
    Ok (match selected_field w with VList (x :: _) => x | _ => VDict [] end).
Proof.
  intros Hkey Hget.
  destruct key; try congruence;
    cbv beta iota delta [first_result attr_get get bind];
    rewrite Hget; reflexivity.
Qed.

Lemma first_result_none_key (mapping : value) :
  first_result mapping VNone = Ok (VDict []).
Proof. reflexivity. Qed.

Lemma first_result_missing (mapping : dict) (key : value) :
  dict_get mapping (py_str key) = None ->
  first_result (VDict mapping) key = Ok (VDict []).
Proof.
  intros Hget.
  destruct key; try reflexivity;
    cbv beta iota delta [first_result attr_get get bind];
    rewrite Hget; reflexivity.
Qed.

Lemma first_result_not_envelope (mapping : dict) (key wrap : value) :
  dict_get mapping (py_str key) = Some wrap ->
  (forall w, wrap <> VDict w) ->
  first_result (VDict mapping) key = Ok (VDict []).
Proof.
  intros Hget Hnd.
  destruct key; try reflexivity;
    cbv beta iota delta [first_result attr_get get bind];
    rewrite Hget;
    destruct wrap; try reflexivity; exfalso; eapply Hnd; reflexivity.
Qed.

Lemma first_result_returns (mapping : dict) (key : value) :
  exists v, first_result (VDict mapping) key = Ok v.
Proof.
  destruct (value_is_none key) as [->|Hk]; [eexists; reflexivity|].
  destruct (dict_get mapping (py_str key)) as [wrap|] eqn:Hget.
  - destruct wrap as [| ? | ? | ? ? | ? | ? | w];
      try (eexists; eapply first_result_not_envelope; [exact Hget | discriminate]).
    eexists. apply first_result_on_envelope; [exact Hk | exact Hget].
  - eexists. apply first_result_missing. exact Hget.
Qed.

(** C3.  On every mapping and key [first_result] returns (it never
    raises); it returns the first element of [results] when that is a
    non-empty list, else of [result] when [results] is absent or falsy and
    [result] is a non-empty list; and it returns the empty mapping for a
    [None] key, a missing entry, an entry that is not a dict, an envelope
    whose two fields are absent or empty, and an envelope whose selected
    field is not a list. *)
Theorem first_result_total_and_defensive :
  forall (mapping : dict) (key : value),
    (exists v, first_result (VDict mapping) key = Ok v) /\
    (key = VNone -> first_result (VDict mapping) key = Ok (VDict [])) /\
    (dict_get mapping (py_str key) = None ->
     first_result (VDict mapping) key = Ok (VDict [])) /\
    (forall wrap, dict_get mapping (py_str key) = Some wrap ->
       (forall w, wrap <> VDict w) ->
       first_result (VDict mapping) key = Ok (VDict [])) /\
    (forall w, key <> VNone -> dict_get mapping (py_str key) = Some (VDict w) ->
       (forall x rest, get w "results" VNone = VList (x :: rest) ->
          first_result (VDict mapping) key = Ok x) /\
       (forall x rest, truthy (get w "results" VNone) = false ->
          get w "result" VNone = VList (x :: rest) ->
          first_result (VDict mapping) key = Ok x) /\
       (truthy (get w "results" VNone) = false ->
        truthy (get w "result" VNone) = false ->
        first_result (VDict mapping) key = Ok (VDict [])) /\
       ((forall xs, selected_field w <> VList xs) ->
        first_result (VDict mapping) key = Ok (VDict []))).
Proof.
  intros mapping key.
  split; [apply first_result_returns|].
  split; [intros ->; reflexivity|].
  split; [apply first_result_missing|].
  split; [apply first_result_not_envelope|].
  intros w Hk Hget.
  rewrite (first_result_on_envelope mapping w key Hk Hget).
  unfold selected_field. repeat split.
  - intros x rest Hres. rewrite Hres. reflexivity.
  - intros x rest Hf Hres. rewrite (truthy_py_or_r _ _ Hf), Hres. reflexivity.
  - intros Hf1 Hf2. rewrite (truthy_py_or_r _ _ Hf1), (truthy_py_or_r _ _ Hf2).
    reflexivity.
  - intros Hnl.
    destruct (py_or (py_or (get w "results" VNone) (get w "result" VNone)) (VList []))
      as [| ? | ? | ? ? | ? | xs | ?]; try reflexivity.
    exfalso. eapply Hnl. reflexivity.
Qed.

(** The envelope [{"result": [{"name": "Ajax"}]}] stored under key 7. *)
Lemma first_result_total_and_defensive_witness :
  first_result
    (VDict [("7", VDict [("result", VList [VDict [("name", VStr "Ajax")]])])])
    (VInt 7)
  = Ok (VDict [("name", VStr "Ajax")]).
Proof.
  destruct (first_result_total_and_defensive
              [("7", VDict [("result", VList [VDict [("name", VStr "Ajax")]])])]
              (VInt 7)) as (_ & _ & _ & _ & H).
  destruct (H [("result", VList [VDict [("name", VStr "Ajax")]])]) as (_ & H2 & _).
  - discriminate.
  - reflexivity.
  - apply (H2 (VDict [("name", VStr "Ajax")]) []); reflexivity.
Defined.

(** ** Status extraction *)

(** A primary [status_id] that Python counts as true is what
    [extract_status_id] returns. *)
Lemma extract_status_id_primary (d : dict) :
  truthy (get d "status_id" VNone) = true ->
  extract_status_id (VDict d) = Ok (get d "status_id" VNone).
Proof.
  intros H. unfold extract_status_id. rewrite (truthy_py_or_l _ _ H). reflexivity.
Qed.

(** Without a usable primary field the second entry of the score array is
    returned. *)
Lemma extract_status_id_secondary (d : dict) (score : list value) :
  truthy (get d "status_id" VNone) = false ->
  get d "score" VNone = VList score ->
  (2 <= List.length score)%nat ->
  extract_status_id (VDict d) = Ok (nth 1 score VNone).
Proof.
  intros H Hs Hl. unfold extract_status_id.
  rewrite (truthy_py_or_r _ _ H), Hs.
  replace (1 <? Z.of_nat (List.length score)) with true; [reflexivity|].
  symmetry; apply Z.ltb_lt; lia.
Qed.

(** C4.  The primary status code 0 ("Abnormal") is present and well
    typed, yet it is not what [extract_status_id] returns: without a score
    array the result is [None], and with one the result is the code found
    in the score array. *)
Theorem extract_status_id_loses_code_zero :
  extract_status_id (VDict [("id", VStr "m1"); ("status_id", VInt 0)]) = Ok VNone /\
  extract_status_id
    (VDict [("id", VStr "m1"); ("status_id", VInt 0);
            ("score", VList [VStr "m1"; VInt 3; VList []; VList []])])
  = Ok (VInt 3).
Proof. split; reflexivity. Qed.

(** ** Odds time-window selector *)

Lemma Qlt_bool_true (x y : Q) : Qlt_bool x y = true <-> (x < y)%Q.
Proof.
  unfold Qlt_bool. rewrite negb_true_iff. split; intros H.
  - apply Qnot_le_lt. intros Hle. apply Qle_bool_iff in Hle. congruence.
  - destruct (Qle_bool y x) eqn:E; [|reflexivity].
    apply Qle_bool_iff in E. exfalso. exact (Qlt_not_le _ _ H E).
Qed.

Lemma Qlt_bool_false (x y : Q) : Qlt_bool x y = false <-> (y <= x)%Q.
Proof.
  unfold Qlt_bool. rewrite negb_false_iff. apply Qle_bool_iff.
Qed.

Section MinBy.
Context {A : Type} (key : A -> Q).

(** [min_by] returns the first element among those of least key: every
    element before it has a strictly larger key, every element after it a
    key at least as large. *)
Lemma min_by_first_least_gen (l : list A) :
  forall (best : A) (pre0 post0 : list A),
    Forall (fun y => (key best < key y)%Q) pre0 ->
    Forall (fun y => (key best <= key y)%Q) post0 ->
    exists pre post,
      (pre0 ++ best :: post0 ++ l = pre ++ min_by key best l :: post)%list /\
      Forall (fun y => (key (min_by key best l) < key y)%Q) pre /\
      Forall (fun y => (key (min_by key best l) <= key y)%Q) post.
Proof.
  induction l as [|x l IH]; intros best pre0 post0 Hpre Hpost; simpl.
  - exists pre0, post0. rewrite app_nil_r. auto.
  - destruct (Qlt_bool (key x) (key best)) eqn:E.
    + apply Qlt_bool_true in E.
      destruct (IH x (pre0 ++ best :: post0)%list []) as (pre & post & Heq & H1 & H2).
      * apply Forall_app. split.
        -- eapply Forall_impl; [|exact Hpre]. intros y Hy. simpl in Hy.
           eapply Qlt_trans; eassumption.
        -- constructor; [exact E|].
           eapply Forall_impl; [|exact Hpost]. intros y Hy. simpl in Hy.
           eapply Qlt_le_trans; eassumption.
      * constructor.
      * exists pre, post. split; [|auto].
        rewrite <- Heq. simpl. rewrite <- !app_assoc. reflexivity.
    + apply Qlt_bool_false in E.
      destruct (IH best pre0 (post0 ++ [x])%list Hpre) as (pre & post & Heq & H1 & H2).
      * apply Forall_app. split; [exact Hpost|]. constructor; [exact E|constructor].
      * exists pre, post. split; [|auto].
        rewrite <- Heq. rewrite <- !app_assoc. reflexivity.
Qed.

Lemma min_by_first_least (best : A) (l : list A) :
  exists pre post,
    best :: l = (pre ++ min_by key best l :: post)%list /\
    Forall (fun y => (key (min_by key best l) < key y)%Q) pre /\
    Forall (fun y => (key (min_by key best l) <= key y)%Q) post.
Proof.
  destruct (min_by_first_least_gen l best [] []) as (pre & post & Heq & H1 & H2);
    try constructor.
  exists pre, post. auto.
Qed.

End MinBy.

Lemma minute_points_parsed (entries : list value) :
  minute_points entries = parsed_entries entries.
Proof.
  unfold minute_points, parsed_entries.
  induction entries as [|ent entries IH]; [reflexivity|].
  cbn [flat_map]. rewrite flat_map_app, IH. f_equal.
  destruct ent as [| | | | | xs |]; try reflexivity.
  destruct xs as [|a [|b xs]]; try reflexivity.
  unfold minute_of.
  replace (1 <? Z.of_nat (List.length (a :: b :: xs))) with true
    by (symmetry; apply Z.ltb_lt; cbn [List.length]; lia).
  cbn [flat_map nth fst snd]. destruct (_safe_minute b); reflexivity.
Qed.

Lemma filter_nil_Forall {A : Type} (f : A -> bool) (l : list A) :
  filter f l = [] -> Forall (fun x => f x = false) l.
Proof.
  induction l as [|x l IH]; simpl; [constructor|].
  destruct (f x) eqn:E; [discriminate|]. intros H. constructor; auto.
Qed.

(** C2.  The selector works on the entries that keep a parsed minute
    ([parsed_entries]).  Either some of them lie in the window 3..6 and
    all of those are returned in input order; or none does, some have a
    minute below 10, and the single entry returned is, among those, the
    first one at least distance from 4.5; or no minute is below 10 and
    nothing is returned.  Both copies of the selector agree. *)
Theorem filter_by_time_selects :
  forall entries : list value,
    let pts := parsed_entries entries in
    minute_points entries = pts /\
    filter_odds_by_time (VList entries) = filter_by_time (VList entries) /\
    ((exists t, In t pts /\ 3 <= fst t <= 6) /\
     filter_by_time (VList entries) = Ok (map snd (filter in_window pts))
     \/
     Forall (fun t => ~ 3 <= fst t <= 6) pts /\
     (exists pre t post,
        filter under_ten pts = (pre ++ t :: post)%list /\
        In t pts /\ fst t < 10 /\
        Forall (fun u => (dist_4_5 t < dist_4_5 u)%Q) pre /\
        Forall (fun u => (dist_4_5 t <= dist_4_5 u)%Q) post /\
        filter_by_time (VList entries) = Ok [snd t])
     \/
     Forall (fun t => 10 <= fst t) pts /\
     filter_by_time (VList entries) = Ok []).
Proof.
  intros entries pts.
  split; [apply minute_points_parsed|].
  split.
  { unfold filter_odds_by_time, filter_by_time, bind, py_iter.
    destruct (in_window_of (minute_points entries)); [|reflexivity].
    destruct (under_ten_of (minute_points entries)); reflexivity. }
  unfold filter_by_time, bind, py_iter.
  rewrite minute_points_parsed. fold pts.
  unfold in_window_of, under_ten_of. fold in_window. fold under_ten.
  destruct (filter in_window pts) as [|w ws] eqn:Ew.
  - assert (Hout : Forall (fun t => ~ 3 <= fst t <= 6) pts).
    { apply filter_nil_Forall in Ew.
      eapply Forall_impl; [|exact Ew]. intros t Ht. unfold in_window in Ht.
      apply andb_false_iff in Ht. intros [H3 H6].
      destruct Ht as [Ht|Ht]; [apply Z.leb_gt in Ht|apply Z.leb_gt in Ht]; lia. }
    cbn [map].
    destruct (filter under_ten pts) as [|t rest] eqn:Eu.
    + right. right. split; [|reflexivity].
      apply filter_nil_Forall in Eu.
      eapply Forall_impl; [|exact Eu]. intros t Ht. unfold under_ten in Ht.
      apply Z.ltb_ge in Ht. exact Ht.
    + right. left. split; [exact Hout|].
      destruct (min_by_first_least dist_4_5 t rest) as (pre & post & Heq & H1 & H2).
      exists pre, (min_by dist_4_5 t rest), post.
      assert (Hin : In (min_by dist_4_5 t rest) (filter under_ten pts)).
      { rewrite Eu, Heq. apply in_elt. }
      apply filter_In in Hin. destruct Hin as [Hin Hlt].
      unfold under_ten in Hlt. apply Z.ltb_lt in Hlt.
      repeat split; auto.
  - left. split; [|reflexivity].
    assert (Hin : In w (filter in_window pts)) by (rewrite Ew; left; reflexivity).
    apply filter_In in Hin. destruct Hin as [Hin Hw].
    exists w. split; [exact Hin|].
    unfold in_window in Hw. apply andb_true_iff in Hw. destruct Hw as [H3 H6].
    apply Z.leb_le in H3. apply Z.leb_le in H6. lia.
Qed.

(** ** History store *)

Lemma dict_get_set_same (d : dict) (k : string) (v : value) :
  dict_get (dict_set d k v) k = Some v.
Proof.
  induction d as [|[k' v'] d IH]; simpl.
  - rewrite String.eqb_refl. reflexivity.
  - destruct (String.eqb k' k) eqn:E; simpl; rewrite E; auto.
Qed.

Lemma dict_get_set_other (d : dict) (k k' : string) (v : value) :
  k <> k' -> dict_get (dict_set d k v) k' = dict_get d k'.
Proof.
  intros Hne. induction d as [|[k0 v0] d IH]; simpl.
  - destruct (String.eqb_spec k k'); [contradiction|reflexivity].
  - destruct (String.eqb_spec k0 k) as [->|Hk]; simpl.
    + destruct (String.eqb_spec k k'); [contradiction|reflexivity].
    + rewrite IH. reflexivity.
Qed.

Lemma get_set_same (d : dict) (k : string) (v dflt : value) :
  get (dict_set d k v) k dflt = v.
Proof. unfold get. rewrite dict_get_set_same. reflexivity. Qed.

Lemma get_set_other (d : dict) (k k' : string) (v dflt : value) :
  k <> k' -> get (dict_set d k v) k' dflt = get d k' dflt.
Proof. intros H. unfold get. rewrite dict_get_set_other by exact H. reflexivity. Qed.

Lemma last_n_length {A : Type} (n : Z) (l : list A) :
  0 <= n -> List.length (last_n n l) = Nat.min (List.length l) (Z.to_nat n).
Proof. intros Hn. unfold last_n. rewrite length_skipn. lia. Qed.

(** One write on a stored history: the old list is cut to its last 100
    entries when it holds 100 or more, and the new batch is appended after
    the cut, so the list written holds up to 101 entries. *)
Lemma save_match_summaries_history (timestamp ny : string) (summaries : list value)
    (grouped d : dict) (entries : list value) :
  group_summaries summaries = Ok grouped ->
  get d "history" VNone = VList entries ->
  entries <> [] ->
  exists file',
    save_match_summaries timestamp ny summaries (Stored (VDict d)) = Ok (true, file') /\
    history_of file' =
      ((if 100 <=? Z.of_nat (List.length entries) then last_n 100 entries else entries)
         ++ [VDict [ ("timestamp", VStr timestamp);
                     ("total_matches", VInt (Z.of_nat (List.length grouped)));
                     ("matches", VDict grouped) ]])%list /\
    List.length (history_of file') = S (Nat.min (List.length entries) 100).
Proof.
  intros Hg Hh Hne.
  unfold save_match_summaries. rewrite Hg. cbn [bind].
  unfold updated_document.
  assert (Ht : truthy (get d "history" VNone) = true).
  { rewrite Hh. destruct entries; [contradiction|reflexivity]. }
  rewrite Ht. cbn [bind]. rewrite Hh. cbn [py_len bind].
  unfold MAX_HISTORY_ENTRIES.
  eexists. split; [reflexivity|].
  unfold history_of.
  rewrite !get_set_other by discriminate. rewrite get_set_same.
  split; [reflexivity|].
  rewrite length_app. cbn [List.length].
  destruct (Z.leb_spec 100 (Z.of_nat (List.length entries))).
  - rewrite last_n_length by lia. lia.
  - lia.
Qed.

(** C1.  Appending 101 batches one at a time to a store that does not
    exist yet leaves 101 entries, not 100: the cut to 100 entries happens
    before the append, so the oldest batch is still the first entry of the
    list. *)
Theorem history_holds_101_entries_after_101_appends :
  exists file,
    append_batches (numbered_batches 101) NoFile = Ok file /\
    List.length (history_of file) = 101%nat /\
    map batch_timestamp (history_of file) =
      map (fun i => VStr (str_of_int (Z.of_nat i))) (seq 1 101).
Proof.
  eexists. split; [vm_compute; reflexivity|]. split; vm_compute; reflexivity.
Qed.

(** ** Numbers as dictionary keys *)

Lemma py_eq_numeric (a b : value) (x y : Q) :
  num_of a = Some x -> num_of b = Some y -> py_eq a b = Qeq_bool x y.
Proof.
  destruct a; try discriminate; destruct b; try discriminate;
    cbn [num_of py_eq]; intros [= <-] [= <-]; reflexivity.
Qed.

Lemma py_eq_none_numeric (b : value) (y : Q) :
  num_of b = Some y -> py_eq VNone b = false.
Proof. destruct b; try discriminate; reflexivity. Qed.

Lemma py_lt_numeric (a b : value) (x y : Q) :
  num_of a = Some x -> num_of b = Some y -> py_lt a b = Ok (Qlt_bool x y).
Proof.
  destruct a; try discriminate; destruct b; try discriminate;
    cbn [num_of py_lt]; intros [= <-] [= <-]; reflexivity.
Qed.

Lemma hashable_numeric (a : value) (x : Q) : num_of a = Some x -> hashable a = true.
Proof. destruct a; try discriminate; reflexivity. Qed.

Lemma is_number_num_of (v : value) : is_number v = true -> exists q, num_of v = Some q.
Proof. unfold is_number. destruct (num_of v) as [q|]; [eauto|discriminate]. Qed.

Lemma Qeq_bool_trans_l (x y z : Q) :
  Qeq_bool x y = true -> Qeq_bool x z = Qeq_bool y z.
Proof.
  intros Hxy. apply Qeq_bool_iff in Hxy.
  destruct (Qeq_bool x z) eqn:E1, (Qeq_bool y z) eqn:E2; try reflexivity.
  - apply Qeq_bool_iff in E1. rewrite Hxy in E1. apply Qeq_bool_iff in E1. congruence.
  - apply Qeq_bool_iff in E2. rewrite <- Hxy in E2. apply Qeq_bool_iff in E2. congruence.
Qed.

Section NumericKeys.
Context {A : Type}.

Lemma kv_find_set (m : list (value * A)) (k v : value) (a : A) :
  keys_numeric m -> is_number k = true -> is_number v = true ->
  kv_find (kv_set m k a) v = if py_eq k v then Some a else kv_find m v.
Proof.
  intros Hm Hk Hv.
  destruct (is_number_num_of _ Hk) as [qk Ek].
  destruct (is_number_num_of _ Hv) as [qv Ev].
  induction Hm as [|[k' a'] m Hk' Hm IH]; cbn [kv_set kv_find].
  - reflexivity.
  - cbn [fst] in Hk'. destruct (is_number_num_of _ Hk') as [q' E'].
    rewrite (py_eq_numeric _ _ _ _ E' Ek), (py_eq_numeric _ _ _ _ Ek Ev).
    destruct (Qeq_bool q' qk) eqn:E; cbn [kv_find];
      rewrite (py_eq_numeric _ _ _ _ E' Ev).
    + rewrite (Qeq_bool_trans_l _ _ qv E).
      destruct (Qeq_bool qk qv); reflexivity.
    + rewrite IH, (py_eq_numeric _ _ _ _ Ek Ev).
      destruct (Qeq_bool q' qv) eqn:E2; [|reflexivity].
      destruct (Qeq_bool qk qv) eqn:E3; [|reflexivity].
      rewrite (Qeq_bool_trans_l _ _ qk E2), Qeq_bool_comm in E. congruence.
Qed.

Lemma kv_find_equal_keys (m : list (value * A)) (k v : value) :
  keys_numeric m -> is_number k = true -> is_number v = true ->
  py_eq k v = true -> kv_find m k = kv_find m v.
Proof.
  intros Hm Hk Hv Hkv.
  destruct (is_number_num_of _ Hk) as [qk Ek].
  destruct (is_number_num_of _ Hv) as [qv Ev].
  rewrite (py_eq_numeric _ _ _ _ Ek Ev) in Hkv.
  induction Hm as [|[k' a'] m Hk' Hm IH]; cbn [kv_find]; [reflexivity|].
  cbn [fst] in Hk'. destruct (is_number_num_of _ Hk') as [q' E'].
  rewrite (py_eq_numeric _ _ _ _ E' Ek), (py_eq_numeric _ _ _ _ E' Ev), IH.
  rewrite (Qeq_bool_comm q' qk), (Qeq_bool_comm q' qv), (Qeq_bool_trans_l _ _ q' Hkv).
  reflexivity.
Qed.

Lemma keys_numeric_set (m : list (value * A)) (k : value) (a : A) :
  keys_numeric m -> is_number k = true -> keys_numeric (kv_set m k a).
Proof.
  intros Hm Hk. induction Hm as [|[k' a'] m Hk' Hm IH]; cbn [kv_set].
  - constructor; [exact Hk|constructor].
  - destruct (py_eq k' k); constructor; auto.
Qed.

End NumericKeys.

(** ** Sorting with comparisons that succeed *)

Section SortedPure.
Context {A : Type} (lt : A -> A -> result bool) (ltb : A -> A -> bool) (P : A -> Prop).
Hypothesis lt_ltb : forall x y, P x -> P y -> lt x y = Ok (ltb x y).

Lemma Forall_insert_pure (x : A) (l : list A) :
  P x -> Forall P l -> Forall P (insert_pure ltb x l).
Proof.
  intros Hx Hl. induction Hl as [|y l Hy Hl IH]; cbn [insert_pure].
  - constructor; [exact Hx|constructor].
  - destruct (ltb y x); repeat constructor; auto.
Qed.

Lemma Forall_isort (l : list A) : Forall P l -> Forall P (isort ltb l).
Proof.
  intros Hl. induction Hl as [|x l Hx Hl IH]; cbn [isort]; [constructor|].
  apply Forall_insert_pure; assumption.
Qed.

Lemma insert_sorted_pure (x : A) (l : list A) :
  P x -> Forall P l -> insert_sorted lt x l = Ok (insert_pure ltb x l).
Proof.
  intros Hx Hl. induction Hl as [|y l Hy Hl IH]; cbn [insert_sorted insert_pure].
  - reflexivity.
  - rewrite (lt_ltb y x Hy Hx). destruct (ltb y x); [rewrite IH|]; reflexivity.
Qed.

Lemma py_sorted_pure (l : list A) :
  Forall P l -> py_sorted lt l = Ok (isort ltb l).
Proof.
  intros Hl. induction Hl as [|x l Hx Hl IH]; cbn [py_sorted isort]; [reflexivity|].
  rewrite IH. apply insert_sorted_pure; [exact Hx|].
  apply Forall_isort. exact Hl.
Qed.

End SortedPure.

(** ** In-play counts *)

Lemma py_eq_numeric_refl (s : value) : is_number s = true -> py_eq s s = true.
Proof.
  intros Hs. destruct (is_number_num_of _ Hs) as [q E].
  rewrite (py_eq_numeric _ _ _ _ E E). apply Qeq_bool_iff. reflexivity.
Qed.

Lemma py_eq_numeric_sym (a b : value) :
  is_number a = true -> is_number b = true -> py_eq a b = py_eq b a.
Proof.
  intros Ha Hb.
  destruct (is_number_num_of _ Ha) as [x Ex], (is_number_num_of _ Hb) as [y Ey].
  rewrite (py_eq_numeric _ _ _ _ Ex Ey), (py_eq_numeric _ _ _ _ Ey Ex).
  apply Qeq_bool_comm.
Qed.

Lemma count_status_numeric (st : status_table) (s : value) :
  keys_numeric st -> is_number s = true ->
  exists st',
    count_status st s = Ok st' /\ keys_numeric st' /\
    forall v, is_number v = true ->
              count_of st' v = count_of st v + b2z (py_eq s v).
Proof.
  intros Hst Hs.
  destruct (is_number_num_of _ Hs) as [q Eq].
  unfold count_status, kv_get. rewrite (hashable_numeric _ _ Eq). cbn [bind].
  destruct (kv_find st s) as [[desc n]|] eqn:Ef.
  - rewrite Ef. eexists. split; [reflexivity|]. split.
    + apply keys_numeric_set; assumption.
    + intros v Hv. unfold count_of. rewrite kv_find_set by assumption.
      destruct (py_eq s v) eqn:Esv; cbn [b2z]; [|lia].
      rewrite <- (kv_find_equal_keys st s v Hst Hs Hv Esv), Ef. reflexivity.
  - set (d := match kv_find status_desc_map s with
              | Some x => x | None => "Unknown Status" end).
    rewrite (kv_find_set st s s (d, 0) Hst Hs Hs), (py_eq_numeric_refl s Hs).
    eexists. split; [reflexivity|]. split.
    + apply keys_numeric_set; [apply keys_numeric_set|]; assumption.
    + intros v Hv. unfold count_of.
      rewrite kv_find_set;
        [|apply keys_numeric_set; assumption|assumption|assumption].
      rewrite kv_find_set by assumption.
      destruct (py_eq s v) eqn:Esv; cbn [b2z]; [|lia].
      rewrite <- (kv_find_equal_keys st s v Hst Hs Hv Esv), Ef. reflexivity.
Qed.

Lemma mapM_cons_inv {A B : Type} (f : A -> result B) (x : A) (l : list A) (ys : list B) :
  mapM f (x :: l) = Ok ys ->
  exists y ys', f x = Ok y /\ mapM f l = Ok ys' /\ ys = y :: ys'.
Proof.
  cbn [mapM]. destruct (f x) as [y|]; [|discriminate].
  destruct (mapM f l) as [ys'|]; [|discriminate].
  intros [= <-]. eauto.
Qed.

Lemma count_equal_cons (v s : value) (statuses : list value) :
  count_equal v (s :: statuses) = b2z (py_eq s v) + count_equal v statuses.
Proof.
  unfold count_equal. cbn [filter]. destruct (py_eq s v); cbn [List.length b2z]; lia.
Qed.

Lemma count_matches_numeric (ms : list value) :
  forall (statuses : list value) (st : status_table) (n : Z),
    mapM extract_status_id ms = Ok statuses ->
    Forall status_ok statuses ->
    keys_numeric st ->
    exists st' n',
      foldM count_match ms (st, n) = Ok (st', n') /\ keys_numeric st' /\
      forall v, is_number v = true ->
                count_of st' v = count_of st v + count_equal v statuses.
Proof.
  induction ms as [|m ms IH]; intros statuses st n Hmap Hok Hst.
  - cbn [mapM] in Hmap. injection Hmap as <-. exists st, n.
    split; [reflexivity|]. split; [exact Hst|].
    intros v _. unfold count_equal. cbn. lia.
  - apply mapM_cons_inv in Hmap. destruct Hmap as (s & ss & Hs & Hss & ->).
    inversion Hok as [|? ? Hs_ok Hss_ok]; subst.
    cbn [foldM]. unfold count_match at 1. rewrite Hs. cbn [bind].
    destruct Hs_ok as [->|Hnum].
    + destruct (IH ss st n Hss Hss_ok Hst) as (st' & n' & Hf & Hk & Hc).
      exists st', n'. split; [exact Hf|]. split; [exact Hk|].
      intros v Hv. rewrite (Hc v Hv), count_equal_cons.
      destruct (is_number_num_of _ Hv) as [q Eq].
      rewrite (py_eq_none_numeric _ _ Eq). cbn [b2z]. lia.
    + destruct (count_status_numeric st s Hst Hnum) as (st1 & Hcs & Hk1 & Hc1).
      assert (Hstep : (match s with
                       | VNone => Ok (st, n)
                       | _ => st0 <- count_status (fst (st, n)) s ;;
                              Ok (st0, snd (st, n) + 1)
                       end) = Ok (st1, n + 1)).
      { cbn [fst snd]. rewrite Hcs. destruct s; try reflexivity. discriminate Hnum. }
      rewrite Hstep.
      destruct (IH ss st1 (n + 1) Hss Hss_ok Hk1) as (st' & n' & Hf & Hk & Hc).
      exists st', n'. split; [exact Hf|]. split; [exact Hk|].
      intros v Hv. rewrite (Hc v Hv), (Hc1 v Hv), count_equal_cons. lia.
Qed.

Lemma py_lt_num_ltb (a b : value) :
  is_number a = true -> is_number b = true -> py_lt a b = Ok (num_ltb a b).
Proof.
  intros Ha Hb.
  destruct (is_number_num_of _ Ha) as [x Ex], (is_number_num_of _ Hb) as [y Ey].
  unfold num_ltb. rewrite Ex, Ey. apply py_lt_numeric; assumption.
Qed.

Lemma length_filter_cons {A : Type} (f : A -> bool) (x : A) (l : list A) :
  Z.of_nat (List.length (filter f (x :: l))) =
  b2z (f x) + Z.of_nat (List.length (filter f l)).
Proof. cbn [filter]. destruct (f x); cbn [List.length b2z]; lia. Qed.

Ltac two_equal_codes :=
  match goal with
  | H1 : Qeq_bool ?q ?a = true, H2 : Qeq_bool ?q ?b = true |- _ =>
      rewrite (Qeq_bool_trans_l _ _ b H1) in H2; vm_compute in H2; discriminate H2
  end.

(** A status id equals at most one code of the list, so the sum of the
    per-code indicators is the indicator of membership. *)
Lemma in_play_summary_indicator (s : value) :
  status_ok s ->
  b2z (py_eq s (VInt 2)) + (b2z (py_eq s (VInt 3)) + (b2z (py_eq s (VInt 4)) +
    (b2z (py_eq s (VInt 5)) + (b2z (py_eq s (VInt 7)) + 0))))
  = b2z (in_play_summary s).
Proof.
  intros [->|Hs]; [reflexivity|].
  destruct (is_number_num_of _ Hs) as [q Eq].
  unfold in_play_summary, py_in, in_play_status_ids. cbn [existsb].
  rewrite !(py_eq_numeric_sym (VInt _) s) by (exact Hs || reflexivity).
  rewrite !(py_eq_numeric s (VInt _) q _ Eq eq_refl).
  destruct (Qeq_bool q (inject_Z 2)) eqn:E2, (Qeq_bool q (inject_Z 3)) eqn:E3,
    (Qeq_bool q (inject_Z 4)) eqn:E4, (Qeq_bool q (inject_Z 5)) eqn:E5,
    (Qeq_bool q (inject_Z 7)) eqn:E7;
    try reflexivity; exfalso; two_equal_codes.
Qed.

Lemma in_play_sum (st : status_table) (statuses : list value) :
  Forall status_ok statuses ->
  (forall v, is_number v = true -> count_of st v = count_equal v statuses) ->
  fold_right Z.add 0 (map (count_of st) in_play_status_ids)
  = Z.of_nat (List.length (filter in_play_summary statuses)).
Proof.
  intros Hok Hc. unfold in_play_status_ids. cbn [map fold_right].
  rewrite !Hc by reflexivity. clear Hc.
  induction Hok as [|s ss Hs Hss IH].
  - reflexivity.
  - rewrite !count_equal_cons, length_filter_cons, <- IH,
      <- (in_play_summary_indicator s Hs). lia.
Qed.

Lemma step1_count (ms : list value) :
  forall (statuses : list value) (n : Z),
    mapM extract_status_id ms = Ok statuses ->
    foldM (fun in_play_count m =>
             status_id <- extract_status_id m ;;
             Ok (if py_in status_id step1_in_play_ids
                 then in_play_count + 1 else in_play_count))
          ms n
    = Ok (n + Z.of_nat (List.length (filter in_play_filter statuses))).
Proof.
  induction ms as [|m ms IH]; intros statuses n Hmap.
  - cbn [mapM] in Hmap. injection Hmap as <-. cbn. f_equal. lia.
  - apply mapM_cons_inv in Hmap. destruct Hmap as (s & ss & Hs & Hss & ->).
    cbn [foldM]. rewrite Hs. cbn [bind].
    rewrite (IH ss _ Hss), length_filter_cons. unfold in_play_filter at 2.
    destruct (py_in s step1_in_play_ids); cbn [b2z]; f_equal; lia.
Qed.

(** C5.  The two in-play predicates are fixed and differ exactly on code
    6; the set [STATUS_FILTER] of the filtering view is the predicate with
    code 6.  For a live feed whose matches all have an extractable status
    id, the in-play count of [step1_main] is the number of status ids in
    {2,3,4,5,6,7}, and, when the status ids are numbers or [None], the
    in-play count of the unified status summary is the number of status
    ids in {2,3,4,5,7}. *)
Theorem in_play_predicates_and_counts :
  (forall v, in_play_filter v = in_play_summary v || py_eq (VInt 6) v) /\
  (in_play_summary (VInt 6) = false /\ in_play_filter (VInt 6) = true) /\
  (forall v, hashable v = true -> in_STATUS_FILTER v = Ok (in_play_filter v)) /\
  (forall (live : dict) (matches statuses : list value),
      dict_get live "results" = Some (VList matches) ->
      mapM extract_status_id matches = Ok statuses ->
      step1_main_in_play_count (VDict live)
      = Ok (Z.of_nat (List.length (filter in_play_filter statuses))) /\
      (Forall status_ok statuses ->
       exists r,
         create_unified_status_summary (VDict live) = Ok r /\
         in_play_matches r
         = Z.of_nat (List.length (filter in_play_summary statuses)))).
Proof.
  split; [|split; [|split]].
  - intros v. unfold in_play_filter, in_play_summary, py_in, step1_in_play_ids,
      in_play_status_ids. cbn [existsb].
    destruct (py_eq (VInt 2) v), (py_eq (VInt 3) v), (py_eq (VInt 4) v),
      (py_eq (VInt 5) v), (py_eq (VInt 6) v), (py_eq (VInt 7) v); reflexivity.
  - split; reflexivity.
  - intros v Hv. unfold in_STATUS_FILTER. rewrite Hv. reflexivity.
  - intros live matches statuses Hget Hmap. split.
    + unfold step1_main_in_play_count, attr_get, get. rewrite Hget.
      cbn [bind py_iter]. rewrite (step1_count matches statuses 0 Hmap).
      reflexivity.
    + intros Hok.
      destruct (count_matches_numeric matches statuses [] 0 Hmap Hok)
        as (st & n & Hfold & Hkeys & Hcount); [constructor|].
      unfold create_unified_status_summary.
      destruct live as [|kv live]; [discriminate Hget|].
      cbn [truthy negb]. rewrite Hget. cbn [py_len py_iter bind].
      rewrite Hfold. cbn [bind].
      rewrite (py_sorted_pure py_lt num_ltb (fun v => is_number v = true)
                 py_lt_num_ltb (map fst st)).
      * cbn [bind]. eexists. split; [reflexivity|]. cbn [in_play_matches].
        apply in_play_sum; [exact Hok|].
        intros v Hv. rewrite (Hcount v Hv). reflexivity.
      * apply Forall_map. exact Hkeys.
Qed.

(** A feed of four matches with status ids 2, 6, 7 and none. *)
Lemma in_play_predicates_and_counts_witness :
  step1_main_in_play_count
    (VDict [("results",
             VList [VDict [("id", VStr "a"); ("status_id", VInt 2)];
                    VDict [("id", VStr "b"); ("status_id", VInt 6)];
                    VDict [("id", VStr "c"); ("score", VList [VStr "c"; VInt 7])];
                    VDict [("id", VStr "d")]])]) = Ok 3 /\
  exists r,
    create_unified_status_summary
      (VDict [("results",
               VList [VDict [("id", VStr "a"); ("status_id", VInt 2)];
                      VDict [("id", VStr "b"); ("status_id", VInt 6)];
                      VDict [("id", VStr "c"); ("score", VList [VStr "c"; VInt 7])];
                      VDict [("id", VStr "d")]])]) = Ok r /\
    in_play_matches r = 2.
Proof.
  destruct in_play_predicates_and_counts as (_ & _ & _ & H).
  destruct (H [("results",
                VList [VDict [("id", VStr "a"); ("status_id", VInt 2)];
                       VDict [("id", VStr "b"); ("status_id", VInt 6)];
                       VDict [("id", VStr "c"); ("score", VList [VStr "c"; VInt 7])];
                       VDict [("id", VStr "d")]])]
              [VDict [("id", VStr "a"); ("status_id", VInt 2)];
               VDict [("id", VStr "b"); ("status_id", VInt 6)];
               VDict [("id", VStr "c"); ("score", VList [VStr "c"; VInt 7])];
               VDict [("id", VStr "d")]]
              [VInt 2; VInt 6; VInt 7; VNone] eq_refl eq_refl) as [H1 H2].
  split; [exact H1|].
  apply H2. repeat constructor; (now left) || (now right).
Defined.

(** ** Environment interpreter *)

Ltac bind_inv H :=
  repeat match type of H with
         | bind ?c _ = Ok _ =>
             let E := fresh "E" in
             destruct c eqn:E; cbn [bind] in H; [|discriminate H]
         end.

(** A value whose text does not start with a digit, a dot or a dash has
    no numeric reading. *)
Lemma parse_measure_unparseable (val : value) :
  fst (span is_measure_char (py_str val)) = "" ->
  parse_measure val = Ok (None, None).
Proof.
  intros H. unfold parse_measure.
  destruct (span is_measure_char (py_str val)) as [g1 rest]. cbn [fst] in H.
  rewrite H. reflexivity.
Qed.

(** C6.  Whenever [extract_environment] finds no numeric wind value the
    wind is reported as "Calm": the category is computed from the default
    0. *)
Theorem extract_environment_calm_from_default :
  forall (match_ : dict) (e : env_parsed),
    extract_environment match_ = Ok e ->
    m_value (wind e) = None ->
    wind_description e = "Calm".
Proof.
  intros match_ e H Hw. unfold extract_environment in H.
  bind_inv H. injection H as <-. cbn [wind m_value wind_description] in *.
  rewrite Hw.
  match goal with
  | |- context [contains "m/s" ?text] => destruct (contains "m/s" text)
  end; reflexivity.
Qed.

(** A match whose environment has an unparseable wind ("n/a"): the wind
    value is [None] and the description is "Calm". *)
Lemma extract_environment_calm_from_default_witness :
  exists e,
    extract_environment [("id", VStr "m1");
                         ("environment", VDict [("weather", VStr "3");
                                                ("wind", VStr "n/a")])] = Ok e /\
    m_value (wind e) = None /\
    wind_description e = "Calm".
Proof.
  eexists. split; [reflexivity|]. split; [reflexivity|].
  apply (extract_environment_calm_from_default
           [("id", VStr "m1");
            ("environment", VDict [("weather", VStr "3"); ("wind", VStr "n/a")])]);
    reflexivity.
Defined.

(** A reading that starts like a number but is not one makes
    [extract_environment] raise instead of resolving it to [None]. *)
Example extract_environment_raises_on_malformed_number :
  extract_environment [("environment", VDict [("wind", VStr "1.2.3 m/s")])]
  = Raise ValueError.
Proof. reflexivity. Qed.

(** The sibling [process_environment_like_step2] derives no wind category
    from a wind it cannot read, and no Fahrenheit value from a temperature
    it cannot read. *)
Lemma process_environment_unparseable (env : dict) (d : env_display) :
  process_environment_like_step2 (VDict env) = Ok d ->
  (truthy (get env "wind" VNone) &&
   isdigit (remove_char "."%char (py_str (get env "wind" VNone))) = false ->
   d_wind_description d = None /\
   d_wind d = WindText (if truthy (get env "wind" VNone)
                        then py_str (get env "wind" VNone) else "Unknown")) /\
  (truthy (get env "temperature" VNone) &&
   isdigit (remove_char "-"%char (py_str (get env "temperature" VNone))) = false ->
   d_temperature d = TempText (if truthy (get env "temperature" VNone)
                               then py_str (get env "temperature" VNone)
                               else "Unknown")).
Proof.
  intros H. unfold process_environment_like_step2 in H.
  cbn [attr_get bind] in H.
  destruct (kv_get weather_desc (weather_code (get env "weather" VNone)));
    cbn [bind] in H; [|discriminate H].
  split; intros Hc; rewrite Hc in H.
  - destruct (truthy (get env "temperature" VNone) &&
              isdigit (remove_char "-" (py_str (get env "temperature" VNone)))).
    + destruct (py_int (get env "temperature" VNone)); cbn [bind] in H;
        [|discriminate H].
      injection H as <-. split; reflexivity.
    + cbn [bind] in H. injection H as <-. split; reflexivity.
  - cbn [bind] in H.
    destruct (truthy (get env "wind" VNone) &&
              isdigit (remove_char "." (py_str (get env "wind" VNone)))).
    + destruct (py_float_of (get env "wind" VNone)); cbn [bind] in H;
        [|discriminate H].
      injection H as <-. reflexivity.
    + cbn [bind] in H. injection H as <-. reflexivity.
Qed.

(** ** Team names of the match summary *)

(** The team names of the summary are read from the keys [home_team] and
    [away_team] of the record, with "Unknown" for a missing key. *)
Lemma summary_team_names (now : string) (match_ : dict) (s : match_summary) :
  extract_summary_fields now match_ = Ok s ->
  name (home s) = get match_ "home_team" (VStr "Unknown") /\
  name (away s) = get match_ "away_team" (VStr "Unknown").
Proof.
  intros H. unfold extract_summary_fields in H.
  destruct (get match_ "score" (VList [])) as [| | | | | xs |];
    try destruct (3 <? Z.of_nat (List.length xs));
    bind_inv H; injection H as <-; split; reflexivity.
Qed.

(** The names that [merge_and_summarize] stores in the merged record. *)
Lemma merged_record_team_names (live detail odds_struct : dict) (odds_wrap : value)
    (countries : list (value * value)) (home_ away_ comp : value)
    (merged : dict) :
  merged_record live detail odds_struct odds_wrap countries home_ away_ comp = Ok merged ->
  exists home_name away_name,
    attr_get home_ "name" VNone = Ok home_name /\
    attr_get away_ "name" VNone = Ok away_name /\
    dict_get merged "home_team" = Some (py_or home_name (get live "home_name" VNone)) /\
    dict_get merged "away_team" = Some (py_or away_name (get live "away_name" VNone)).
Proof.
  intros H. unfold merged_record in H. bind_inv H. injection H as <-.
  do 2 eexists. split; [reflexivity|]. split; [reflexivity|].
  cbn [fold_left fst snd].
  split.
  - rewrite !dict_get_set_other by discriminate. apply dict_get_set_same.
  - rewrite !dict_get_set_other by discriminate. apply dict_get_set_same.
Qed.

(** C7, counterexample.  A stub whose team ids resolve to nothing in the
    team table and that carries no inline names: the summary is produced
    and its team names are [None], not the placeholder strings. *)
Lemma unresolved_team_name_is_not_placeholder :
  exists s,
    merge_and_summarize "11/03/2026 10:00:00 AM EST"
      (VDict [("id", VStr "m1"); ("home_team_id", VStr "t1");
              ("away_team_id", VStr "t2")])
      (VDict [("team_info", VDict [])]) = Ok s /\
    name (home s) = VNone /\ name (away s) = VNone /\
    name (home s) <> VStr "Unknown Home Team" /\
    name (away s) <> VStr "Unknown Away Team".
Proof.
  eexists. split; [vm_compute; reflexivity|].
  repeat split; discriminate.
Qed.

(** C7, amended.  In the summary built from a merged match the team name
    is the name found in the team table when that is usable, else the
    inline name of the stub when that is usable; and the placeholder of
    the summarizer, for a record that has no [home_team] (resp.
    [away_team]) key, is "Unknown". *)
Theorem summary_team_name_resolution :
  (forall (now : string) (match_ : dict) (s : match_summary),
      extract_summary_fields now match_ = Ok s ->
      (dict_get match_ "home_team" = None -> name (home s) = VStr "Unknown") /\
      (dict_get match_ "away_team" = None -> name (away s) = VStr "Unknown")) /\
  (forall (now : string) (live detail odds_struct : dict) (odds_wrap : value)
          (countries : list (value * value)) (home_ away_ comp : value)
          (merged : dict) (s : match_summary),
      merged_record live detail odds_struct odds_wrap countries home_ away_ comp
        = Ok merged ->
      extract_summary_fields now merged = Ok s ->
      exists home_name away_name,
        attr_get home_ "name" VNone = Ok home_name /\
        attr_get away_ "name" VNone = Ok away_name /\
        (truthy home_name = true -> name (home s) = home_name) /\
        (truthy home_name = false -> truthy (get live "home_name" VNone) = true ->
         name (home s) = get live "home_name" VNone) /\
        (truthy away_name = true -> name (away s) = away_name) /\
        (truthy away_name = false -> truthy (get live "away_name" VNone) = true ->
         name (away s) = get live "away_name" VNone)).
Proof.
  split.
  - intros now match_ s H.
    destruct (summary_team_names now match_ s H) as [Hh Ha].
    rewrite Hh, Ha. unfold get.
    split; intros ->; reflexivity.
  - intros now live detail odds_struct odds_wrap countries home_ away_ comp merged s Hm Hs.
    destruct (merged_record_team_names _ _ _ _ _ _ _ _ _ Hm)
      as (hn & an & Hhn & Han & Hgh & Hga).
    destruct (summary_team_names now merged s Hs) as [Hh Ha].
    unfold get in Hh, Ha. rewrite Hgh in Hh. rewrite Hga in Ha.
    exists hn, an. split; [exact Hhn|]. split; [exact Han|].
    rewrite Hh, Ha. repeat split.
    + intros Ht. apply truthy_py_or_l. exact Ht.
    + intros Ht _. apply truthy_py_or_r. exact Ht.
    + intros Ht. apply truthy_py_or_l. exact Ht.
    + intros Ht _. apply truthy_py_or_r. exact Ht.
Qed.

(** A record without team keys, and a merge whose home team resolves to
    "Ajax" while the away team falls back to the inline name. *)
Lemma summary_team_name_resolution_witness :
  (exists s, extract_summary_fields "now" [("id", VStr "m1")] = Ok s /\
             name (home s) = VStr "Unknown" /\ name (away s) = VStr "Unknown") /\
  (exists merged s,
      merged_record [("id", VStr "m1"); ("away_name", VStr "Feyenoord")] [] [] (VDict [])
        [] (VDict [("name", VStr "Ajax")]) (VDict []) (VDict []) = Ok merged /\
      extract_summary_fields "now" merged = Ok s /\
      name (home s) = VStr "Ajax" /\ name (away s) = VStr "Feyenoord").
Proof.
  destruct summary_team_name_resolution as [HA HB].
  split.
  - eexists. split; [reflexivity|].
    destruct (HA "now" [("id", VStr "m1")] _ eq_refl) as [Hh Ha].
    split; [apply Hh|apply Ha]; reflexivity.
  - do 2 eexists. split; [reflexivity|]. split; [reflexivity|].
    destruct (HB "now" [("id", VStr "m1"); ("away_name", VStr "Feyenoord")] [] []
                (VDict []) [] (VDict [("name", VStr "Ajax")]) (VDict []) (VDict [])
                _ _ eq_refl eq_refl)
      as (hn & an & Hhn & Han & H1 & _ & _ & H4).
    injection Hhn as <-. injection Han as <-.
    split; [apply H1|apply H4]; reflexivity.
Defined.

(** ** The both-teams-to-score market *)

Lemma attr_get_field (o : value) (k : string) (dflt v : value) :
  attr_get o k dflt = Ok v -> v = field o k dflt.
Proof. destruct o; try discriminate. cbn. intros [= <-]. reflexivity. Qed.

Lemma py_iter_items (v : value) (l : list value) : py_iter v = Ok l -> l = items v.
Proof. unfold items. intros ->. reflexivity. Qed.

Lemma fold_left_flat_map {A B C : Type} (f : C -> B -> C) (g : A -> list B)
    (l : list A) (c : C) :
  fold_left f (flat_map g l) c = fold_left (fun c x => fold_left f (g x) c) l c.
Proof.
  revert c. induction l as [|x l IH]; intros c; [reflexivity|].
  cbn [flat_map fold_left]. rewrite fold_left_app. apply IH.
Qed.

Lemma btts_selection_sets (btts btts' : dict) (sel : value) :
  btts_selection btts sel = Ok btts' ->
  btts' = fold_left set_pair (selection_pairs [sel]) btts.
Proof.
  intros H. unfold btts_selection in H.
  destruct (attr_get sel "name" (VStr "")) as [nmv|] eqn:En; cbn [bind] in H;
    [|discriminate H].
  apply attr_get_field in En.
  destruct nmv as [| | | | nm | |]; try discriminate H. cbn [py_lower bind] in H.
  unfold selection_pairs, lower_name. cbn [flat_map]. rewrite <- En.
  fold (yes_or_no (lower nm)) in H. rewrite app_nil_r.
  destruct (yes_or_no (lower nm)).
  - destruct (attr_get sel "odds" VNone) as [o|] eqn:Eo; cbn [bind] in H;
      [|discriminate H].
    apply attr_get_field in Eo. injection H as <-. rewrite Eo. reflexivity.
  - injection H as <-. reflexivity.
Qed.

Lemma btts_selections_set (sels : list value) :
  forall btts btts',
    foldM btts_selection sels btts = Ok btts' ->
    btts' = fold_left set_pair (selection_pairs sels) btts.
Proof.
  induction sels as [|sel sels IH]; intros btts btts' H.
  - injection H as <-. reflexivity.
  - cbn [foldM] in H.
    destruct (btts_selection btts sel) as [b1|] eqn:E1; [|discriminate H].
    apply btts_selection_sets in E1. apply IH in H. subst.
    unfold selection_pairs. cbn [flat_map].
    rewrite app_nil_r, fold_left_app. reflexivity.
Qed.

Lemma btts_markets_set (markets : list value) :
  forall btts btts',
    foldM btts_market markets btts = Ok btts' ->
    btts' = fold_left set_pair (btts_pairs markets) btts.
Proof.
  induction markets as [|m markets IH]; intros btts btts' H.
  - injection H as <-. reflexivity.
  - cbn [foldM] in H.
    destruct (btts_market btts m) as [b1|] eqn:E1; [|discriminate H].
    apply IH in H. subst btts'.
    unfold btts_pairs. cbn [flat_map]. rewrite fold_left_app. f_equal.
    unfold btts_market in E1.
    destruct (attr_get m "name" VNone) as [nm|] eqn:En; cbn [bind] in E1;
      [|discriminate E1].
    apply attr_get_field in En. rewrite <- En.
    destruct (py_eq nm (VStr "Both Teams to Score")).
    + destruct (attr_get m "selections" (VList [])) as [sv|] eqn:Es; cbn [bind] in E1;
        [|discriminate E1].
      apply attr_get_field in Es.
      destruct (py_iter sv) as [sels|] eqn:Ei; cbn [bind] in E1; [|discriminate E1].
      apply py_iter_items in Ei. apply btts_selections_set in E1.
      rewrite <- Es, <- Ei. exact E1.
    + injection E1 as <-. reflexivity.
Qed.

Lemma odds_market_keeps_btts (raw_odds : value) (data data' : odds_data) (key : string) :
  odds_market raw_odds data key = Ok data' ->
  both_teams_to_score data' = both_teams_to_score data.
Proof.
  intros H. unfold odds_market in H.
  destruct (attr_get raw_odds key (VList [])) as [entries|]; cbn [bind] in H;
    [|discriminate H].
  destruct (filter_by_time entries) as [selected|]; cbn [bind] in H;
    [|discriminate H].
  destruct selected as [|[| | | | | entry |] ?]; try (injection H as <-; reflexivity).
  destruct (5 <=? Z.of_nat (List.length entry)); [|injection H as <-; reflexivity].
  destruct (String.eqb key "eu"); [injection H as <-; reflexivity|].
  destruct (String.eqb key "asia"); injection H as <-; reflexivity.
Qed.

Lemma odds_markets_keep_btts (raw_odds : value) (keys : list string) :
  forall data data',
    foldM (odds_market raw_odds) keys data = Ok data' ->
    both_teams_to_score data' = both_teams_to_score data.
Proof.
  induction keys as [|k keys IH]; intros data data' H.
  - injection H as <-. reflexivity.
  - cbn [foldM] in H.
    destruct (odds_market raw_odds data k) as [d1|] eqn:E1; [|discriminate H].
    rewrite (IH _ _ H). eapply odds_market_keeps_btts. exact E1.
Qed.

Lemma extract_odds_btts (match_ : dict) (data : odds_data) :
  extract_odds match_ = Ok data ->
  both_teams_to_score data = fold_left set_pair (btts_pairs (betting_markets match_)) [].
Proof.
  intros H. unfold extract_odds in H.
  destruct (foldM _ ["eu"; "asia"; "bs"] _) as [d0|] eqn:E0; cbn [bind] in H;
    [|discriminate H].
  apply odds_markets_keep_btts in E0. cbn [both_teams_to_score] in E0.
  destruct (attr_get (get match_ "betting" (VDict [])) "markets" (VList []))
    as [mv|] eqn:Em; cbn [bind] in H; [|discriminate H].
  apply attr_get_field in Em.
  destruct (py_iter mv) as [ms|] eqn:Ei; cbn [bind] in H; [|discriminate H].
  apply py_iter_items in Ei.
  destruct (foldM btts_market ms (both_teams_to_score d0)) as [b|] eqn:Eb;
    cbn [bind] in H; [|discriminate H].
  apply btts_markets_set in Eb. injection H as <-. cbn [both_teams_to_score].
  unfold betting_markets. rewrite <- Em, <- Ei, Eb, E0. reflexivity.
Qed.

Lemma dict_get_fold_set (pairs : list (string * value)) :
  forall (d : dict) (k : string) (v : value),
    dict_get (fold_left set_pair pairs d) k = Some v ->
    In (k, v) pairs \/ dict_get d k = Some v.
Proof.
  induction pairs as [|[k0 v0] pairs IH]; intros d k v H; cbn [fold_left] in H.
  - right. exact H.
  - apply IH in H. destruct H as [H|H]; [left; right; exact H|].
    unfold set_pair in H. cbn [fst snd] in H.
    destruct (String.eqb_spec k0 k) as [->|Hne].
    + rewrite dict_get_set_same in H. injection H as ->. left. left. reflexivity.
    + rewrite dict_get_set_other in H by exact Hne. right. exact H.
Qed.

Lemma dict_get_set_keeps (d : dict) (k k' : string) (v' : value) :
  dict_get d k <> None -> dict_get (dict_set d k' v') k <> None.
Proof.
  intros H. destruct (String.eqb_spec k' k) as [->|Hne].
  - rewrite dict_get_set_same. discriminate.
  - rewrite dict_get_set_other by exact Hne. exact H.
Qed.

Lemma dict_get_fold_set_keeps (pairs : list (string * value)) :
  forall (d : dict) (k : string),
    dict_get d k <> None -> dict_get (fold_left set_pair pairs d) k <> None.
Proof.
  induction pairs as [|[k0 v0] pairs IH]; intros d k H; cbn [fold_left]; [exact H|].
  apply IH. apply dict_get_set_keeps. exact H.
Qed.

Lemma dict_get_fold_set_present (pairs : list (string * value)) :
  forall (d : dict) (k : string),
    In k (map fst pairs) -> dict_get (fold_left set_pair pairs d) k <> None.
Proof.
  induction pairs as [|[k0 v0] pairs IH]; intros d k Hin; [destruct Hin|].
  cbn [fold_left]. destruct Hin as [Hk|Hin].
  - cbn [fst] in Hk. subst k0. apply dict_get_fold_set_keeps.
    unfold set_pair. cbn [fst snd]. rewrite dict_get_set_same. discriminate.
  - apply IH. exact Hin.
Qed.

Lemma btts_pairs_yes_no (markets : list value) (k : string) (v : value) :
  In (k, v) (btts_pairs markets) -> k = "yes" \/ k = "no".
Proof.
  unfold btts_pairs. intros H. apply in_flat_map in H. destruct H as (m & _ & H).
  destruct (py_eq (field m "name" VNone) (VStr "Both Teams to Score")); [|destruct H].
  unfold selection_pairs in H. apply in_flat_map in H. destruct H as (sel & _ & H).
  destruct (yes_or_no (lower_name sel)) eqn:E; [|destruct H].
  destruct H as [[= <- _]|[]].
  unfold yes_or_no in E. apply orb_true_iff in E.
  destruct E as [E|E]; apply String.eqb_eq in E; auto.
Qed.

(** C10.  In every summary the odds block has the mapping
    [both_teams_to_score]; it is what results from storing, in order, the
    odds of every selection named yes or no (compared lower-cased) of
    every market named "Both Teams to Score" of [betting.markets]: its
    keys are among "yes" and "no", each of its entries comes from such a
    selection, each such selection name has an entry, and it is empty when
    there is no such selection. *)
Theorem both_teams_to_score_in_every_summary :
  forall (now : string) (match_ : dict) (s : match_summary),
    extract_summary_fields now match_ = Ok s ->
    let pairs := btts_pairs (betting_markets match_) in
    let btts := both_teams_to_score (odds s) in
    btts = fold_left set_pair pairs [] /\
    (forall k v, dict_get btts k = Some v ->
                 (k = "yes" \/ k = "no") /\ In (k, v) pairs) /\
    (forall k, In k (map fst pairs) -> dict_get btts k <> None) /\
    (pairs = [] -> btts = []).
Proof.
  intros now match_ s H pairs btts.
  assert (Hb : btts = fold_left set_pair pairs []).
  { unfold extract_summary_fields in H.
    destruct (get match_ "score" (VList [])) as [| | | | | xs |];
      try destruct (3 <? Z.of_nat (List.length xs));
      (destruct (extract_odds match_) as [o|] eqn:Eo; cbn [bind] in H;
       [|discriminate H]);
      bind_inv H; injection H as <-; apply (extract_odds_btts _ _ Eo). }
  split; [exact Hb|]. rewrite Hb. split; [|split].
  - intros k v Hget. apply dict_get_fold_set in Hget.
    destruct Hget as [Hin|Hd]; [|discriminate Hd].
    split; [|exact Hin]. eapply btts_pairs_yes_no. exact Hin.
  - intros k Hin. apply dict_get_fold_set_present. exact Hin.
  - intros ->. reflexivity.
Qed.

Lemma both_teams_to_score_in_every_summary_witness :
  exists s,
    extract_summary_fields "now" btts_example = Ok s /\
    both_teams_to_score (odds s)
    = [("yes", VFloat (17 # 10) "1.7"); ("no", VFloat (21 # 10) "2.1")].
Proof.
  destruct (extract_summary_fields "now" btts_example) as [s|] eqn:E;
    [|vm_compute in E; discriminate E].
  exists s. split; [reflexivity|].
  destruct (both_teams_to_score_in_every_summary "now" btts_example s E) as [H _].
  rewrite H. reflexivity.
Defined.

(** ** Country inference *)

Lemma matched_indicators_head (c : string) (p : string -> bool) (inds : list string) :
  hd_error (flat_map (fun i => if p i then [c] else []) inds)
  = if existsb p inds then Some c else None.
Proof.
  induction inds as [|i inds IH]; [reflexivity|].
  cbn [flat_map existsb]. destruct (p i); [reflexivity|]. exact IH.
Qed.

Lemma hd_error_app {A : Type} (l l' : list A) :
  hd_error (l ++ l') = match hd_error l with Some x => Some x | None => hd_error l' end.
Proof. destruct l; reflexivity. Qed.

Lemma matched_countries_head (table : list (string * list string)) (team : string) :
  hd_error (matched_countries table team) = first_country_in table team.
Proof.
  unfold matched_countries, first_country_in.
  induction table as [|[c inds] table IH]; [reflexivity|].
  cbn [flat_map find]. rewrite hd_error_app.
  cbn [fst snd]. rewrite matched_indicators_head. unfold mentions at 1. cbn [snd].
  destruct (existsb (fun indicator => contains indicator team) inds); [reflexivity|].
  exact IH.
Qed.

Lemma scan_indicators_first (table : list (string * list string)) (text : string) :
  scan_indicators table text = first_country_in table text.
Proof.
  unfold first_country_in.
  induction table as [|[c inds] table IH]; [reflexivity|].
  cbn [scan_indicators find]. unfold mentions at 1. cbn [snd].
  destruct (existsb (fun indicator => contains indicator text) inds); [reflexivity|].
  exact IH.
Qed.

(** C8.  For a match whose lower-cased competition name contains both
    "international" and "friendly", with each side's country taken as the
    first country of the table that has an indicator in that side's
    lower-cased team name: two different countries give "International";
    one side only gives that side's country, title-cased; the same
    country on both sides gives that country; and when neither side
    matches, the scan over "home away" gives the first matching country,
    title-cased, or "Unknown". *)
Theorem infer_country_international_friendly :
  forall (match_data : dict) (h a c : string),
    get match_data "home_team" (VStr "") = VStr h ->
    get match_data "away_team" (VStr "") = VStr a ->
    get match_data "competition" (VStr "") = VStr c ->
    contains "international" (lower c) = true ->
    contains "friendly" (lower c) = true ->
    exists r,
      infer_country_from_teams (VDict match_data) = Ok r /\
      (forall x y, first_country (lower h) = Some x ->
                   first_country (lower a) = Some y -> x <> y ->
                   r = "International") /\
      (forall x, first_country (lower h) = Some x ->
                 first_country (lower a) = None -> r = title x) /\
      (forall y, first_country (lower h) = None ->
                 first_country (lower a) = Some y -> r = title y) /\
      (forall x, first_country (lower h) = Some x ->
                 first_country (lower a) = Some x -> r = title x) /\
      (first_country (lower h) = None -> first_country (lower a) = None ->
       r = match first_country (lower h ++ " " ++ lower a) with
           | Some z => title z
           | None => "Unknown"
           end).
Proof.
  intros match_data h a c Hh Ha Hc Hi Hf.
  unfold infer_country_from_teams, attr_get. rewrite Hh, Ha, Hc.
  cbn [bind py_lower]. eexists. split; [reflexivity|].
  unfold infer_country. rewrite Hi, Hf. cbn [andb].
  rewrite scan_indicators_first. fold (first_country (lower h ++ " " ++ lower a)).
  pose proof (matched_countries_head country_indicators (lower h)) as Hmh.
  pose proof (matched_countries_head country_indicators (lower a)) as Hma.
  fold (first_country (lower h)) in Hmh. fold (first_country (lower a)) in Hma.
  destruct (matched_countries country_indicators (lower h)) as [|x xs];
    destruct (matched_countries country_indicators (lower a)) as [|y ys];
    cbn [hd_error] in Hmh, Hma; rewrite <- Hmh, <- Hma;
    repeat split; intros; try discriminate; try congruence.
  - destruct (String.eqb_spec x y); congruence.
  - match goal with
    | H1 : Some x = Some ?z, H2 : Some y = Some ?z |- _ =>
        injection H1 as <-; injection H2 as <-
    end.
    rewrite String.eqb_refl. reflexivity.
Qed.

(** The two examples of the specification: Brazil against Argentina, and
    Brazil against a side that matches no indicator. *)
Lemma infer_country_international_friendly_witness :
  infer_country_from_teams
    (VDict [("home_team", VStr "Brazil U20"); ("away_team", VStr "Argentina U20");
            ("competition", VStr "International Friendly")]) = Ok "International" /\
  infer_country_from_teams
    (VDict [("home_team", VStr "Brazil U20"); ("away_team", VStr "Atlantis");
            ("competition", VStr "International Friendly")]) = Ok "Brazil".
Proof.
  split.
  - destruct (infer_country_international_friendly
                [("home_team", VStr "Brazil U20"); ("away_team", VStr "Argentina U20");
                 ("competition", VStr "International Friendly")]
                "Brazil U20" "Argentina U20" "International Friendly"
                eq_refl eq_refl eq_refl eq_refl eq_refl) as (r & Hr & H & _).
    rewrite Hr. f_equal. apply (H "brazil" "argentina"); [reflexivity|reflexivity|].
    discriminate.
  - destruct (infer_country_international_friendly
                [("home_team", VStr "Brazil U20"); ("away_team", VStr "Atlantis");
                 ("competition", VStr "International Friendly")]
                "Brazil U20" "Atlantis" "International Friendly"
                eq_refl eq_refl eq_refl eq_refl eq_refl) as (r & Hr & _ & H & _).
    rewrite Hr. f_equal. apply (H "brazil"); reflexivity.
Defined.

(** ** Orders on sort keys *)

Lemma cmp_ok_Z : cmp_ok Z.compare.
Proof.
  repeat split.
  - apply Z.compare_eq.
  - intros ->. apply Z.compare_refl.
  - intros a b. apply Z.compare_antisym.
  - intros a b c H1 H2. rewrite Z.compare_lt_iff in *. lia.
Qed.

Lemma string_compare_refl (s : string) : String.compare s s = Eq.
Proof.
  induction s as [|c s IH]; [reflexivity|].
  cbn [String.compare]. unfold Ascii.compare. rewrite N.compare_refl. exact IH.
Qed.

Lemma cmp_ok_string : cmp_ok String.compare.
Proof.
  repeat split.
  - apply String.compare_eq_iff.
  - intros ->. apply string_compare_refl.
  - apply String.compare_antisym.
  - intros a b c H1 H2.
    change (String_as_OT.lt a c). change (String_as_OT.lt a b) in H1.
    change (String_as_OT.lt b c) in H2.
    exact (StrictOrder_Transitive a b c H1 H2).
Qed.

Section Lex.
Context {K1 K2 : Type} (cmp1 : K1 -> K1 -> comparison) (cmp2 : K2 -> K2 -> comparison).
Hypothesis ok1 : cmp_ok cmp1.
Hypothesis ok2 : cmp_ok cmp2.

Lemma cmp_ok_lex : cmp_ok (lex_cmp cmp1 cmp2).
Proof.
  destruct ok1 as (eq1 & anti1 & trans1), ok2 as (eq2 & anti2 & trans2).
  repeat split.
  - intros H. unfold lex_cmp in H. destruct a as [a1 a2], b as [b1 b2].
    cbn [fst snd] in H. destruct (cmp1 a1 b1) eqn:E1; try discriminate.
    apply eq1 in E1. apply eq2 in H. congruence.
  - intros ->. unfold lex_cmp.
    rewrite (proj2 (eq1 (fst b) (fst b)) eq_refl). apply eq2. reflexivity.
  - intros a b. unfold lex_cmp. rewrite (anti1 (fst a) (fst b)).
    destruct (cmp1 (fst b) (fst a)); cbn [CompOpp]; auto.
  - intros a b c. unfold lex_cmp.
    destruct (cmp1 (fst a) (fst b)) eqn:Eab; try discriminate;
      destruct (cmp1 (fst b) (fst c)) eqn:Ebc; try discriminate; intros H1 H2.
    + apply eq1 in Eab, Ebc. rewrite Eab, Ebc.
      rewrite (proj2 (eq1 (fst c) (fst c)) eq_refl). eapply trans2; eassumption.
    + apply eq1 in Eab. rewrite Eab, Ebc. reflexivity.
    + apply eq1 in Ebc. rewrite <- Ebc, Eab. reflexivity.
    + rewrite (trans1 _ _ _ Eab Ebc). reflexivity.
Qed.

End Lex.

Section SortedByKey.
Context {A K : Type} (cmp : K -> K -> comparison) (key : A -> K).
Hypothesis ok : cmp_ok cmp.

Lemma key_ltb_false_le (x y : A) :
  key_ltb cmp key y x = false -> key_le cmp key x y.
Proof.
  destruct ok as (_ & anti & _).
  unfold key_ltb, ltb_of, key_le. rewrite (anti (key x) (key y)).
  destruct (cmp (key y) (key x)); cbn [CompOpp]; congruence.
Qed.

Lemma key_ltb_true_le (x y : A) :
  key_ltb cmp key x y = true -> key_le cmp key x y.
Proof.
  unfold key_ltb, ltb_of, key_le.
  destruct (cmp (key x) (key y)); congruence.
Qed.

Lemma key_le_trans (x y z : A) : key_le cmp key x y -> key_le cmp key y z -> key_le cmp key x z.
Proof.
  destruct ok as (eq & anti & trans).
  unfold key_le. intros Hxy Hyz.
  destruct (cmp (key x) (key y)) eqn:Exy; [| |congruence].
  - apply eq in Exy. rewrite Exy. exact Hyz.
  - destruct (cmp (key y) (key z)) eqn:Eyz; [| |congruence].
    + apply eq in Eyz. rewrite <- Eyz, Exy. discriminate.
    + rewrite (trans _ _ _ Exy Eyz). discriminate.
Qed.

Lemma insert_pure_perm (x : A) (l : list A) :
  Permutation (insert_pure (key_ltb cmp key) x l) (x :: l).
Proof.
  induction l as [|y l IH]; cbn [insert_pure]; [reflexivity|].
  destruct (key_ltb cmp key y x); [|reflexivity].
  rewrite IH. apply perm_swap.
Qed.

Lemma isort_perm (l : list A) : Permutation (isort (key_ltb cmp key) l) l.
Proof.
  induction l as [|x l IH]; cbn [isort]; [reflexivity|].
  rewrite insert_pure_perm. apply perm_skip. exact IH.
Qed.

Lemma insert_pure_sorted (x : A) (l : list A) :
  StronglySorted (key_le cmp key) l ->
  StronglySorted (key_le cmp key) (insert_pure (key_ltb cmp key) x l).
Proof.
  intros Hl. induction Hl as [|y l Hl IH Hy]; cbn [insert_pure].
  - constructor; constructor.
  - destruct (key_ltb cmp key y x) eqn:E.
    + constructor; [exact IH|].
      eapply Permutation_Forall; [symmetry; apply insert_pure_perm|].
      constructor; [apply key_ltb_true_le; exact E|exact Hy].
    + apply key_ltb_false_le in E.
      constructor; [constructor; assumption|].
      constructor; [exact E|].
      eapply Forall_impl; [|exact Hy]. intros z Hz.
      eapply key_le_trans; eassumption.
Qed.

Lemma isort_sorted (l : list A) :
  StronglySorted (key_le cmp key) (isort (key_ltb cmp key) l).
Proof.
  induction l as [|x l IH]; cbn [isort]; [constructor|].
  apply insert_pure_sorted. exact IH.
Qed.

End SortedByKey.

Lemma Qeq_bool_inject_Z (a b : Z) : Qeq_bool (inject_Z a) (inject_Z b) = (a =? b).
Proof.
  destruct (Z.eqb_spec a b) as [->|Hne].
  - apply Qeq_bool_iff. reflexivity.
  - destruct (Qeq_bool (inject_Z a) (inject_Z b)) eqn:E; [|reflexivity].
    apply Qeq_bool_iff in E. exfalso. apply Hne. apply inject_Z_injective. exact E.
Qed.

Lemma Qle_bool_inject_Z (a b : Z) : Qle_bool (inject_Z a) (inject_Z b) = (a <=? b).
Proof.
  destruct (Z.leb_spec a b) as [H|H].
  - apply Qle_bool_iff. rewrite <- Zle_Qle. exact H.
  - destruct (Qle_bool (inject_Z a) (inject_Z b)) eqn:E; [|reflexivity].
    apply Qle_bool_iff in E. rewrite <- Zle_Qle in E. lia.
Qed.

(** How Python orders two keys [(rank, match_id)] with string ids. *)
Lemma py_lt_rank_id (k1 k2 : Z * string) :
  py_lt (VList [VInt (fst k1); VStr (snd k1)]) (VList [VInt (fst k2); VStr (snd k2)])
  = Ok (ltb_of (lex_cmp Z.compare String.compare) k1 k2).
Proof.
  destruct k1 as [r1 s1], k2 as [r2 s2]. cbn [fst snd py_lt py_eq num_of].
  rewrite Qeq_bool_inject_Z, Qle_bool_inject_Z.
  unfold ltb_of, lex_cmp. cbn [fst snd].
  destruct (Z.compare_spec r1 r2) as [->|Hlt|Hgt].
  - rewrite Z.eqb_refl. unfold String.ltb.
    destruct (String.eqb_spec s1 s2) as [->|Hne].
    + rewrite string_compare_refl. reflexivity.
    + reflexivity.
  - replace (r1 =? r2) with false by (symmetry; apply Z.eqb_neq; lia).
    replace (r2 <=? r1) with false by (symmetry; apply Z.leb_gt; lia). reflexivity.
  - replace (r1 =? r2) with false by (symmetry; apply Z.eqb_neq; lia).
    replace (r2 <=? r1) with true by (symmetry; apply Z.leb_le; lia). reflexivity.
Qed.

(** How Python orders two keys [(country, competition)] of strings. *)
Lemma py_lt_country_comp (k1 k2 : string * string) :
  py_lt (VList [VStr (fst k1); VStr (snd k1)]) (VList [VStr (fst k2); VStr (snd k2)])
  = Ok (ltb_of (lex_cmp String.compare String.compare) k1 k2).
Proof.
  destruct k1 as [c1 n1], k2 as [c2 n2]. cbn [fst snd py_lt py_eq].
  unfold ltb_of, lex_cmp. cbn [fst snd]. unfold String.ltb.
  destruct (String.eqb_spec c1 c2) as [->|Hc].
  - rewrite string_compare_refl.
    destruct (String.eqb_spec n1 n2) as [->|Hn]; [|reflexivity].
    rewrite string_compare_refl. reflexivity.
  - destruct (String.compare c1 c2) eqn:E; try reflexivity.
    apply String.compare_eq_iff in E. contradiction.
Qed.

Lemma mapM_ok {A B : Type} (f : A -> result B) (g : A -> B) (P : A -> Prop)
    (l : list A) :
  (forall x, P x -> f x = Ok (g x)) -> Forall P l -> mapM f l = Ok (map g l).
Proof.
  intros Hf Hl. induction Hl as [|x l Hx Hl IH]; [reflexivity|].
  cbn [mapM map]. rewrite (Hf x Hx), IH. reflexivity.
Qed.

Lemma insert_pure_map {A B : Type} (f : A -> B) (ltbA : A -> A -> bool)
    (ltbB : B -> B -> bool) (x : A) (l : list A) :
  (forall x y, ltbB (f x) (f y) = ltbA x y) ->
  insert_pure ltbB (f x) (map f l) = map f (insert_pure ltbA x l).
Proof.
  intros H. induction l as [|y l IH]; [reflexivity|].
  cbn [map insert_pure]. rewrite H. destruct (ltbA y x); [|reflexivity].
  cbn [map]. rewrite IH. reflexivity.
Qed.

Lemma isort_map {A B : Type} (f : A -> B) (ltbA : A -> A -> bool)
    (ltbB : B -> B -> bool) (l : list A) :
  (forall x y, ltbB (f x) (f y) = ltbA x y) ->
  isort ltbB (map f l) = map f (isort ltbA l).
Proof.
  intros H. induction l as [|x l IH]; [reflexivity|].
  cbn [map isort]. rewrite IH. apply insert_pure_map. exact H.
Qed.

Section SortByKey.
Context {A K : Type} (key : A -> result value) (tkey : A -> K) (enc : K -> value)
  (cmp : K -> K -> comparison) (P : A -> Prop).
Hypothesis key_enc : forall x, P x -> key x = Ok (enc (tkey x)).
Hypothesis lt_enc : forall k1 k2, py_lt (enc k1) (enc k2) = Ok (ltb_of cmp k1 k2).

(** With keys that Python can order, [sort_by_key] is the stable
    insertion sort by the typed key. *)
Lemma sort_by_key_typed (l : list A) :
  Forall P l -> sort_by_key key l = Ok (isort (key_ltb cmp tkey) l).
Proof.
  intros Hl. unfold sort_by_key.
  rewrite (mapM_ok (fun x => k <- key x ;; Ok (k, x))
                   (fun x => (enc (tkey x), x)) P l); [|intros x Hx|exact Hl].
  - cbn [bind].
    rewrite (py_sorted_pure (fun a b : value * A => py_lt (fst a) (fst b))
               (fun a b => key_ltb cmp tkey (snd a) (snd b))
               (fun a => fst a = enc (tkey (snd a)))).
    + cbn [bind].
      rewrite (isort_map (fun x => (enc (tkey x), x)) (key_ltb cmp tkey)) by reflexivity.
      rewrite map_map. cbn [snd]. rewrite map_id. reflexivity.
    + intros a b Ha Hb. rewrite Ha, Hb. apply lt_enc.
    + apply Forall_map. apply Forall_forall. reflexivity.
  - rewrite (key_enc x Hx). reflexivity.
Qed.

End SortByKey.

(** ** Competition grouper *)

Lemma py_eq_str_true (k : value) (c : string) : py_eq k (VStr c) = true -> k = VStr c.
Proof.
  destruct k; cbn [py_eq num_of]; try discriminate.
  intros H. apply String.eqb_eq in H. congruence.
Qed.

Lemma kv_find_split {A : Type} (m : list (value * A)) (c : string) (a : A) :
  kv_find m (VStr c) = Some a ->
  exists m1 m2,
    m = (m1 ++ (VStr c, a) :: m2)%list /\
    forall a', kv_set m (VStr c) a' = (m1 ++ (VStr c, a') :: m2)%list.
Proof.
  induction m as [|[k x] m IH]; cbn [kv_find kv_set]; [discriminate|].
  destruct (py_eq k (VStr c)) eqn:E.
  - intros [= ->]. apply py_eq_str_true in E. subst k.
    exists [], m. split; reflexivity.
  - intros H. destruct (IH H) as (m1 & m2 & -> & Hset).
    exists ((k, x) :: m1), m2. split; [reflexivity|].
    intros a'. rewrite Hset. reflexivity.
Qed.

Lemma kv_find_none {A : Type} (m : list (value * A)) (c : string) :
  kv_find m (VStr c) = None ->
  ~ In (VStr c) (map fst m) /\
  forall a', kv_set m (VStr c) a' = (m ++ [(VStr c, a')])%list.
Proof.
  induction m as [|[k x] m IH]; cbn [kv_find kv_set map fst].
  - intros _. split; [intros []|reflexivity].
  - destruct (py_eq k (VStr c)) eqn:E; [discriminate|].
    intros H. destruct (IH H) as [Hnin Hset]. split.
    + intros [Hk|Hin]; [|contradiction].
      subst k. cbn [py_eq] in E. rewrite String.eqb_refl in E. discriminate.
    + intros a'. rewrite Hset. reflexivity.
Qed.

Lemma NoDup_app_iff_snoc {A : Type} (l : list A) (x : A) :
  NoDup l -> ~ In x l -> NoDup (l ++ [x]).
Proof.
  intros Hl Hx. induction Hl as [|y l Hy Hl IH]; cbn [app].
  - constructor; [intros []|constructor].
  - constructor.
    + intros Hin. apply in_app_or in Hin. destruct Hin as [Hin|[->|[]]].
      * contradiction.
      * apply Hx. now left.
    + apply IH. intros Hin. apply Hx. now right.
Qed.

Lemma filter_snoc {A : Type} (f : A -> bool) (l : list A) (x : A) :
  filter f (l ++ [x]) = (filter f l ++ if f x then [x] else [])%list.
Proof. rewrite filter_app. cbn [filter]. destruct (f x); reflexivity. Qed.

Lemma group_ok_other (seen : list item) (it : item) (kg : value * comp_group) :
  group_ok seen kg ->
  fst kg <> VStr (item_competition it) ->
  group_ok (seen ++ [it]) kg.
Proof.
  intros (c & first & rest & Hk & Hm & Hf & Hc) Hne.
  exists c, first, rest.
  assert (Hno : has_comp c it = false).
  { unfold has_comp. destruct (String.eqb_spec (item_competition it) c) as [E|E];
      [|reflexivity]. exfalso. apply Hne. rewrite Hk, E. reflexivity. }
  rewrite filter_snoc, Hno, app_nil_r. auto.
Qed.

Lemma well_formed_competition (it : item) :
  well_formed_match (snd it) ->
  attr_get (snd it) "competition" (VStr "Unknown Competition")
  = Ok (VStr (item_competition it)).
Proof.
  intros (d & Hd & (s & Hs) & _). unfold item_competition, field.
  rewrite Hd. cbn [attr_get]. rewrite Hs. reflexivity.
Qed.

Lemma add_to_group_grouped (seen : list item) (groups : list (value * comp_group))
    (it : item) :
  grouped seen groups ->
  well_formed_match (snd it) ->
  exists groups',
    add_to_group groups it = Ok groups' /\ grouped (seen ++ [it]) groups'.
Proof.
  intros (Hnd & Hok & Hcov) Hwf.
  pose proof (well_formed_competition it Hwf) as Hcomp.
  destruct Hwf as (d & Hd & _ & (cs & Hcs) & _).
  unfold add_to_group. rewrite Hcomp, Hcs. cbn [bind kv_get hashable].
  assert (Hself : has_comp (item_competition it) it = true)
    by (unfold has_comp; apply String.eqb_refl).
  destruct (kv_find groups (VStr (item_competition it))) as [g|] eqn:Ef.
  - destruct (kv_find_split groups (item_competition it) g Ef) as (m1 & m2 & Hg & Hset).
    rewrite Hset. eexists. split; [reflexivity|].
    subst groups. rewrite map_app in Hnd, Hcov. cbn [map fst] in Hnd, Hcov.
    apply Forall_app in Hok. destruct Hok as [Hok1 Hok2].
    inversion Hok2 as [|? ? Hg Hok2' ]; subst.
    repeat split.
    + rewrite map_app. exact Hnd.
    + apply Forall_app. split; [|constructor].
      * apply Forall_forall. intros kg Hin.
        apply group_ok_other; [exact (proj1 (Forall_forall _ _) Hok1 kg Hin)|].
        intros Hk. apply NoDup_remove_2 in Hnd. apply Hnd.
        apply in_or_app. left. rewrite <- Hk. apply in_map. exact Hin.
      * destruct Hg as (c' & first & rest & Hk & Hm & Hf & Hc).
        cbn [fst snd] in Hk, Hm, Hc. injection Hk as <-.
        exists (item_competition it), first, (rest ++ [it])%list.
        cbn [fst snd group_matches group_country].
        rewrite filter_snoc, Hself, <- Hm. split; [reflexivity|].
        split; [reflexivity|]. rewrite Hm, Hf. split; [reflexivity|exact Hc].
      * apply Forall_forall. intros kg Hin.
        apply group_ok_other; [exact (proj1 (Forall_forall _ _) Hok2' kg Hin)|].
        intros Hk. apply NoDup_remove_2 in Hnd. apply Hnd.
        apply in_or_app. right. rewrite <- Hk. apply in_map. exact Hin.
    + intros it' Hin. rewrite map_app. cbn [map fst].
      apply in_app_or in Hin. destruct Hin as [Hin|[<-|[]]].
      * apply Hcov. exact Hin.
      * apply in_or_app. right. left. reflexivity.
  - destruct (kv_find_none groups (item_competition it) Ef) as [Hnin Hset].
    rewrite Hset. eexists. split; [reflexivity|].
    assert (Hempty : filter (has_comp (item_competition it)) seen = []).
    { destruct (filter (has_comp (item_competition it)) seen) as [|x xs] eqn:E; [reflexivity|].
      exfalso.
      assert (Hin : In x (filter (has_comp (item_competition it)) seen))
        by (rewrite E; now left).
      apply filter_In in Hin. destruct Hin as [Hin Hx].
      unfold has_comp in Hx. apply String.eqb_eq in Hx.
      apply Hnin. rewrite <- Hx. apply Hcov. exact Hin. }
    repeat split.
    + rewrite map_app. cbn [map fst].
      apply NoDup_app_iff_snoc; assumption.
    + apply Forall_app. split.
      * apply Forall_forall. intros kg Hin.
        apply group_ok_other; [exact (proj1 (Forall_forall _ _) Hok kg Hin)|].
        intros Hk. apply Hnin. rewrite <- Hk. apply in_map. exact Hin.
      * constructor; [|constructor].
        exists (item_competition it), it, []. cbn [fst snd group_matches group_country].
        rewrite filter_snoc, Hself, Hempty. repeat split. exact Hcs.
    + intros it' Hin. rewrite map_app. cbn [map fst].
      apply in_app_or in Hin. destruct Hin as [Hin|[<-|[]]].
      * apply in_or_app. left. apply Hcov. exact Hin.
      * apply in_or_app. right. left. reflexivity.
Qed.

Lemma group_items_grouped (items : list item) :
  forall (seen : list item) (groups : list (value * comp_group)),
    grouped seen groups ->
    Forall (fun it => well_formed_match (snd it)) items ->
    exists groups',
      foldM add_to_group items groups = Ok groups' /\
      grouped (seen ++ items) groups'.
Proof.
  induction items as [|it items IH]; intros seen groups Hg Hwf.
  - exists groups. rewrite app_nil_r. split; [reflexivity|exact Hg].
  - inversion Hwf as [|? ? Hit Hrest]; subst.
    destruct (add_to_group_grouped seen groups it Hg Hit) as (g1 & Hadd & Hg1).
    destruct (IH (seen ++ [it])%list g1 Hg1 Hrest) as (g' & Hfold & Hg').
    exists g'. cbn [foldM]. rewrite Hadd. split; [exact Hfold|].
    rewrite <- app_assoc in Hg'. exact Hg'.
Qed.

Lemma well_formed_sort_key (it : item) :
  well_formed_match (snd it) ->
  match_sort_key it
  = Ok (VList [VInt (fst (item_key it)); VStr (snd (item_key it))]).
Proof.
  intros (d & Hd & _ & _ & Hh & (s & Hs)).
  unfold match_sort_key, item_key, item_rank, item_match_id, field, kv_get.
  rewrite Hd. cbn [attr_get bind fst snd]. rewrite Hh, Hs. reflexivity.
Qed.

Lemma group_sort_key_typed (g : value * comp_group) :
  (exists c s, fst g = VStr c /\ group_country (snd g) = VStr s) ->
  group_sort_key g = Ok (VList [VStr (fst (group_key g)); VStr (snd (group_key g))]).
Proof.
  intros (c & s & Hc & Hs).
  unfold group_sort_key, group_key, country_name. rewrite Hc, Hs. cbn [fst snd].
  unfold py_or. destruct (truthy (VStr s)); reflexivity.
Qed.

(** Every rank of the table is below the rank 99 of an unknown status. *)
Lemma known_rank_below_unknown (status_id : value) (r : Z) :
  kv_find status_order status_id = Some r -> 1 <= r <= 6.
Proof.
  unfold status_order. cbn [kv_find].
  repeat (destruct (py_eq _ status_id); [intros [= <-]; lia|]).
  discriminate.
Qed.

(** C9.  For a mapping of match id to well-formed match the grouper
    returns; the groups come out ordered by (country name, competition
    name), a country that is [None] or empty counting as "Unknown"; the
    matches of each group are ordered by (status rank, match id), where
    the rank is that of the table and 99 for any other status; and each
    group holds exactly the matches of its competition, with the country of
    the first of them in input order. *)
Theorem competition_grouper_order :
  forall items : list item,
    Forall (fun it => well_formed_match (snd it)) items ->
    exists groups,
      sorted_comps (VDict items) = Ok groups /\
      sort_matches_by_competition_and_time (VDict items)
      = Ok (map (fun cg : value * comp_group => (fst cg, group_matches (snd cg)))
                groups) /\
      StronglySorted (key_le country_comp_cmp group_key) groups /\
      Forall (fun g => StronglySorted (key_le rank_id_cmp item_key)
                         (group_matches (snd g))) groups /\
      Forall (fun g => exists c first rest,
                  fst g = VStr c /\
                  Permutation (group_matches (snd g)) (filter (has_comp c) items) /\
                  filter (has_comp c) items = first :: rest /\
                  match_country (snd first) = Ok (group_country (snd g))) groups /\
      NoDup (map fst groups) /\
      (forall it, In it items -> In (VStr (item_competition it)) (map fst groups)) /\
      (forall it, item_rank it = 99 \/ 1 <= item_rank it <= 6).
Proof.
  intros items Hwf.
  assert (Hrank : cmp_ok rank_id_cmp)
    by (apply cmp_ok_lex; [apply cmp_ok_Z|apply cmp_ok_string]).
  assert (Hcc : cmp_ok country_comp_cmp)
    by (apply cmp_ok_lex; apply cmp_ok_string).
  destruct (group_items_grouped items [] []) as (G & Hfold & Hnd & Hok & Hcov);
    [repeat split; [constructor|constructor|intros ? []]|exact Hwf|].
  cbn [app] in Hok, Hcov.
  assert (Hsorted_groups :
            mapM (fun cg : value * comp_group =>
                    ms <- sort_by_key match_sort_key (group_matches (snd cg)) ;;
                    Ok (fst cg, {| group_country := group_country (snd cg);
                                   group_matches := ms |})) G
            = Ok (map sort_group G)).
  { apply (mapM_ok _ sort_group (group_ok items)); [|exact Hok].
    intros kg (c & first & rest & Hk & Hm & _ & _).
    rewrite (sort_by_key_typed match_sort_key item_key
               (fun k => VList [VInt (fst k); VStr (snd k)]) rank_id_cmp
               (fun it => well_formed_match (snd it))
               well_formed_sort_key py_lt_rank_id).
    - reflexivity.
    - rewrite Hm. apply Forall_forall. intros it Hin.
      apply filter_In in Hin. destruct Hin as [Hin _].
      exact (proj1 (Forall_forall _ _) Hwf it Hin). }
  assert (Hfinal :
            sort_by_key group_sort_key (map sort_group G)
            = Ok (isort (key_ltb country_comp_cmp group_key) (map sort_group G))).
  { apply (sort_by_key_typed group_sort_key group_key
             (fun k => VList [VStr (fst k); VStr (snd k)]) country_comp_cmp
             (fun g => exists c s, fst g = VStr c /\ group_country (snd g) = VStr s)
             group_sort_key_typed py_lt_country_comp).
    apply Forall_map. eapply Forall_impl; [|exact Hok].
    intros kg (c & first & rest & Hk & _ & Hf & Hc).
    assert (Hin : In first items).
    { assert (H : In first (filter (has_comp c) items)) by (rewrite Hf; now left).
      apply filter_In in H. apply H. }
    destruct (proj1 (Forall_forall _ _) Hwf first Hin) as (_ & _ & _ & (s & Hs) & _).
    exists c, s. cbn [sort_group fst snd group_country]. split; [exact Hk|].
    congruence. }
  set (groups := isort (key_ltb country_comp_cmp group_key) (map sort_group G)).
  assert (Hperm : Permutation groups (map sort_group G))
    by apply isort_perm.
  exists groups. repeat split.
  - unfold sorted_comps. rewrite Hfold. cbn [bind]. rewrite Hsorted_groups.
    cbn [bind]. exact Hfinal.
  - unfold sort_matches_by_competition_and_time, sorted_comps.
    rewrite Hfold. cbn [bind]. rewrite Hsorted_groups. cbn [bind].
    rewrite Hfinal. reflexivity.
  - apply isort_sorted. exact Hcc.
  - eapply Permutation_Forall; [symmetry; exact Hperm|].
    apply Forall_map. apply Forall_forall. intros kg _.
    cbn [sort_group snd group_matches]. apply isort_sorted. exact Hrank.
  - eapply Permutation_Forall; [symmetry; exact Hperm|].
    apply Forall_map. eapply Forall_impl; [|exact Hok].
    intros kg (c & first & rest & Hk & Hm & Hf & Hc).
    exists c, first, rest. cbn [sort_group fst snd group_matches group_country].
    split; [exact Hk|]. split; [|split; [exact Hf|exact Hc]].
    rewrite <- Hm. apply isort_perm.
  - eapply Permutation_NoDup; [apply Permutation_map; symmetry; exact Hperm|].
    rewrite map_map. cbn [sort_group fst]. exact Hnd.
  - intros it Hin.
    eapply Permutation_in; [apply Permutation_map; symmetry; exact Hperm|].
    rewrite map_map. cbn [sort_group fst]. apply Hcov. exact Hin.
  - intros it. unfold item_rank.
    destruct (kv_find status_order (field (snd it) "status_id" (VInt 99))) as [r|] eqn:E.
    + right. eapply known_rank_below_unknown. exact E.
    + left. reflexivity.
Qed.

Lemma competition_grouper_order_witness :
  match sort_matches_by_competition_and_time (VDict grouper_example) with
  | Ok groups => map (fun g => (fst g, map fst (snd g))) groups
                 = [ (VStr "Serie A", ["m1"; "m2"; "m3"]); (VStr "Cup", ["m0"]) ]
  | Raise _ => False
  end.
Proof.
  destruct (competition_grouper_order grouper_example) as (groups & H1 & H2 & _).
  - repeat constructor;
      (eexists; split; [reflexivity|];
       repeat split; try (eexists; reflexivity); reflexivity).
  - rewrite H2. vm_compute in H1. injection H1 as <-. reflexivity.
Defined.

(** The examples of the specification for the time-window selector. *)
Example filter_by_time_in_window :
  filter_by_time
    (VList [VList [VInt 100; VStr "1"]; VList [VInt 101; VStr "4"];
            VList [VInt 102; VStr "8"]; VList [VInt 103; VStr "12"]])
  = Ok [VList [VInt 101; VStr "4"]].
Proof. reflexivity. Qed.

Example filter_by_time_tie_first_wins :
  filter_by_time
    (VList [VList [VInt 100; VStr "1"]; VList [VInt 102; VStr "8"];
            VList [VInt 103; VStr "12"]])
  = Ok [VList [VInt 100; VStr "1"]] /\
  filter_by_time
    (VList [VList [VInt 102; VStr "8"]; VList [VInt 100; VStr "1"];
            VList [VInt 103; VStr "12"]])
  = Ok [VList [VInt 102; VStr "8"]].
Proof. split; reflexivity. Qed.

Example filter_by_time_none_under_ten :
  filter_by_time (VList [VList [VInt 100; VStr "15"]; VList [VInt 101; VStr "20+2"]])
  = Ok [].
Proof. reflexivity. Qed.

(** * Further properties of the code *)

(** ** History store: what a write leaves behind *)

Lemma updated_document_inv (ny : string) (batch d : dict) (file : file_state) :
  updated_document ny batch file = Ok d ->
  exists (data : dict) (entries : list value),
    get data "history" VNone = VList entries /\
    let kept := if 100 <=? Z.of_nat (List.length entries)
                then last_n 100 entries else entries in
    let entries' := (kept ++ [VDict batch])%list in
    d = dict_set
          (dict_set
             (dict_set
                (dict_set (dict_set data "history" (VList entries'))
                          "last_updated" (get batch "timestamp" VNone))
                "total_entries" (VInt (Z.of_nat (List.length entries'))))
             "latest_match_count" (get batch "total_matches" VNone))
          "ny_timestamp" (VStr ny).
Proof.
  unfold updated_document. intros H.
  match type of H with
  | bind ?c _ = _ => destruct c as [data|] eqn:Ed; cbn [bind] in H; [|discriminate H]
  end.
  destruct (get data "history" VNone) as [| | | | | entries |] eqn:Eh;
    cbn [py_len bind] in H; try discriminate H.
  exists data, entries. split; [exact Eh|].
  unfold MAX_HISTORY_ENTRIES in H. injection H as <-. reflexivity.
Qed.

(** X1.  After a write that returns [True] the file holds a document whose
    history has between 1 and 101 entries and ends with the batch just
    built, whose [total_entries] is the length of that history, and whose
    [last_updated], [latest_match_count] and [ny_timestamp] are those of
    this call. *)
Theorem save_match_summaries_written_document :
  forall (timestamp ny : string) (summaries : list value) (file file' : file_state),
    save_match_summaries timestamp ny summaries file = Ok (true, file') ->
    exists (d grouped : dict),
      file' = Stored (VDict d) /\
      group_summaries summaries = Ok grouped /\
      (1 <= List.length (history_of file') <= 101)%nat /\
      last (history_of file') VNone = VDict (new_batch timestamp grouped) /\
      get d "total_entries" VNone = VInt (Z.of_nat (List.length (history_of file'))) /\
      get d "last_updated" VNone = VStr timestamp /\
      get d "latest_match_count" VNone = VInt (Z.of_nat (List.length grouped)) /\
      get d "ny_timestamp" VNone = VStr ny.
Proof.
  intros timestamp ny summaries file file' H.
  unfold save_match_summaries in H.
  destruct (group_summaries summaries) as [grouped|] eqn:Eg; cbn [bind] in H;
    [|discriminate H].
  fold (new_batch timestamp grouped) in H.
  destruct (updated_document ny (new_batch timestamp grouped) file) as [d|] eqn:Eu;
    [|discriminate H].
  injection H as <-.
  destruct (updated_document_inv _ _ _ _ Eu) as (data & entries & Hh & Hd).
  cbn zeta in Hd.
  exists d, grouped. split; [reflexivity|]. split; [reflexivity|].
  assert (Hhist : history_of (Stored (VDict d)) =
                  ((if 100 <=? Z.of_nat (List.length entries)
                    then last_n 100 entries else entries)
                     ++ [VDict (new_batch timestamp grouped)])%list).
  { unfold history_of. rewrite Hd.
    rewrite !get_set_other by discriminate. rewrite get_set_same. reflexivity. }
  rewrite Hhist. repeat split.
  - rewrite length_app. cbn [List.length]. lia.
  - rewrite length_app. cbn [List.length].
    destruct (Z.leb_spec 100 (Z.of_nat (List.length entries))).
    + rewrite last_n_length by lia. lia.
    + lia.
  - apply last_last.
  - rewrite Hd. rewrite !get_set_other by discriminate. apply get_set_same.
  - rewrite Hd. rewrite !get_set_other by discriminate. rewrite get_set_same.
    reflexivity.
  - rewrite Hd. rewrite !get_set_other by discriminate. rewrite get_set_same.
    reflexivity.
  - rewrite Hd. apply get_set_same.
Qed.

(** A second write on the document left by a first one. *)
Lemma save_match_summaries_written_document_witness :
  exists file1 file2,
    save_match_summaries "t1" "n1" [VDict [("match_id", VStr "a")]] NoFile
    = Ok (true, file1) /\
    save_match_summaries "t2" "n2" [VDict [("match_id", VStr "b")]] file1
    = Ok (true, file2) /\
    List.length (history_of file2) = 2%nat /\
    last (history_of file2) VNone
    = VDict (new_batch "t2" [("b", VDict [("match_id", VStr "b")])]).
Proof.
  eexists. eexists. split; [reflexivity|].
  match goal with
  | |- ?lhs = Ok (true, ?f2) /\ _ =>
      destruct lhs as [[flag f]|] eqn:E; vm_compute in E; [|discriminate E]
  end.
  injection E as <- <-. split; [reflexivity|].
  split; [reflexivity|].
  match goal with
  | |- last (history_of ?f) _ = _ =>
      destruct (save_match_summaries_written_document
                  "t2" "n2" [VDict [("match_id", VStr "b")]]
                  (Stored (VDict [("history",
                                   VList [VDict (new_batch "t1"
                                            [("a", VDict [("match_id", VStr "a")])])]);
                                  ("last_updated", VStr "t1");
                                  ("total_entries", VInt 1);
                                  ("latest_match_count", VInt 1);
                                  ("ny_timestamp", VStr "n1")]))
                  f eq_refl)
        as (d & grouped & _ & Hg & _ & Hlast & _)
  end.
  vm_compute in Hg. injection Hg as <-. exact Hlast.
Defined.

(** X2.  Once the summaries have been grouped, the flag returned by
    [save_match_summaries] says whether the prior content could be
    extended: it is [False] exactly for a file that cannot be read and for
    a stored [history] that counts as true without being a list, and then
    nothing is written. *)
Theorem save_match_summaries_flag :
  forall (timestamp ny : string) (summaries : list value) (grouped : dict)
         (file : file_state),
    group_summaries summaries = Ok grouped ->
    exists file',
      save_match_summaries timestamp ny summaries file
      = Ok (history_usable file, file') /\
      (history_usable file = false -> file' = file).
Proof.
  intros timestamp ny summaries grouped file Hg.
  unfold save_match_summaries. rewrite Hg. cbn [bind].
  unfold updated_document, history_usable.
  destruct file as [| |doc].
  - eexists. split; [reflexivity|discriminate].
  - eexists. split; [reflexivity|reflexivity].
  - destruct doc as [| | | | | |d];
      try (eexists; split; [reflexivity|discriminate]).
    destruct (get d "history" VNone) as [|b|n|q r|s|xs|kvs] eqn:Eh; cbn [truthy negb].
    + eexists. split; [reflexivity|discriminate].
    + destruct b; cbn [bind negb]; [rewrite Eh|];
        eexists; (split; [reflexivity|]); (reflexivity || discriminate).
    + destruct (n =? 0); cbn [bind negb]; [|rewrite Eh];
        eexists; (split; [reflexivity|]); (reflexivity || discriminate).
    + destruct (Qeq_bool q 0); cbn [bind negb]; [|rewrite Eh];
        eexists; (split; [reflexivity|]); (reflexivity || discriminate).
    + destruct (String.eqb s ""); cbn [bind negb]; [|rewrite Eh];
        eexists; (split; [reflexivity|]); (reflexivity || discriminate).
    + destruct xs; cbn [bind]; [|rewrite Eh];
        eexists; (split; [reflexivity|]); discriminate.
    + destruct kvs; cbn [bind negb]; [|rewrite Eh];
        eexists; (split; [reflexivity|]); (reflexivity || discriminate).
Qed.

(** A store whose history was overwritten by a text: the write is refused
    and the file stays as it is. *)
Lemma save_match_summaries_flag_witness :
  save_match_summaries "t" "n" [VDict [("match_id", VStr "a")]]
    (Stored (VDict [("history", VStr "lost")]))
  = Ok (false, Stored (VDict [("history", VStr "lost")])).
Proof.
  destruct (save_match_summaries_flag "t" "n" [VDict [("match_id", VStr "a")]]
              [("a", VDict [("match_id", VStr "a")])]
              (Stored (VDict [("history", VStr "lost")])) eq_refl)
    as (file' & H & Hsame).
  rewrite H. rewrite (Hsame eq_refl). reflexivity.
Defined.

(** X3.  A stored document that is not a dict with a usable history (any
    other JSON value, or a dict whose [history] is absent or counts as
    false) is kept whole as the first entry of a new history, followed by
    the new batch. *)
Theorem save_match_summaries_wraps_legacy :
  forall (timestamp ny : string) (summaries : list value) (grouped : dict)
         (doc : value),
    group_summaries summaries = Ok grouped ->
    (forall d, doc = VDict d -> truthy (get d "history" VNone) = false) ->
    exists file',
      save_match_summaries timestamp ny summaries (Stored doc) = Ok (true, file') /\
      history_of file' = [doc; VDict (new_batch timestamp grouped)].
Proof.
  intros timestamp ny summaries grouped doc Hg Hdoc.
  unfold save_match_summaries. rewrite Hg. cbn [bind].
  fold (new_batch timestamp grouped).
  assert (Hu : exists d',
             updated_document ny (new_batch timestamp grouped) (Stored doc) = Ok d' /\
             get d' "history" VNone
             = VList [doc; VDict (new_batch timestamp grouped)]).
  { unfold updated_document.
    destruct doc as [| | | | | |d]; try (eexists; split; reflexivity).
    rewrite (Hdoc d eq_refl). eexists. split; reflexivity. }
  destruct Hu as (d' & Hu & Hh). rewrite Hu.
  eexists. split; [reflexivity|]. unfold history_of. rewrite Hh. reflexivity.
Qed.

(** A legacy file that holds a bare list, and a store whose history is
    empty. *)
Lemma save_match_summaries_wraps_legacy_witness :
  (exists file',
      save_match_summaries "t" "n" [] (Stored (VList [VInt 1; VInt 2]))
      = Ok (true, file') /\
      history_of file' = [VList [VInt 1; VInt 2]; VDict (new_batch "t" [])]) /\
  (exists file',
      save_match_summaries "t" "n" [] (Stored (VDict [("history", VList [])]))
      = Ok (true, file') /\
      history_of file'
      = [VDict [("history", VList [])]; VDict (new_batch "t" [])]).
Proof.
  split.
  - apply (save_match_summaries_wraps_legacy "t" "n" [] [] (VList [VInt 1; VInt 2]));
      [reflexivity|discriminate].
  - apply (save_match_summaries_wraps_legacy "t" "n" [] []
             (VDict [("history", VList [])])); [reflexivity|].
    intros d [= <-]. reflexivity.
Defined.

(** ** History store: which summaries reach the batch *)

Lemma group_summaries_pairs (summaries : list value) :
  forall grouped : dict,
    Forall (fun s => exists d, s = VDict d) summaries ->
    foldM (fun (grouped : dict) s =>
             mid <- attr_get s "match_id" VNone ;;
             if truthy mid then Ok (dict_set grouped (py_str mid) s) else Ok grouped)
          summaries grouped
    = Ok (fold_left set_pair (summary_pairs summaries) grouped).
Proof.
  induction summaries as [|s summaries IH]; intros grouped Hd; [reflexivity|].
  inversion Hd as [|? ? [d ->] Hrest]; subst.
  cbn [foldM attr_get bind]. unfold summary_pairs. cbn [flat_map field].
  rewrite fold_left_app.
  destruct (truthy (get d "match_id" VNone)); cbn [fold_left]; apply IH; exact Hrest.
Qed.

Lemma group_summaries_raises (summaries : list value) :
  forall grouped : dict,
    Exists (fun s => forall d, s <> VDict d) summaries ->
    foldM (fun (grouped : dict) s =>
             mid <- attr_get s "match_id" VNone ;;
             if truthy mid then Ok (dict_set grouped (py_str mid) s) else Ok grouped)
          summaries grouped
    = Raise AttributeError.
Proof.
  induction summaries as [|s summaries IH]; intros grouped Hex;
    [inversion Hex|].
  cbn [foldM]. destruct s as [| | | | | |d]; try reflexivity.
  cbn [attr_get bind].
  inversion Hex as [? ? Hs|? ? Hrest]; subst.
  - exfalso. eapply Hs. reflexivity.
  - destruct (truthy (get d "match_id" VNone)); apply IH; exact Hrest.
Qed.

Lemma dict_set_length (d : dict) (k : string) (v : value) :
  (List.length (dict_set d k v) <= S (List.length d))%nat.
Proof.
  induction d as [|[k' v'] d IH]; cbn [dict_set List.length]; [lia|].
  destruct (String.eqb k' k); cbn [List.length]; lia.
Qed.

Lemma fold_set_pair_length (pairs : list (string * value)) :
  forall d : dict,
    (List.length (fold_left set_pair pairs d) <= List.length pairs + List.length d)%nat.
Proof.
  induction pairs as [|p pairs IH]; intros d; cbn [fold_left List.length]; [lia|].
  specialize (IH (set_pair d p)). unfold set_pair in *.
  pose proof (dict_set_length d (fst p) (snd p)). lia.
Qed.

Lemma fold_set_pair_keeps (pairs : list (string * value)) :
  forall (d : dict) (k : string),
    ~ In k (map fst pairs) ->
    dict_get (fold_left set_pair pairs d) k = dict_get d k.
Proof.
  induction pairs as [|[k0 v0] pairs IH]; intros d k Hnin; [reflexivity|].
  cbn [fold_left]. rewrite IH.
  - unfold set_pair. cbn [fst snd]. apply dict_get_set_other.
    intros ->. apply Hnin. now left.
  - intros Hin. apply Hnin. now right.
Qed.

Lemma summary_pairs_app (l1 l2 : list value) :
  summary_pairs (l1 ++ l2) = (summary_pairs l1 ++ summary_pairs l2)%list.
Proof. unfold summary_pairs. apply flat_map_app. Qed.

Lemma summary_pairs_length (summaries : list value) :
  (List.length (summary_pairs summaries) <= List.length summaries)%nat.
Proof.
  induction summaries as [|s summaries IH]; [apply le_n|].
  unfold summary_pairs in *. cbn [flat_map]. rewrite length_app.
  destruct (truthy (field s "match_id" VNone)); cbn [List.length]; lia.
Qed.

(** X4.  The batch keeps, under the text of its match id, every summary
    whose [match_id] counts as true and no other; of several summaries
    with the same id text the last one is kept; a summary that is not a
    dict makes [save_match_summaries] raise, whatever the file. *)
Theorem group_summaries_keeps_identified :
  forall summaries : list value,
    (Exists (fun s => forall d, s <> VDict d) summaries ->
     forall timestamp ny file,
       save_match_summaries timestamp ny summaries file = Raise AttributeError) /\
    (Forall (fun s => exists d, s = VDict d) summaries ->
     exists grouped,
       group_summaries summaries = Ok grouped /\
       (List.length grouped <= List.length summaries)%nat /\
       (forall k s, dict_get grouped k = Some s ->
                    In s summaries /\
                    truthy (field s "match_id" VNone) = true /\
                    py_str (field s "match_id" VNone) = k) /\
       (forall before s after,
           summaries = (before ++ s :: after)%list ->
           truthy (field s "match_id" VNone) = true ->
           Forall (fun s' => truthy (field s' "match_id" VNone) = true ->
                             py_str (field s' "match_id" VNone)
                             <> py_str (field s "match_id" VNone)) after ->
           dict_get grouped (py_str (field s "match_id" VNone)) = Some s)).
Proof.
  intros summaries. split.
  - intros Hex timestamp ny file. unfold save_match_summaries, group_summaries.
    rewrite (group_summaries_raises summaries [] Hex). reflexivity.
  - intros Hd. exists (fold_left set_pair (summary_pairs summaries) []).
    split; [apply (group_summaries_pairs summaries [] Hd)|].
    split; [|split].
    + pose proof (fold_set_pair_length (summary_pairs summaries) []) as H1.
      pose proof (summary_pairs_length summaries) as H2.
      cbn [List.length] in H1. lia.
    + intros k s Hget. apply dict_get_fold_set in Hget.
      destruct Hget as [Hin|Hnil]; [|discriminate Hnil].
      unfold summary_pairs in Hin. apply in_flat_map in Hin.
      destruct Hin as (s' & Hin & Hp).
      destruct (truthy (field s' "match_id" VNone)) eqn:Et; [|destruct Hp].
      destruct Hp as [[= <- <-]|[]]. auto.
    + intros before s after -> Ht Hafter.
      rewrite summary_pairs_app, fold_left_app.
      unfold summary_pairs at 1. cbn [flat_map]. rewrite Ht.
      cbn [app fold_left]. fold (summary_pairs after).
      rewrite fold_set_pair_keeps.
      * unfold set_pair. cbn [fst snd]. apply dict_get_set_same.
      * intros Hin. apply in_map_iff in Hin. destruct Hin as ([k v] & Hk & Hin).
        cbn [fst] in Hk. subst k.
        unfold summary_pairs in Hin. apply in_flat_map in Hin.
        destruct Hin as (s' & Hin & Hp).
        destruct (truthy (field s' "match_id" VNone)) eqn:Et; [|destruct Hp].
        destruct Hp as [[= Hk <-]|[]].
        rewrite Forall_forall in Hafter. exact (Hafter s' Hin Et Hk).
Qed.

(** Three summaries: two with the same id, one without an id. *)
Lemma group_summaries_keeps_identified_witness :
  exists grouped,
    group_summaries [VDict [("match_id", VStr "a"); ("round", VInt 1)];
                     VDict [("match_id", VNone)];
                     VDict [("match_id", VStr "a"); ("round", VInt 2)]]
    = Ok grouped /\
    dict_get grouped "a" = Some (VDict [("match_id", VStr "a"); ("round", VInt 2)]) /\
    List.length grouped = 1%nat.
Proof.
  destruct (group_summaries_keeps_identified
              [VDict [("match_id", VStr "a"); ("round", VInt 1)];
               VDict [("match_id", VNone)];
               VDict [("match_id", VStr "a"); ("round", VInt 2)]]) as [_ H].
  destruct H as (grouped & Hg & _ & _ & Hlast).
  - repeat constructor; eexists; reflexivity.
  - exists grouped. split; [exact Hg|]. split.
    + apply (Hlast [VDict [("match_id", VStr "a"); ("round", VInt 1)];
                    VDict [("match_id", VNone)]]
                   (VDict [("match_id", VStr "a"); ("round", VInt 2)]) []);
        [reflexivity|reflexivity|constructor].
    + vm_compute in Hg. injection Hg as <-. reflexivity.
Defined.

(** ** Event filter *)

Lemma extract_events_fold (evs : list value) :
  forall acc r : list event,
    foldM (fun (acc : list event) ev =>
             ty <- attr_get ev "type" VNone ;;
             if negb (hashable ty) then Raise TypeError
             else if py_in ty event_types then
               time <- attr_get ev "time" VNone ;;
               team <- attr_get ev "team" VNone ;;
               player <- attr_get ev "player" VNone ;;
               detail <- attr_get ev "detail" VNone ;;
               Ok (acc ++ [{| ev_type := ty; ev_time := time; ev_team := team;
                              ev_player := player; ev_detail := detail |}])%list
             else Ok acc)
          evs acc = Ok r ->
    r = (acc ++ map event_of (filter event_allowed evs))%list.
Proof.
  induction evs as [|ev evs IH]; intros acc r H.
  - injection H as <-. cbn. rewrite app_nil_r. reflexivity.
  - cbn [foldM] in H. destruct ev as [| | | | | |d]; try discriminate H.
    cbn [attr_get bind] in H.
    cbn [filter]. unfold event_allowed at 1. cbn [field].
    destruct (hashable (get d "type" VNone)); cbn [negb] in H; [|discriminate H].
    destruct (py_in (get d "type" VNone) event_types).
    + apply IH in H. rewrite H, <- app_assoc. reflexivity.
    + apply IH in H. exact H.
Qed.

(** X5.  When [extract_events] returns, its result is the events whose
    type is one of goal, yellowcard, redcard, penalty and substitution, in
    their order, each reduced to its five fields; no other event gets
    through. *)
Theorem extract_events_keeps_allowed :
  forall (match_ : dict) (evs : list event),
    extract_events match_ = Ok evs ->
    evs = map event_of (filter event_allowed (items (get match_ "events" (VList [])))) /\
    Forall (fun e => py_in (ev_type e) event_types = true) evs.
Proof.
  intros match_ evs H. unfold extract_events in H.
  destruct (py_iter (get match_ "events" (VList []))) as [l|] eqn:Ei;
    cbn [bind] in H; [|discriminate H].
  apply py_iter_items in Ei. apply extract_events_fold in H.
  cbn [app] in H. rewrite <- Ei.
  split; [exact H|].
  rewrite H. apply Forall_map. apply Forall_forall. intros ev Hin.
  apply filter_In in Hin. exact (proj2 Hin).
Qed.

(** A goal, a corner and a red card. *)
Lemma extract_events_keeps_allowed_witness :
  exists evs,
    extract_events
      [("events",
        VList [VDict [("type", VStr "goal"); ("time", VInt 12)];
               VDict [("type", VStr "corner"); ("time", VInt 30)];
               VDict [("type", VStr "redcard"); ("time", VInt 44)]])] = Ok evs /\
    map ev_time evs = [VInt 12; VInt 44].
Proof.
  eexists. split; [reflexivity|].
  match goal with
  | |- map ev_time ?evs = _ =>
      destruct (extract_events_keeps_allowed
                  [("events",
                    VList [VDict [("type", VStr "goal"); ("time", VInt 12)];
                           VDict [("type", VStr "corner"); ("time", VInt 30)];
                           VDict [("type", VStr "redcard"); ("time", VInt 44)]])]
                  evs eq_refl) as [-> _]
  end.
  reflexivity.
Defined.

(** ** Odds markets *)

Lemma odds_market_fields (raw_odds : value) (data data' : odds_data) (key : string) :
  odds_market raw_odds data key = Ok data' ->
  raw data' = raw data /\
  full_time_result data' =
    (if String.eqb key "eu"
     then match selected_entry raw_odds key with
          | Some entry => result_fields entry
          | None => full_time_result data
          end
     else full_time_result data) /\
  spread data' =
    (if negb (String.eqb key "eu") && String.eqb key "asia"
     then match selected_entry raw_odds key with
          | Some entry => spread_fields entry
          | None => spread data
          end
     else spread data) /\
  over_under data' =
    (if negb (String.eqb key "eu") && negb (String.eqb key "asia")
     then match selected_entry raw_odds key with
          | Some entry =>
              dict_set (over_under data) (py_str (nth 3 entry VNone))
                       (VDict (line_fields entry))
          | None => over_under data
          end
     else over_under data) /\
  primary_over_under data' =
    (if negb (String.eqb key "eu") && negb (String.eqb key "asia")
     then match selected_entry raw_odds key with
          | Some entry => Some (VDict (line_fields entry))
          | None => primary_over_under data
          end
     else primary_over_under data).
Proof.
  intros H. unfold odds_market in H. unfold selected_entry.
  destruct (attr_get raw_odds key (VList [])) as [entries|]; cbn [bind] in H;
    [|discriminate H].
  destruct (filter_by_time entries) as [selected|]; cbn [bind] in H;
    [|discriminate H].
  destruct selected as [|[| | | | | entry |] ?];
    try (injection H as <-;
         destruct (String.eqb key "eu"), (String.eqb key "asia"); repeat split).
  destruct (5 <=? Z.of_nat (List.length entry));
    [|injection H as <-;
      destruct (String.eqb key "eu"), (String.eqb key "asia"); repeat split].
  destruct (String.eqb key "eu"); [injection H as <-; repeat split|].
  destruct (String.eqb key "asia"); injection H as <-; repeat split.
Qed.

(** X6.  In the odds block each market comes from its own series alone:
    [full_time_result] from "eu", [spread] from "asia", [over_under] from
    "bs", each built from the first entry the time-window selector returns
    for that series and left empty when there is none or when that entry
    has fewer than five fields.  [over_under] never holds more than one
    line, and [primary_over_under] is that line. *)
Theorem extract_odds_markets :
  forall (match_ : dict) (data : odds_data),
    extract_odds match_ = Ok data ->
    let raw_odds := py_or (get match_ "odds" (VDict [])) (VDict []) in
    raw data = raw_odds /\
    full_time_result data =
      match selected_entry raw_odds "eu" with
      | Some entry => result_fields entry
      | None => []
      end /\
    spread data =
      match selected_entry raw_odds "asia" with
      | Some entry => spread_fields entry
      | None => []
      end /\
    over_under data =
      match selected_entry raw_odds "bs" with
      | Some entry => [(py_str (nth 3 entry VNone), VDict (line_fields entry))]
      | None => []
      end /\
    primary_over_under data =
      option_map (fun entry => VDict (line_fields entry))
                 (selected_entry raw_odds "bs") /\
    (List.length (over_under data) <= 1)%nat.
Proof.
  intros match_ data H raw_odds. unfold extract_odds in H. fold raw_odds in H.
  cbn [foldM] in H.
  match type of H with
  | context [odds_market raw_odds ?d0 "eu"] =>
      destruct (odds_market raw_odds d0 "eu") as [d1|] eqn:E1;
        [|discriminate H]
  end.
  destruct (odds_market raw_odds d1 "asia") as [d2|] eqn:E2; [|discriminate H].
  destruct (odds_market raw_odds d2 "bs") as [d3|] eqn:E3; [|discriminate H].
  cbn [bind] in H. bind_inv H. injection H as <-.
  cbn [raw full_time_result spread over_under primary_over_under].
  apply odds_market_fields in E1, E2, E3.
  cbn [String.eqb Ascii.eqb Bool.eqb negb andb] in E1, E2, E3.
  destruct E1 as (R1 & F1 & S1 & O1 & P1).
  destruct E2 as (R2 & F2 & S2 & O2 & P2).
  destruct E3 as (R3 & F3 & S3 & O3 & P3).
  cbn [raw full_time_result spread over_under primary_over_under] in *.
  rewrite R3, R2, R1, F3, F2, F1, S3, S2, S1, O3, O2, O1, P3, P2, P1.
  do 3 (split; [reflexivity|]).
  destruct (selected_entry raw_odds "bs");
    (split; [reflexivity|]); (split; [reflexivity|]);
    cbn [dict_set List.length]; lia.
Qed.

Lemma extract_odds_markets_witness :
  exists data,
    extract_odds odds_example = Ok data /\
    full_time_result data
    = [("home", VInt 5); ("draw", VInt 6); ("away", VInt 7);
       ("timestamp", VInt 20); ("match_time", VStr "4")] /\
    over_under data = [].
Proof.
  destruct (extract_odds odds_example) as [data|] eqn:E;
    [|vm_compute in E; discriminate E].
  exists data. split; [reflexivity|].
  destruct (extract_odds_markets odds_example data E) as (_ & F & _ & O & _).
  rewrite F, O. split; reflexivity.
Defined.

(** ** Merging the live stub with its detail record *)

Lemma dict_get_update (d2 : dict) :
  forall (d : dict) (k : string),
    NoDup (map fst d2) ->
    dict_get (dict_update d d2) k
    = match dict_get d2 k with
      | Some v => Some v
      | None => dict_get d k
      end.
Proof.
  unfold dict_update.
  induction d2 as [|[k0 v0] d2 IH]; intros d k Hnd; [reflexivity|].
  cbn [fold_left fst snd map] in *. inversion Hnd as [|? ? Hnotin Hnd']; subst.
  rewrite IH by exact Hnd'. cbn [dict_get].
  destruct (String.eqb_spec k0 k) as [->|Hne].
  - destruct (dict_get d2 k) as [v|] eqn:E.
    + exfalso. apply Hnotin. clear - E.
      induction d2 as [|[k1 v1] d2 IH]; [discriminate E|].
      cbn [dict_get] in E. cbn [map fst].
      destruct (String.eqb_spec k1 k) as [->|_]; [now left|right; auto].
    + apply dict_get_set_same.
  - destruct (dict_get d2 k); [reflexivity|].
    apply dict_get_set_other. exact Hne.
Qed.

Lemma get_update (d d2 : dict) (k : string) (dflt : value) :
  NoDup (map fst d2) ->
  get (dict_update d d2) k dflt = get d2 k (get d k dflt).
Proof.
  intros Hnd. unfold get. rewrite dict_get_update by exact Hnd.
  destruct (dict_get d2 k); reflexivity.
Qed.

(** The fields that the summarizer copies from the record it is given. *)
Lemma summary_copied_fields (now : string) (match_ : dict) (s : match_summary) :
  extract_summary_fields now match_ = Ok s ->
  match_id s = py_or (get match_ "match_id" VNone) (get match_ "id" VNone) /\
  status_id s = get match_ "status_id" VNone /\
  status_description s = get match_ "status" (VStr "") /\
  status_match_time s = get match_ "match_time" (VInt 0) /\
  round s = get match_ "round" (VDict []) /\
  venue s = get match_ "venue_id" VNone /\
  referee s = get match_ "referee_id" VNone /\
  coverage s = get match_ "coverage" (VDict []) /\
  start_time s = get match_ "scheduled" VNone /\
  extract_odds match_ = Ok (odds s).
Proof.
  intros H. unfold extract_summary_fields in H.
  destruct (get match_ "score" (VList [])) as [| | | | | xs |];
    try destruct (3 <? Z.of_nat (List.length xs));
    bind_inv H; injection H as <-; repeat split; reflexivity.
Qed.

(** A key that the merge does not compute keeps the value of the detail
    record, or of the live stub when the detail has none. *)
Lemma merged_record_other_keys (live detail odds_struct : dict) (odds_wrap : value)
    (countries : list (value * value)) (home_ away_ comp : value)
    (merged : dict) (k : string) (dflt : value) :
  NoDup (map fst detail) ->
  merged_record live detail odds_struct odds_wrap countries home_ away_ comp = Ok merged ->
  ~ In k ["odds"; "environment"; "events"; "home_team"; "home_logo"; "home_country";
          "away_team"; "away_logo"; "away_country"; "competition";
          "competition_logo"; "country"; "odds_raw"] ->
  get merged k dflt = get detail k (get live k dflt).
Proof.
  intros Hnd H Hk. unfold merged_record in H. bind_inv H. injection H as <-.
  cbn [fold_left fst snd].
  rewrite !get_set_other
    by (intros <-; apply Hk; cbn [In]; repeat ((left; reflexivity) || right)).
  apply get_update. exact Hnd.
Qed.


(** What [merge_and_summarize] goes through before it summarizes: the
    detail record found for the match, and the merged record. *)
Lemma merge_and_summarize_inv (now : string) (live : dict) (payload : value)
    (s : match_summary) :
  merge_and_summarize now (VDict live) payload = Ok s ->
  exists dm om detail odds_wrap odds_struct countries home_ away_ comp merged,
    attr_get payload "match_details" (VDict []) = Ok dm /\
    attr_get payload "match_odds" (VDict []) = Ok (VDict om) /\
    first_result dm (py_or (get live "id" VNone) (get live "match_id" VNone))
      = Ok (VDict detail) /\
    get_by om (py_or (get live "id" VNone) (get live "match_id" VNone)) (VDict [])
      = Ok odds_wrap /\
    odds_struct_of odds_wrap = Ok odds_struct /\
    merged_record live detail odds_struct odds_wrap countries home_ away_ comp
      = Ok merged /\
    extract_summary_fields now merged = Ok s.
Proof.
  intros H. unfold merge_and_summarize in H.
  bind_inv H.
  match goal with
  | E : first_result _ (py_or (get live "id" VNone) _) = Ok ?detail |- _ =>
      destruct detail as [| | | | | |detail]; try discriminate H
  end.
  bind_inv H.
  match goal with
  | E : match ?om with VDict _ => _ | _ => _ end = Ok _ |- _ =>
      destruct om as [| | | | | |om]; try discriminate E
  end.
  do 10 eexists. repeat split; eassumption.
Qed.

(** X7.  In the summary of a merged match the fields that the merge does
    not compute itself come from the detail record, and from the live stub
    only where the detail record has no such key: match id, status id,
    status text, match time, round, venue, referee, coverage and start
    time. *)
Theorem merge_prefers_detail :
  forall (now : string) (live : dict) (payload : value) (s : match_summary),
    merge_and_summarize now (VDict live) payload = Ok s ->
    NoDup (map fst (detail_record live payload)) ->
    let pick k dflt := get (detail_record live payload) k (get live k dflt) in
    match_id s = py_or (pick "match_id" VNone) (pick "id" VNone) /\
    status_id s = pick "status_id" VNone /\
    status_description s = pick "status" (VStr "") /\
    status_match_time s = pick "match_time" (VInt 0) /\
    round s = pick "round" (VDict []) /\
    venue s = pick "venue_id" VNone /\
    referee s = pick "referee_id" VNone /\
    coverage s = pick "coverage" (VDict []) /\
    start_time s = pick "scheduled" VNone.
Proof.
  intros now live payload s H Hnd pick.
  destruct (merge_and_summarize_inv now live payload s H)
    as (dm & om & detail & ow & os & cs & h & a & c & merged
        & Hdm & _ & Hdetail & _ & _ & Hmerged & Hs).
  assert (Hrec : detail_record live payload = detail).
  { unfold detail_record, lookup_id.
    destruct payload; try discriminate Hdm. cbn [field].
    cbn [attr_get] in Hdm. injection Hdm as <-. rewrite Hdetail. reflexivity. }
  subst pick. cbn beta. rewrite Hrec in *.
  destruct (summary_copied_fields now merged s Hs)
    as (-> & -> & -> & -> & -> & -> & -> & -> & -> & _).
  rewrite !(merged_record_other_keys _ _ _ _ _ _ _ _ _ _ _ Hnd Hmerged)
    by (cbn [In]; intros Hin;
        repeat (destruct Hin as [Hin|Hin]; [discriminate Hin|]); exact Hin).
  repeat split; reflexivity.
Qed.

(** The stub says status 2, the detail says status 4, only the stub has a
    venue. *)
Lemma merge_prefers_detail_witness :
  exists s,
    merge_and_summarize "now" (VDict merge_example_live) merge_example_payload = Ok s /\
    status_id s = VInt 4 /\ venue s = VStr "v1".
Proof.
  destruct (merge_and_summarize "now" (VDict merge_example_live) merge_example_payload)
    as [s|] eqn:E; [|vm_compute in E; discriminate E].
  exists s. split; [reflexivity|].
  destruct (merge_prefers_detail "now" merge_example_live merge_example_payload s E)
    as (_ & Hst & _ & _ & _ & Hv & _).
  - vm_compute. repeat constructor; cbn [In]; intuition discriminate.
  - rewrite Hst, Hv. split; reflexivity.
Defined.




(** ** Country labels *)

Lemma scan_indicators_in_table (table : list (string * list string)) (text c : string) :
  scan_indicators table text = Some c -> In c (map fst table).
Proof.
  induction table as [|[c0 inds] table IH]; [discriminate|].
  cbn [scan_indicators map fst].
  destruct (existsb (fun indicator => contains indicator text) inds).
  - intros [= <-]. now left.
  - intros H. right. apply IH. exact H.
Qed.

Lemma matched_countries_in_table (table : list (string * list string)) (team c : string) :
  In c (matched_countries table team) -> In c (map fst table).
Proof.
  unfold matched_countries. intros H. apply in_flat_map in H.
  destruct H as ([c0 inds] & Hin & H). apply in_flat_map in H.
  destruct H as (ind & _ & H). cbn [fst snd] in H.
  destruct (contains ind team); [|destruct H].
  destruct H as [<-|[]]. apply in_map_iff. exists (c0, inds). split; [reflexivity|exact Hin].
Qed.

Lemma title_of_table_country (c : string) :
  In c (map fst country_indicators) ->
  In (title c) country_labels /\ title c <> "International".
Proof.
  cbn [country_indicators map fst In]. intros H.
  repeat (destruct H as [<-|H];
          [split; [vm_compute; tauto|vm_compute; discriminate]|]).
  destruct H.
Qed.

Lemma infer_country_range (home_team away_team competition_ : string) :
  In (infer_country home_team away_team competition_) country_labels /\
  (infer_country home_team away_team competition_ = "International" ->
   contains "international" competition_ = true /\
   contains "friendly" competition_ = true /\
   exists x y, hd_error (matched_countries country_indicators home_team) = Some x /\
               hd_error (matched_countries country_indicators away_team) = Some y /\
               x <> y).
Proof.
  assert (Hgen :
            let g := match scan_indicators country_indicators
                             (home_team ++ " " ++ away_team) with
                     | Some c => title c
                     | None => "Unknown"
                     end in
            In g country_labels /\ g <> "International").
  { destruct (scan_indicators country_indicators (home_team ++ " " ++ away_team))
      as [c|] eqn:E; cbn zeta.
    - apply title_of_table_country. eapply scan_indicators_in_table. exact E.
    - split; [right; left; reflexivity|discriminate]. }
  cbn zeta in Hgen. destruct Hgen as [Hg1 Hg2].
  unfold infer_country.
  destruct (contains "international" competition_ && contains "friendly" competition_)
    eqn:Ec; [|split; [exact Hg1|intros H; contradiction]].
  apply andb_true_iff in Ec.
  destruct (matched_countries country_indicators home_team) as [|x xs] eqn:Eh;
    destruct (matched_countries country_indicators away_team) as [|y ys] eqn:Ea.
  - split; [exact Hg1|intros H; contradiction].
  - assert (Hy : In y (map fst country_indicators))
      by (apply (matched_countries_in_table _ away_team); rewrite Ea; now left).
    destruct (title_of_table_country y Hy) as [H1 H2].
    split; [exact H1|intros H; contradiction].
  - assert (Hx : In x (map fst country_indicators))
      by (apply (matched_countries_in_table _ home_team); rewrite Eh; now left).
    destruct (title_of_table_country x Hx) as [H1 H2].
    split; [exact H1|intros H; contradiction].
  - assert (Hx : In x (map fst country_indicators))
      by (apply (matched_countries_in_table _ home_team); rewrite Eh; now left).
    destruct (title_of_table_country x Hx) as [H1 H2].
    destruct (String.eqb_spec x y) as [->|Hne].
    + split; [exact H1|intros H; contradiction].
    + split; [left; reflexivity|]. intros _.
      split; [apply Ec|]. split; [apply Ec|].
      exists x, y. repeat split. exact Hne.
Qed.

(** X9.  Whatever the match holds, the inferred country is one of
    twenty-one labels: "International", "Unknown", or the title-cased name
    of a country of the indicator table (so "Usa" for the United States).
    "International" is returned only for a competition whose lower-cased
    name contains both "international" and "friendly", and only when the
    two teams match different countries. *)
Theorem infer_country_from_teams_labels :
  forall (match_data : value) (r : string),
    infer_country_from_teams match_data = Ok r ->
    In r country_labels /\
    (r = "International" ->
     exists h a c x y,
       field match_data "home_team" (VStr "") = VStr h /\
       field match_data "away_team" (VStr "") = VStr a /\
       field match_data "competition" (VStr "") = VStr c /\
       contains "international" (lower c) = true /\
       contains "friendly" (lower c) = true /\
       first_country (lower h) = Some x /\
       first_country (lower a) = Some y /\
       x <> y).
Proof.
  intros match_data r H. unfold infer_country_from_teams in H.
  destruct match_data as [| | | | | |d]; try discriminate H.
  cbn [attr_get bind field] in *.
  destruct (get d "home_team" (VStr "")) as [| | | |h| |]; try discriminate H.
  destruct (get d "away_team" (VStr "")) as [| | | |a| |]; try discriminate H.
  destruct (get d "competition" (VStr "")) as [| | | |c| |]; try discriminate H.
  cbn [py_lower bind] in H. injection H as <-.
  destruct (infer_country_range (lower h) (lower a) (lower c)) as [H1 H2].
  split; [exact H1|]. intros Hi.
  destruct (H2 Hi) as (Hc1 & Hc2 & x & y & Hx & Hy & Hne).
  exists h, a, c, x, y. repeat split; try assumption.
  - unfold first_country. rewrite <- matched_countries_head. exact Hx.
  - unfold first_country. rewrite <- matched_countries_head. exact Hy.
Qed.

Lemma infer_country_from_teams_labels_witness :
  infer_country_from_teams (VDict country_example) = Ok "South Korea" /\
  In "South Korea" country_labels.
Proof.
  split; [reflexivity|].
  apply (infer_country_from_teams_labels (VDict country_example) "South Korea").
  reflexivity.
Defined.

(** X10.  The country of a match in the grouper: a country that is
    missing comes out as "Unknown", and so does one that is [None], empty
    or otherwise false; no inference is made for these.  The inference
    from the team names runs only for the text "None"; any other country
    is kept as it is. *)
Theorem match_country_cases :
  forall (match_data : dict) (c : value),
    get match_data "country" (VStr "Unknown") = c ->
    (truthy c = false -> match_country (VDict match_data) = Ok (VStr "Unknown")) /\
    (c = VStr "None" ->
     match_country (VDict match_data)
     = (s <- infer_country_from_teams (VDict match_data) ;; Ok (VStr s))) /\
    (truthy c = true -> c <> VStr "None" -> match_country (VDict match_data) = Ok c).
Proof.
  intros match_data c Hc. unfold match_country. cbn [attr_get bind]. rewrite Hc.
  repeat split.
  - intros Ht. unfold py_or. rewrite Ht. reflexivity.
  - intros ->. reflexivity.
  - intros Ht Hne. unfold py_or. rewrite Ht.
    assert (Hin : py_in c [VNone; VStr "None"] = false).
    { unfold py_in. cbn [existsb].
      destruct c as [| | | |t| |]; try reflexivity; try discriminate Ht.
      cbn [py_eq]. destruct (String.eqb_spec "None" t) as [<-|_]; [|reflexivity].
      exfalso. apply Hne. reflexivity. }
    rewrite Hin. reflexivity.
Qed.

(** A match whose country is [None] is filed under "Unknown" although its
    team names a Korean city; with the text "None" the inference runs. *)
Lemma match_country_cases_witness :
  match_country (VDict [("home_team", VStr "FC Seoul"); ("country", VNone)])
  = Ok (VStr "Unknown") /\
  match_country (VDict country_example) = Ok (VStr "South Korea").
Proof.
  split.
  - apply (match_country_cases [("home_team", VStr "FC Seoul"); ("country", VNone)]
             VNone eq_refl). reflexivity.
  - destruct (match_country_cases country_example (VStr "None") eq_refl)
      as (_ & H & _).
    rewrite (H eq_refl). reflexivity.
Defined.

(** ** The two wind classifications *)

Lemma digit_char_facts (c : ascii) :
  is_digit c = true ->
  is_measure_char c = true /\ lower_char c = c /\ c <> "m"%char.
Proof.
  destruct c as [[] [] [] [] [] [] [] []]; vm_compute; intros H;
    try discriminate H; repeat split; discriminate.
Qed.

Lemma span_numeric_text (s : string) :
  all_digits (remove_char "."%char s) = true ->
  span is_measure_char s = (s, EmptyString).
Proof.
  induction s as [|c s IH]; [reflexivity|].
  cbn [remove_char span]. destruct (Ascii.eqb_spec c "."%char) as [->|Hne].
  - intros H. cbn [is_measure_char is_digit]. rewrite (IH H). reflexivity.
  - cbn [all_digits]. intros H. apply andb_true_iff in H. destruct H as [Hc H].
    destruct (digit_char_facts c Hc) as (-> & _). rewrite (IH H). reflexivity.
Qed.

Lemma numeric_text_no_unit (s : string) :
  all_digits (remove_char "."%char s) = true ->
  contains "m/s" (lower s) = false.
Proof.
  induction s as [|c s IH]; [reflexivity|].
  cbn [remove_char lower contains]. destruct (Ascii.eqb_spec c "."%char) as [->|Hne].
  - intros H. rewrite (IH H). reflexivity.
  - cbn [all_digits]. intros H. apply andb_true_iff in H. destruct H as [Hc H].
    destruct (digit_char_facts c Hc) as (_ & -> & Hm). rewrite (IH H).
    cbn [String.prefix]. destruct (ascii_dec "m" c) as [<-|_]; [contradiction|].
    reflexivity.
Qed.

Lemma wind_label_zero (q : Q) :
  wind_label wind_descs (if Qeq_bool q 0 then 0%Q else q) = wind_label wind_descs q.
Proof.
  destruct (Qeq_bool q 0) eqn:E; [|reflexivity].
  apply Qeq_bool_iff in E.
  assert (H : Qlt_bool q 1 = true) by (apply Qlt_bool_true; rewrite E; reflexivity).
  unfold wind_descs. cbn [wind_label]. rewrite H. reflexivity.
Qed.

(** X11.  For a wind reading that is text made of digits and dots the two
    environment interpreters agree: whenever both return, the wind
    category of [process_environment_like_step2] is the one of
    [extract_environment], computed from the same number. *)
Theorem wind_descriptions_agree :
  forall (match_ env : dict) (s : string) (e : env_parsed) (d : env_display),
    get match_ "environment" (VDict []) = VDict env ->
    get env "wind" VNone = VStr s ->
    isdigit (remove_char "."%char s) = true ->
    extract_environment match_ = Ok e ->
    process_environment_like_step2 (VDict env) = Ok d ->
    exists q,
      py_float s = Ok q /\
      m_value (wind e) = Some q /\
      d_wind d = WindMph q (wind_description e) /\
      d_wind_description d = Some (wind_description e).
Proof.
  intros match_ env s e d Henv Hwind Hnum He Hd.
  unfold isdigit in Hnum. apply andb_true_iff in Hnum. destruct Hnum as [Hne Hall].
  assert (Hs : String.eqb s "" = false).
  { destruct s; [discriminate Hne|reflexivity]. }
  assert (Hparse : parse_measure (VStr s)
                   = (num <- py_float s ;; Ok (Some num, Some EmptyString))).
  { unfold parse_measure. cbn [py_str]. rewrite (span_numeric_text s Hall), Hs.
    reflexivity. }
  assert (Hwind' : get env "wind" (VStr "") = VStr s).
  { unfold get in *. destruct (dict_get env "wind"); [exact Hwind|discriminate Hwind]. }
  unfold extract_environment in He. rewrite Henv in He.
  assert (Hor : py_or (VDict env) (VDict []) = VDict env).
  { destruct env; [discriminate Hwind|reflexivity]. }
  rewrite Hor in He. unfold env_measure in He. cbn [attr_get bind] in He.
  rewrite Hwind, Hwind' in He. rewrite Hparse in He.
  unfold process_environment_like_step2 in Hd. cbn [attr_get bind] in Hd.
  rewrite Hwind in Hd. cbn [py_str truthy py_float_of bind] in Hd.
  rewrite Hs in Hd. unfold isdigit in Hd. rewrite Hne, Hall in Hd. cbn [negb andb] in Hd.
  destruct (py_float s) as [q|] eqn:Eq.
  - exists q. split; [reflexivity|].
    cbn [bind] in He, Hd. bind_inv He. bind_inv Hd.
    injection He as <-. injection Hd as <-.
    cbn [wind m_value wind_description d_wind d_wind_description fst snd py_str].
    rewrite (numeric_text_no_unit s Hall).
    pose proof (wind_label_zero q) as Hl.
    unfold wind_descs in *. cbn [wind_label] in *. rewrite Hl.
    repeat split; reflexivity.
  - exfalso. cbn [bind] in He. bind_inv He. discriminate He.
Qed.

(** A wind of "12.5": both interpreters say "Gentle Breeze". *)
Lemma wind_descriptions_agree_witness :
  exists e d,
    extract_environment wind_example = Ok e /\
    process_environment_like_step2
      (VDict [("weather", VStr "3"); ("wind", VStr "12.5")]) = Ok d /\
    wind_description e = "Gentle Breeze" /\
    d_wind_description d = Some "Gentle Breeze".
Proof.
  destruct (extract_environment wind_example) as [e|] eqn:He;
    [|vm_compute in He; discriminate He].
  destruct (process_environment_like_step2
              (VDict [("weather", VStr "3"); ("wind", VStr "12.5")]))
    as [d|] eqn:Hd; [|vm_compute in Hd; discriminate Hd].
  exists e, d. split; [reflexivity|]. split; [reflexivity|].
  destruct (wind_descriptions_agree wind_example
              [("weather", VStr "3"); ("wind", VStr "12.5")] "12.5" e d
              eq_refl eq_refl eq_refl He Hd) as (q & _ & _ & _ & Hw).
  rewrite Hw. vm_compute in He. injection He as <-. split; reflexivity.
Defined.

(** ** Minute markers *)


Lemma span_digits_all (s : string) :
  all_digits (fst (span is_digit s)) = true.
Proof.
  induction s as [|c s IH]; [reflexivity|].
  cbn [span]. destruct (is_digit c) eqn:E; [|reflexivity].
  destruct (span is_digit s) as [a b]. cbn [fst all_digits] in *.
  rewrite E, IH. reflexivity.
Qed.


Lemma digit_val_range (c : ascii) : is_digit c = true -> 0 <= digit_val c <= 9.
Proof.
  unfold is_digit, digit_val. intros H. apply andb_true_iff in H.
  destruct H as [H1 H2]. apply N.leb_le in H1. apply N.leb_le in H2. lia.
Qed.

Lemma int_of_digits_from_lower (s : string) :
  forall acc, all_digits s = true -> 0 <= acc -> acc <= int_of_digits_from acc s.
Proof.
  induction s as [|c s IH]; intros acc Hd Hacc; cbn [int_of_digits_from]; [lia|].
  cbn [all_digits] in Hd. apply andb_true_iff in Hd. destruct Hd as [Hc Hd].
  pose proof (digit_val_range c Hc).
  specialize (IH (10 * acc + digit_val c) Hd). lia.
Qed.

Lemma safe_minute_nonneg (v : value) (m : Z) : _safe_minute v = Some m -> 0 <= m.
Proof.
  unfold _safe_minute. intros H.
  assert (Hgen : forall s,
             (let (digits, _) := span is_digit s in
              if String.eqb digits "" then None else Some (int_of_digits digits))
             = Some m -> 0 <= m).
  { intros s Hs. pose proof (span_digits_all s) as Hall.
    destruct (span is_digit s) as [digits rest]. cbn [fst] in Hall.
    destruct (String.eqb digits ""); [discriminate Hs|].
    injection Hs as <-. apply (int_of_digits_from_lower digits 0 Hall). lia. }
  destruct v; try discriminate H; exact (Hgen _ H).
Qed.








Lemma parsed_entries_in (entries : list value) (m : Z) (e : value) :
  In (m, e) (parsed_entries entries) -> In e entries /\ minute_of e = Some m.
Proof.
  unfold parsed_entries. intros H. apply in_flat_map in H.
  destruct H as (ent & Hin & H).
  destruct (minute_of ent) as [m'|] eqn:E; [|destruct H].
  destruct H as [[= <- <-]|[]]. split; [exact Hin|exact E].
Qed.

Lemma minute_of_nonneg (e : value) (m : Z) : minute_of e = Some m -> 0 <= m.
Proof.
  unfold minute_of. destruct e as [| | | | |[|a [|marker xs]]|]; try discriminate.
  apply safe_minute_nonneg.
Qed.

(** X13.  Whatever the selector is given, every entry it returns is one
    of the given entries and has a minute from 0 to 9: a snapshot taken at
    minute 10 or later is never used. *)
Theorem filter_by_time_returns_early_entries :
  forall (entries : value) (out : list value),
    filter_by_time entries = Ok out ->
    Forall (fun e => In e (items entries) /\
                     exists m, minute_of e = Some m /\ 0 <= m < 10) out.
Proof.
  intros entries out H. unfold filter_by_time in H.
  destruct (py_iter entries) as [ents|] eqn:Eit; cbn [bind] in H; [|discriminate H].
  rewrite (py_iter_items _ _ Eit) in H. rewrite minute_points_parsed in H.
  set (pts := parsed_entries (items entries)) in *.
  assert (Hpts : forall m e, In (m, e) pts ->
                             In e (items entries) /\ minute_of e = Some m /\ 0 <= m).
  { intros m e Hin. destruct (parsed_entries_in _ _ _ Hin) as [H1 H2].
    split; [exact H1|]. split; [exact H2|]. eapply minute_of_nonneg. exact H2. }
  destruct (in_window_of pts) as [|w ws] eqn:Ew.
  - destruct (under_ten_of pts) as [|t rest] eqn:Eu; injection H as <-;
      [constructor|].
    constructor; [|constructor].
    destruct (min_by_first_least dist_4_5 t rest) as (pre & post & Heq & _).
    assert (Hin : In (min_by dist_4_5 t rest) (under_ten_of pts)).
    { rewrite Eu, Heq. apply in_elt. }
    unfold under_ten_of in Hin. apply filter_In in Hin. destruct Hin as [Hin Hlt].
    apply Z.ltb_lt in Hlt.
    destruct (min_by dist_4_5 t rest) as [m e]. cbn [fst snd] in *.
    destruct (Hpts m e Hin) as (H1 & H2 & H3).
    split; [exact H1|]. exists m. split; [exact H2|lia].
  - injection H as <-. rewrite <- Ew. unfold in_window_of.
    apply Forall_forall. intros e He. apply in_map_iff in He.
    destruct He as ([m e'] & <- & Hin). apply filter_In in Hin.
    destruct Hin as [Hin Hw]. cbn [fst snd] in *.
    apply andb_true_iff in Hw. destruct Hw as [H3 H6].
    apply Z.leb_le in H3. apply Z.leb_le in H6.
    destruct (Hpts m e' Hin) as (H1 & H2 & _).
    split; [exact H1|]. exists m. split; [exact H2|lia].
Qed.

(** With snapshots at minutes 12, 8 and 1 none lies in the window;
    minutes 8 and 1 are equally far from 4.5, and the one listed first,
    minute 8, is returned. *)
Lemma filter_by_time_returns_early_entries_witness :
  exists out,
    filter_by_time selector_example = Ok out /\
    Forall (fun e => exists m, minute_of e = Some m /\ 0 <= m < 10) out /\
    out = [VList [VInt 20; VStr "8"; VInt 5; VInt 6; VInt 7]].
Proof.
  destruct (filter_by_time selector_example) as [out|] eqn:E;
    [|vm_compute in E; discriminate E].
  exists out. split; [reflexivity|]. split.
  - eapply Forall_impl;
      [|exact (filter_by_time_returns_early_entries selector_example out E)].
    intros e [_ H]. exact H.
  - vm_compute in E. injection E as <-. reflexivity.
Defined.

(** ** The grouper keeps every match *)

Lemma kv_set_found {A : Type} (m : list (value * A)) (k : value) (a : A) :
  kv_find m k = Some a ->
  exists m1 k' m2,
    m = (m1 ++ (k', a) :: m2)%list /\ py_eq k' k = true /\
    forall b, kv_set m k b = (m1 ++ (k', b) :: m2)%list.
Proof.
  induction m as [|[k0 x] m IH]; cbn [kv_find kv_set]; [discriminate|].
  destruct (py_eq k0 k) eqn:E.
  - intros [= ->]. exists [], k0, m. repeat split. exact E.
  - intros H. destruct (IH H) as (m1 & k' & m2 & -> & Hk & Hset).
    exists ((k0, x) :: m1), k', m2. split; [reflexivity|]. split; [exact Hk|].
    intros b. rewrite Hset. reflexivity.
Qed.

Lemma kv_set_fresh {A : Type} (m : list (value * A)) (k : value) :
  kv_find m k = None -> forall b, kv_set m k b = (m ++ [(k, b)])%list.
Proof.
  induction m as [|[k0 x] m IH]; cbn [kv_find kv_set]; [reflexivity|].
  destruct (py_eq k0 k); [discriminate|].
  intros H b. rewrite (IH H). reflexivity.
Qed.

Lemma py_eq_refl_hashable (v : value) : hashable v = true -> py_eq v v = true.
Proof.
  destruct v; cbn [hashable py_eq num_of]; intros H; try discriminate H;
    try reflexivity; try apply Qeq_bool_refl.
  apply String.eqb_refl.
Qed.

Section SortedPermutation.
Context {A : Type} (lt : A -> A -> result bool).

Lemma insert_sorted_perm (x : A) (l r : list A) :
  insert_sorted lt x l = Ok r -> Permutation r (x :: l).
Proof.
  revert r. induction l as [|y l IH]; intros r; cbn [insert_sorted].
  - intros [= <-]. reflexivity.
  - destruct (lt y x) as [[|]|]; try discriminate.
    + destruct (insert_sorted lt x l) as [r'|]; [|discriminate].
      intros [= <-]. rewrite (IH r' eq_refl). apply perm_swap.
    + intros [= <-]. reflexivity.
Qed.

Lemma py_sorted_perm (l r : list A) : py_sorted lt l = Ok r -> Permutation r l.
Proof.
  revert r. induction l as [|x l IH]; intros r; cbn [py_sorted].
  - intros [= <-]. reflexivity.
  - destruct (py_sorted lt l) as [r'|]; [|discriminate].
    intros H. apply insert_sorted_perm in H. rewrite H, (IH r' eq_refl). reflexivity.
Qed.

End SortedPermutation.

Lemma mapM_keyed_snd {A : Type} (key : A -> result value) (l : list A) :
  forall keyed, mapM (fun x => k <- key x ;; Ok (k, x)) l = Ok keyed -> map snd keyed = l.
Proof.
  induction l as [|x l IH]; intros keyed H.
  - injection H as <-. reflexivity.
  - apply mapM_cons_inv in H. destruct H as (y & ys & Hy & Hys & ->).
    destruct (key x); [|discriminate Hy]. injection Hy as <-.
    cbn [map snd]. rewrite (IH ys Hys). reflexivity.
Qed.

Lemma sort_by_key_perm {A : Type} (key : A -> result value) (l r : list A) :
  sort_by_key key l = Ok r -> Permutation r l.
Proof.
  unfold sort_by_key. intros H. bind_inv H. injection H as <-.
  match goal with
  | E1 : mapM _ l = Ok ?keyed, E2 : py_sorted _ ?keyed = Ok ?sorted |- _ =>
      rewrite <- (mapM_keyed_snd key l keyed E1);
      apply Permutation_map; exact (py_sorted_perm _ _ _ E2)
  end.
Qed.

Lemma add_to_group_keeps (groups groups' : list (value * comp_group)) (it : item) :
  add_to_group groups it = Ok groups' ->
  Permutation (group_items groups') (group_items groups ++ [it]) /\
  (Forall (fun g => Forall (filed_under (fst g)) (group_matches (snd g))) groups ->
   Forall (fun g => Forall (filed_under (fst g)) (group_matches (snd g))) groups').
Proof.
  unfold add_to_group. intros H. bind_inv H.
  match goal with
  | E : kv_get groups ?comp = Ok ?found |- _ =>
      unfold kv_get in E; destruct (hashable comp) eqn:Hh; [|discriminate E];
      injection E as E
  end.
  match goal with
  | E : attr_get (snd it) "competition" _ = Ok ?comp |- _ =>
      rename E into Hcomp; rename comp into c
  end.
  destruct (kv_find groups c) as [g|] eqn:Ef; subst.
  - destruct (kv_set_found groups c g Ef) as (m1 & k' & m2 & -> & Hk & Hset).
    injection H as <-. rewrite Hset. split.
    + unfold group_items. rewrite !flat_map_app. cbn [flat_map snd group_matches].
      rewrite <- !app_assoc. do 2 apply Permutation_app_head.
      cbn [app]. apply Permutation_cons_append.
    + intros Hall. apply Forall_app in Hall. destruct Hall as [H1 H2].
      inversion H2 as [|? ? Hg H2']; subst. apply Forall_app. split; [exact H1|].
      constructor; [|exact H2']. cbn [fst snd group_matches] in *.
      apply Forall_app. split; [exact Hg|]. constructor; [|constructor].
      exists c. split; [exact Hcomp|exact Hk].
  - injection H as <-. rewrite (kv_set_fresh groups c Ef). split.
    + unfold group_items. rewrite flat_map_app. cbn [flat_map snd group_matches].
      rewrite app_nil_r. reflexivity.
    + intros Hall. apply Forall_app. split; [exact Hall|].
      constructor; [|constructor]. cbn [fst snd group_matches].
      constructor; [|constructor]. exists c. split; [exact Hcomp|].
      apply py_eq_refl_hashable. exact Hh.
Qed.

Lemma group_loop_keeps (items : list item) :
  forall groups groups',
    foldM add_to_group items groups = Ok groups' ->
    Permutation (group_items groups') (group_items groups ++ items) /\
    (Forall (fun g => Forall (filed_under (fst g)) (group_matches (snd g))) groups ->
     Forall (fun g => Forall (filed_under (fst g)) (group_matches (snd g))) groups').
Proof.
  induction items as [|it items IH]; intros groups groups' H; cbn [foldM] in H.
  - injection H as <-. rewrite app_nil_r. split; [reflexivity|auto].
  - destruct (add_to_group groups it) as [g1|] eqn:E; [|discriminate H].
    destruct (add_to_group_keeps _ _ _ E) as [P1 F1].
    destruct (IH g1 groups' H) as [P2 F2]. split; [|auto].
    rewrite P2, P1, <- app_assoc. reflexivity.
Qed.

Lemma sort_groups_keeps (groups : list (value * comp_group)) :
  forall sorted,
    mapM (fun cg : value * comp_group =>
            ms <- sort_by_key match_sort_key (group_matches (snd cg)) ;;
            Ok (fst cg, {| group_country := group_country (snd cg);
                           group_matches := ms |})) groups = Ok sorted ->
    Permutation (group_items sorted) (group_items groups) /\
    (Forall (fun g => Forall (filed_under (fst g)) (group_matches (snd g))) groups ->
     Forall (fun g => Forall (filed_under (fst g)) (group_matches (snd g))) sorted).
Proof.
  induction groups as [|g groups IH]; intros sorted H.
  - injection H as <-. split; [reflexivity|auto].
  - apply mapM_cons_inv in H. destruct H as (y & ys & Hy & Hys & ->).
    destruct (sort_by_key match_sort_key (group_matches (snd g))) as [ms|] eqn:E;
      [|discriminate Hy].
    injection Hy as <-. apply sort_by_key_perm in E.
    destruct (IH ys Hys) as [P F]. split.
    + unfold group_items in *. cbn [flat_map snd group_matches].
      apply Permutation_app; assumption.
    + intros Hall. inversion Hall as [|? ? Hg Hall']; subst.
      constructor; [|auto]. cbn [fst snd group_matches].
      eapply Permutation_Forall; [symmetry; exact E|exact Hg].
Qed.

(** X14.  Whatever the matches hold, when the grouper returns it has
    neither dropped nor duplicated any of them: the items of its groups,
    taken together, are the given items in another order.  Every item is
    in the group whose key equals its competition. *)
Theorem grouper_keeps_every_match :
  forall (items : list item) (out : list (value * list item)),
    sort_matches_by_competition_and_time (VDict items) = Ok out ->
    Permutation (List.concat (map snd out)) items /\
    Forall (fun g => Forall (filed_under (fst g)) (snd g)) out.
Proof.
  intros items out H. unfold sort_matches_by_competition_and_time in H.
  destruct (sorted_comps (VDict items)) as [groups|] eqn:Es; [|discriminate H].
  cbn [bind] in H. injection H as <-.
  unfold sorted_comps in Es. bind_inv Es.
  match goal with
  | E1 : foldM add_to_group items [] = Ok ?G, E2 : mapM _ ?G = Ok ?S |- _ =>
      destruct (group_loop_keeps items [] G E1) as [P1 F1];
      destruct (sort_groups_keeps G S E2) as [P2 F2];
      pose proof (sort_by_key_perm _ _ _ Es) as P3
  end.
  cbn [group_items flat_map app] in P1. split.
  - rewrite map_map. cbn [snd]. rewrite <- flat_map_concat_map.
    fold (group_items groups). rewrite <- P1, <- P2.
    unfold group_items. apply Permutation_flat_map. exact P3.
  - apply Forall_map. cbn [fst snd].
    eapply Permutation_Forall; [symmetry; exact P3|].
    apply F2, F1. constructor.
Qed.

(** Four untidy matches: all four come back, the two whose competition is
    7 and the one whose competition is 7.0 in one group. *)
Lemma grouper_keeps_every_match_witness :
  exists out,
    sort_matches_by_competition_and_time (VDict untidy_example) = Ok out /\
    Permutation (List.concat (map snd out)) untidy_example /\
    map (fun g => map fst (snd g)) out = [["b"]; ["c"; "a"; "d"]].
Proof.
  destruct (sort_matches_by_competition_and_time (VDict untidy_example))
    as [out|] eqn:E; [|vm_compute in E; discriminate E].
  exists out. split; [reflexivity|]. split.
  - apply (grouper_keeps_every_match untidy_example out E).
  - vm_compute in E. injection E as <-. reflexivity.
Defined.

(** ** The detailed status mapping *)

Lemma total_count_app (g1 g2 : list (value * status_group)) :
  total_count (g1 ++ g2) = total_count g1 + total_count g2.
Proof.
  unfold total_count. induction g1 as [|g g1 IH]; cbn [app map fold_right]; [lia|].
  rewrite IH. lia.
Qed.

Lemma kv_find_snoc {A : Type} (m : list (value * A)) (k : value) (a : A) :
  kv_find m k = None -> py_eq k k = true ->
  kv_find (m ++ [(k, a)])%list k = Some a.
Proof.
  intros Hf Hk. induction m as [|[k0 x] m IH].
  - cbn [app kv_find]. rewrite Hk. reflexivity.
  - cbn [kv_find] in Hf. cbn [app kv_find].
    destruct (py_eq k0 k); [discriminate Hf|]. exact (IH Hf).
Qed.

Lemma kv_set_snoc {A : Type} (m : list (value * A)) (k : value) (a b : A) :
  kv_find m k = None -> py_eq k k = true ->
  kv_set (m ++ [(k, a)])%list k b = (m ++ [(k, b)])%list.
Proof.
  intros Hf Hk. induction m as [|[k0 x] m IH].
  - cbn [app kv_set]. rewrite Hk. reflexivity.
  - cbn [kv_find] in Hf. cbn [app kv_set].
    destruct (py_eq k0 k); [discriminate Hf|]. rewrite (IH Hf). reflexivity.
Qed.

Lemma add_status_group_inv (groups groups' : list (value * status_group)) (m : value) :
  add_status_group groups m = Ok groups' ->
  total_count groups' = total_count groups + b2z (has_status m) /\
  Permutation (listed_ids groups')
              (listed_ids groups
               ++ (if has_status m then [field m "id" (VStr "NO_ID")] else []))%list /\
  (Forall (fun g => sg_count (snd g) = Z.of_nat (List.length (sg_match_ids (snd g))))
          groups ->
   Forall (fun g => sg_count (snd g) = Z.of_nat (List.length (sg_match_ids (snd g))))
          groups').
Proof.
  unfold add_status_group, has_status. intros H.
  destruct (attr_get m "id" (VStr "NO_ID")) as [mid|] eqn:Eid; cbn [bind] in H;
    [|discriminate H].
  apply attr_get_field in Eid. rewrite <- Eid in *.
  destruct (extract_status_id m) as [sid|]; cbn [bind] in H; [|discriminate H].
  assert (Hstep :
            forall desc,
              match kv_find
                      match kv_find groups (VStr desc) with
                      | Some _ => groups
                      | None => kv_set groups (VStr desc)
                                  {| sg_status_id := sid; sg_count := 0;
                                     sg_match_ids := [] |}
                      end (VStr desc) with
              | Some g =>
                  Ok (kv_set
                        match kv_find groups (VStr desc) with
                        | Some _ => groups
                        | None => kv_set groups (VStr desc)
                                    {| sg_status_id := sid; sg_count := 0;
                                       sg_match_ids := [] |}
                        end (VStr desc)
                        {| sg_status_id := sg_status_id g;
                           sg_count := sg_count g + 1;
                           sg_match_ids := (sg_match_ids g ++ [mid])%list |})
              | None => Raise KeyError
              end = Ok groups' ->
              total_count groups' = total_count groups + 1 /\
              Permutation (listed_ids groups') (listed_ids groups ++ [mid]) /\
              (Forall (fun g => sg_count (snd g)
                                = Z.of_nat (List.length (sg_match_ids (snd g)))) groups ->
               Forall (fun g => sg_count (snd g)
                                = Z.of_nat (List.length (sg_match_ids (snd g)))) groups')).
  { intros desc Hd.
    destruct (kv_find groups (VStr desc)) as [g|] eqn:Ef.
    - rewrite Ef in Hd.
      destruct (kv_set_found groups (VStr desc) g Ef) as (m1 & k' & m2 & -> & _ & Hset).
      rewrite Hset in Hd. injection Hd as <-.
      split; [|split].
      + rewrite !total_count_app. unfold total_count. cbn [map fold_right snd sg_count].
        lia.
      + unfold listed_ids. rewrite !flat_map_app. cbn [flat_map snd sg_match_ids].
        rewrite <- !app_assoc. do 2 apply Permutation_app_head.
        cbn [app]. apply Permutation_cons_append.
      + intros Hall. apply Forall_app in Hall. destruct Hall as [H1 H2].
        inversion H2 as [|? ? Hg H2']; subst. apply Forall_app. split; [exact H1|].
        constructor; [|exact H2']. cbn [snd sg_count sg_match_ids] in *.
        rewrite length_app. cbn [List.length]. lia.
    - rewrite (kv_set_fresh groups (VStr desc) Ef) in Hd.
      rewrite (kv_find_snoc groups (VStr desc) _ Ef (String.eqb_refl desc)) in Hd.
      rewrite (kv_set_snoc groups (VStr desc) _ _ Ef (String.eqb_refl desc)) in Hd.
      injection Hd as <-.
      split; [|split].
      + rewrite total_count_app. unfold total_count.
        cbn [map fold_right snd sg_count]. lia.
      + unfold listed_ids. rewrite flat_map_app. cbn [flat_map snd sg_match_ids app].
        reflexivity.
      + intros Hall. apply Forall_app. split; [exact Hall|].
        constructor; [|constructor]. cbn. reflexivity. }
  destruct sid;
    try (destruct (detailed_status_desc _) as [desc|]; cbn [bind] in H;
         [|discriminate H];
         destruct (Hstep desc H) as (T & P & F); cbn [b2z];
         split; [exact T|split; [exact P|exact F]]).
  injection H as <-. cbn [b2z]. rewrite app_nil_r.
  split; [lia|split; [reflexivity|auto]].
Qed.

Lemma status_groups_inv (ms : list value) :
  forall groups groups',
    foldM add_status_group ms groups = Ok groups' ->
    total_count groups'
    = total_count groups + Z.of_nat (List.length (filter has_status ms)) /\
    Permutation (listed_ids groups')
                (listed_ids groups
                 ++ map (fun m => field m "id" (VStr "NO_ID")) (filter has_status ms))%list /\
    (Forall (fun g => sg_count (snd g) = Z.of_nat (List.length (sg_match_ids (snd g))))
            groups ->
     Forall (fun g => sg_count (snd g) = Z.of_nat (List.length (sg_match_ids (snd g))))
            groups').
Proof.
  induction ms as [|m ms IH]; intros groups groups' H; cbn [foldM] in H.
  - injection H as <-. cbn [filter map List.length]. rewrite app_nil_r.
    split; [lia|split; [reflexivity|auto]].
  - destruct (add_status_group groups m) as [g1|] eqn:E; [|discriminate H].
    destruct (add_status_group_inv _ _ _ E) as (T1 & P1 & F1).
    destruct (IH g1 groups' H) as (T2 & P2 & F2).
    split; [|split; [|auto]].
    + rewrite T2, T1. cbn [filter]. destruct (has_status m); cbn [b2z List.length]; lia.
    + rewrite P2, P1, <- app_assoc. apply Permutation_app_head.
      cbn [filter]. destruct (has_status m); reflexivity.
Qed.

Lemma count_matches_with_status (ms : list value) :
  forall (acc acc' : status_table * Z),
    foldM count_match ms acc = Ok acc' ->
    snd acc' = snd acc + Z.of_nat (List.length (filter has_status ms)).
Proof.
  induction ms as [|m ms IH]; intros acc acc' H; cbn [foldM] in H.
  - injection H as <-. cbn [filter List.length]. lia.
  - destruct (count_match acc m) as [a1|] eqn:E; [|discriminate H].
    rewrite (IH a1 acc' H). cbn [filter]. unfold count_match in E. unfold has_status.
    destruct (extract_status_id m) as [sid|]; cbn [bind] in E; [|discriminate E].
    destruct sid;
      try (destruct (count_status (fst acc) _); cbn [bind] in E; [|discriminate E];
           injection E as <-; cbn [snd List.length]; lia).
    injection E as <-. lia.
Qed.

(** X15.  When the detailed status mapping is built from a feed, every
    group's count is the number of match ids it lists; the ids listed, all
    groups together, are those of the matches that have a status id (a
    match without id is listed as "NO_ID"); and the counts add up to the
    [matches_with_status] of the unified status summary of the same
    feed. *)
Theorem detailed_mapping_counts :
  forall (live : dict) (matches : list value)
         (status_groups : list (value * status_group)),
    dict_get live "results" = Some (VList matches) ->
    create_detailed_status_mapping (VDict live) = Ok status_groups ->
    Forall (fun g => sg_count (snd g) = Z.of_nat (List.length (sg_match_ids (snd g))))
           status_groups /\
    Permutation (listed_ids status_groups)
                (map (fun m => field m "id" (VStr "NO_ID")) (filter has_status matches)) /\
    total_count status_groups = Z.of_nat (List.length (filter has_status matches)) /\
    (forall summary,
        create_unified_status_summary (VDict live) = Ok summary ->
        matches_with_status summary = Some (total_count status_groups)).
Proof.
  intros live matches groups Hres H.
  unfold create_detailed_status_mapping in H.
  destruct live as [|kv live]; [discriminate Hres|].
  cbn [truthy negb] in H. rewrite Hres in H. cbn [py_iter bind] in H.
  destruct (status_groups_inv matches [] groups H) as (T & P & F).
  cbn [total_count listed_ids flat_map map fold_right app] in T, P.
  split; [apply F; constructor|]. split; [exact P|]. split; [lia|].
  intros summary Hs. unfold create_unified_status_summary in Hs.
  cbn [truthy negb] in Hs. rewrite Hres in Hs. cbn [py_len py_iter bind] in Hs.
  match type of Hs with
  | context [foldM count_match matches ?a] =>
      destruct (foldM count_match matches a) as [[st n]|] eqn:Ef;
        cbn [bind] in Hs; [|discriminate Hs]
  end.
  apply count_matches_with_status in Ef. cbn [snd] in Ef.
  destruct (py_sorted py_lt (map fst st)); cbn [bind] in Hs; [|discriminate Hs].
  injection Hs as <-. cbn [matches_with_status]. f_equal. lia.
Qed.

(** The feed of the example: three groups, four matches with a status. *)
Lemma detailed_mapping_counts_witness :
  exists status_groups,
    create_detailed_status_mapping feed_example = Ok status_groups /\
    total_count status_groups = 4 /\
    map (fun g => (fst g, sg_match_ids (snd g))) status_groups
    = [ (VStr "First half", [VStr "a"; VStr "c"]);
        (VStr "End", [VStr "b"]);
        (VStr "Unknown Status (ID: 42)", [VStr "NO_ID"]) ].
Proof.
  destruct (create_detailed_status_mapping feed_example) as [groups|] eqn:E;
    [|vm_compute in E; discriminate E].
  exists groups. split; [reflexivity|].
  destruct (detailed_mapping_counts
              [("results",
                VList [VDict [("id", VStr "a"); ("status_id", VInt 2)];
                       VDict [("id", VStr "b"); ("status_id", VInt 8)];
                       VDict [("id", VStr "c"); ("score", VList [VStr "c"; VInt 2])];
                       VDict [("id", VStr "d")];
                       VDict [("status_id", VInt 42)]])]
              _ groups eq_refl E) as (_ & _ & T & _).
  split; [rewrite T; reflexivity|].
  vm_compute in E. injection E as <-. reflexivity.
Defined.

(** ** Fetching with retries *)

(** X16.  [fetch_json] never raises.  It sends at most three requests,
    stops at the first one that succeeds and returns its body; it waits 1
    second after the first failure and 2 seconds after the second, so
    never more than 3 seconds in all, and not after the third failure,
    where it returns the empty dict.  After three failures the status
    summaries of the feed are the empty ones: no match, no in-play match,
    no group. *)
Theorem fetch_json_retries :
  forall server : Z -> response,
    let body := fst (fetch_json server) in
    let log := snd (fetch_json server) in
    (exists n, (1 <= n <= 3)%nat /\
               requests_sent log = firstn n [0; 1; 2] /\
               waits log = firstn (n - 1) [1; 2] /\
               (forall k, (k < n - 1)%nat -> server (Z.of_nat k) = Failure) /\
               match server (Z.of_nat (n - 1)) with
               | Body json => body = json
               | Failure => n = 3%nat /\ body = VDict []
               end) /\
    fold_right Z.add 0 (waits log) <= 3 /\
    (server 0 = Failure -> server 1 = Failure -> server 2 = Failure ->
     (exists summary,
         create_unified_status_summary body = Ok summary /\
         total_matches_fetched summary = 0 /\ in_play_matches summary = 0 /\
         matches_with_status summary = None) /\
     create_detailed_status_mapping body = Ok [] /\
     step1_main_in_play_count body = Ok 0).
Proof.
  intros server. unfold fetch_json. cbn [fetch_attempts Z.eqb requests_sent waits app].
  destruct (server 0) as [j0|] eqn:E0.
  { cbn [fst snd requests_sent waits fold_right].
    split; [|split; [vm_compute; discriminate|discriminate]].
    exists 1%nat. split; [lia|]. split; [reflexivity|]. split; [reflexivity|].
    split; [intros k Hk; lia|]. cbn. rewrite E0. reflexivity. }
  destruct (server 1) as [j1|] eqn:E1.
  { cbn [fst snd requests_sent waits fold_right Z.pow Z.pow_pos Pos.iter Z.mul Pos.mul].
    split; [|split; [vm_compute; discriminate|discriminate]].
    exists 2%nat. split; [lia|]. split; [reflexivity|]. split; [reflexivity|].
    split; [|cbn; rewrite E1; reflexivity].
    intros k Hk. assert (k = 0%nat) as -> by lia. exact E0. }
  assert (Hfail : forall k, (k < 2)%nat -> server (Z.of_nat k) = Failure).
  { intros k Hk. assert (k = 0 \/ k = 1)%nat as [-> | ->] by lia; assumption. }
  destruct (server 2) as [j2|] eqn:E2.
  { cbn [fst snd requests_sent waits fold_right Z.pow Z.pow_pos Pos.iter Z.mul Pos.mul].
    split; [|split; [vm_compute; discriminate|discriminate]].
    exists 3%nat. split; [lia|]. split; [reflexivity|]. split; [reflexivity|].
    split; [exact Hfail|]. cbn. rewrite E2. reflexivity. }
  cbn [fst snd requests_sent waits fold_right Z.pow Z.pow_pos Pos.iter Z.mul Pos.mul].
  split; [|split; [vm_compute; discriminate|]].
  - exists 3%nat. split; [lia|]. split; [reflexivity|]. split; [reflexivity|].
    split; [exact Hfail|]. cbn. rewrite E2. split; reflexivity.
  - intros _ _ _. split; [|split; reflexivity].
    eexists. split; [reflexivity|]. repeat split.
Qed.

(** Two failures, then an answer: three requests, waits of 1 and 2
    seconds, and the body of the third request. *)
Lemma fetch_json_retries_witness :
  requests_sent (snd (fetch_json flaky_server)) = [0; 1; 2] /\
  waits (snd (fetch_json flaky_server)) = [1; 2] /\
  (exists summary,
      create_unified_status_summary (fst (fetch_json (fun _ => Failure))) = Ok summary /\
      total_matches_fetched summary = 0).
Proof.
  split; [reflexivity|]. split; [reflexivity|].
  destruct (fetch_json_retries (fun _ => Failure)) as (_ & _ & H).
  destruct (H eq_refl eq_refl eq_refl) as ((summary & Hs & Ht & _) & _).
  exists summary. split; [exact Hs|exact Ht].
Defined.

(** ** The counters of the unified status summary *)

Lemma count_matches_statuses (ms : list value) :
  forall (acc acc' : status_table * Z),
    foldM count_match ms acc = Ok acc' ->
    mapM extract_status_id ms = Ok (map status_of ms).
Proof.
  induction ms as [|m ms IH]; intros acc acc' H; [reflexivity|].
  cbn [foldM] in H. destruct (count_match acc m) as [a1|] eqn:E; [|discriminate H].
  cbn [mapM map]. rewrite (IH a1 acc' H). unfold status_of.
  unfold count_match in E.
  destruct (extract_status_id m); [reflexivity|discriminate E].
Qed.

Lemma in_play_among_with_status (ms : list value) :
  (List.length (filter in_play_summary (map status_of ms))
   <= List.length (filter has_status ms))%nat.
Proof.
  induction ms as [|m ms IH]; [cbn; lia|].
  assert (Hcase : in_play_summary (status_of m) = true -> has_status m = true).
  { unfold status_of, has_status.
    destruct (extract_status_id m) as [[]|]; intros H;
      first [reflexivity|vm_compute in H; discriminate H]. }
  cbn [map filter].
  destruct (in_play_summary (status_of m));
    [rewrite (Hcase eq_refl)|destruct (has_status m)]; cbn [List.length]; lia.
Qed.

Lemma filter_negb_length {A : Type} (f : A -> bool) (l : list A) :
  (List.length (filter f l) + List.length (filter (fun x => negb (f x)) l)
   = List.length l)%nat.
Proof.
  induction l as [|x l IH]; [reflexivity|].
  cbn [filter]. destruct (f x); cbn [negb List.length]; lia.
Qed.

(** X17.  The counters of the unified status summary of a feed are
    consistent: the total is the number of matches, [matches_with_status]
    is the number of matches that have a status id and
    [matches_without_status] the number of those that have none, the last
    line of the formatted summary reports the in-play count, and, for
    status ids that are numbers, the in-play count lies between 0 and
    [matches_with_status]. *)
Theorem unified_summary_counters :
  forall (live : dict) (matches : list value) (summary : status_summary),
    dict_get live "results" = Some (VList matches) ->
    create_unified_status_summary (VDict live) = Ok summary ->
    total_matches_fetched summary = Z.of_nat (List.length matches) /\
    matches_with_status summary
    = Some (Z.of_nat (List.length (filter has_status matches))) /\
    matches_without_status summary
    = Some (Z.of_nat (List.length (filter (fun m => negb (has_status m)) matches))) /\
    last (formatted_summary summary) EmptyString
    = ("IN-PLAY MATCHES: " ++ str_of_int (in_play_matches summary))%string /\
    (Forall (fun m => status_ok (status_of m)) matches ->
     0 <= in_play_matches summary
       <= Z.of_nat (List.length (filter has_status matches))).
Proof.
  intros live matches summary Hres Hs.
  unfold create_unified_status_summary in Hs.
  destruct live as [|kv live]; [discriminate Hres|].
  cbn [truthy negb] in Hs. rewrite Hres in Hs. cbn [py_len py_iter bind] in Hs.
  match type of Hs with
  | context [foldM count_match matches ?a] =>
      destruct (foldM count_match matches a) as [[st n]|] eqn:Ef;
        cbn [bind] in Hs; [|discriminate Hs]
  end.
  pose proof (count_matches_with_status _ _ _ Ef) as Hn. cbn [snd] in Hn.
  pose proof (count_matches_statuses _ _ _ Ef) as Hmap.
  destruct (py_sorted py_lt (map fst st)); cbn [bind] in Hs; [|discriminate Hs].
  injection Hs as <-.
  cbn [total_matches_fetched matches_with_status matches_without_status
       in_play_matches formatted_summary].
  pose proof (filter_negb_length has_status matches) as Hlen.
  split; [reflexivity|]. split; [f_equal; lia|]. split; [f_equal; lia|].
  split; [apply last_last|].
  intros Hok.
  assert (Hok' : Forall status_ok (map status_of matches))
    by (apply Forall_map; exact Hok).
  destruct (count_matches_numeric matches (map status_of matches) [] 0 Hmap Hok')
    as (st' & n' & Hf' & _ & Hc); [constructor|].
  rewrite Ef in Hf'. injection Hf' as <- <-.
  assert (Hip := in_play_sum st (map status_of matches) Hok').
  unfold in_play_status_ids in *. cbn [map fold_right] in *.
  rewrite Hip.
  - pose proof (in_play_among_with_status matches). lia.
  - intros v Hv. rewrite (Hc v Hv). reflexivity.
Qed.

(** The feed of the example: five matches, four with a status, two of
    them in play. *)
Lemma unified_summary_counters_witness :
  exists summary,
    create_unified_status_summary feed_example = Ok summary /\
    total_matches_fetched summary = 5 /\
    matches_with_status summary = Some 4 /\
    matches_without_status summary = Some 1 /\
    0 <= in_play_matches summary <= 4.
Proof.
  destruct (create_unified_status_summary feed_example) as [summary|] eqn:E;
    [|vm_compute in E; discriminate E].
  exists summary. split; [reflexivity|].
  destruct (unified_summary_counters
              [("results",
                VList [VDict [("id", VStr "a"); ("status_id", VInt 2)];
                       VDict [("id", VStr "b"); ("status_id", VInt 8)];
                       VDict [("id", VStr "c"); ("score", VList [VStr "c"; VInt 2])];
                       VDict [("id", VStr "d")];
                       VDict [("status_id", VInt 42)]])]
              _ summary eq_refl E) as (T & W & O & _ & I).
  split; [exact T|]. split; [exact W|]. split; [exact O|].
  apply I. repeat constructor; (now left) || (now right).
Defined.

(** ** The odds of several companies *)

Lemma odds_struct_fold (companies : dict) :
  forall (acc odds_struct : dict),
    foldM (fun (acc : dict) mk =>
             match mk with
             | VDict markets => Ok (dict_update acc markets)
             | _ => Raise AttributeError
             end) (map snd companies) acc = Ok odds_struct ->
    Forall (fun c : string * value => exists markets, snd c = VDict markets) companies /\
    (Forall (fun c : string * value => NoDup (map fst (markets_of (snd c)))) companies ->
     forall mt,
       dict_get odds_struct mt
       = fold_left (fun a (c : string * value) =>
                      match dict_get (markets_of (snd c)) mt with
                      | Some od => Some od
                      | None => a
                      end) companies (dict_get acc mt)).
Proof.
  induction companies as [|[cid mk] companies IH]; intros acc os H; cbn [map foldM snd] in H.
  - injection H as <-. split; [constructor|]. intros _ mt. reflexivity.
  - destruct mk as [| | | | | |markets]; try discriminate H.
    destruct (IH _ _ H) as [Hd Hl]. split.
    + constructor; [exists markets; reflexivity|exact Hd].
    + intros Hnd mt. inversion Hnd as [|? ? Hm Hnd']; subst.
      cbn [snd markets_of] in Hm. rewrite (Hl Hnd' mt). cbn [fold_left snd markets_of].
      rewrite (dict_get_update markets acc mt Hm). reflexivity.
Qed.

(** X18.  The odds of the companies are flattened into one mapping from
    market type to entries.  This works only when every company entry is
    a mapping (the [isinstance] test of the comprehension comes too late
    to skip another kind of entry, which makes the merge raise); and for a
    market type that several companies offer, only the entries of the last
    of them are kept. *)
Theorem odds_struct_last_company_wins :
  forall (odds_wrap : value) (odds_struct : dict),
    odds_struct_of odds_wrap = Ok odds_struct ->
    Forall (fun c : string * value => exists markets, snd c = VDict markets)
           (companies_of odds_wrap) /\
    (Forall (fun c : string * value => NoDup (map fst (markets_of (snd c))))
            (companies_of odds_wrap) ->
     forall mt, dict_get odds_struct mt = last_offer (companies_of odds_wrap) mt).
Proof.
  intros odds_wrap os H. unfold odds_struct_of in H.
  destruct (attr_get odds_wrap "results" (VDict [])) as [results|] eqn:E;
    cbn [bind] in H; [|discriminate H].
  apply attr_get_field in E. unfold companies_of. rewrite <- E.
  destruct results as [| | | | | |companies]; try discriminate H.
  exact (odds_struct_fold companies [] os H).
Qed.

(** Both companies offer "eu": the entries of the second are kept. *)
Lemma odds_struct_last_company_wins_witness :
  exists odds_struct,
    odds_struct_of odds_wrap_example = Ok odds_struct /\
    dict_get odds_struct "eu" = Some (VList [VStr "second"]) /\
    odds_struct_of (VDict [("results", VDict [("2", VList [])])]) = Raise AttributeError.
Proof.
  destruct (odds_struct_of odds_wrap_example) as [os|] eqn:E;
    [|vm_compute in E; discriminate E].
  exists os. split; [reflexivity|]. split; [|reflexivity].
  destruct (odds_struct_last_company_wins odds_wrap_example os E) as [_ H].
  rewrite H; [reflexivity|].
  vm_compute. repeat constructor; cbn [In]; intuition discriminate.
Defined.

(** ** Enrichment *)

Lemma team_calls_app (l1 l2 : list request) :
  team_calls (l1 ++ l2) = (team_calls l1 ++ team_calls l2)%list.
Proof. apply flat_map_app. Qed.

Lemma competition_calls_app (l1 l2 : list request) :
  competition_calls (l1 ++ l2) = (competition_calls l1 ++ competition_calls l2)%list.
Proof. apply flat_map_app. Qed.

Lemma detail_calls_app (l1 l2 : list request) :
  detail_calls (l1 ++ l2) = (detail_calls l1 ++ detail_calls l2)%list.
Proof. apply flat_map_app. Qed.

Lemma kv_find_text_none {A : Type} (cache : list (value * A)) (k : string) :
  kv_find cache (VStr k) = None -> ~ In (VStr k) (map fst cache).
Proof.
  induction cache as [|[k0 x] cache IH]; cbn [kv_find map fst]; [intros _ []|].
  destruct (py_eq k0 (VStr k)) eqn:E; [discriminate|].
  intros H [Hk|Hin]; [|exact (IH H Hin)].
  subst k0. cbn [py_eq] in E. rewrite String.eqb_refl in E. discriminate E.
Qed.

(** One conditional fetch keeps the cache in step with the calls of its
    kind: the keys of the cache are the texts of the ids requested, and no
    key occurs twice. *)
Lemma fetch_missing_inv (fetch : value -> value) (call : value -> request)
    (texts : list request -> list string)
    (cache cache' : list (value * value)) (log log' : list request) (id : value) :
  (forall l1 l2, texts (l1 ++ l2)%list = (texts l1 ++ texts l2)%list) ->
  (forall x, texts [call x] = [py_str x]) ->
  fetch_missing fetch call cache log id = (cache', log') ->
  map fst cache = map VStr (texts log) ->
  NoDup (map fst cache) ->
  map fst cache' = map VStr (texts log') /\ NoDup (map fst cache').
Proof.
  intros Happ Hcall H Hkeys Hnd. unfold fetch_missing in H.
  destruct (truthy id); [|injection H as <- <-; auto].
  destruct (kv_find cache (VStr (py_str id))) eqn:Ef; [injection H as <- <-; auto|].
  injection H as <- <-. rewrite (kv_set_fresh cache _ Ef).
  rewrite map_app, Happ, Hcall, map_app, Hkeys. cbn [map fst]. split; [reflexivity|].
  rewrite <- Hkeys. apply NoDup_app_iff_snoc; [exact Hnd|].
  apply kv_find_text_none. exact Ef.
Qed.

Lemma fetch_missing_other {B : Type} (fetch : value -> value) (call : value -> request)
    (texts : list request -> list B)
    (cache cache' : list (value * value)) (log log' : list request) (id : value) :
  (forall l1 l2, texts (l1 ++ l2)%list = (texts l1 ++ texts l2)%list) ->
  (forall x, texts [call x] = []) ->
  fetch_missing fetch call cache log id = (cache', log') ->
  texts log' = texts log.
Proof.
  intros Happ Hcall H. unfold fetch_missing in H.
  destruct (truthy id); [|injection H as <- <-; auto].
  destruct (kv_find cache (VStr (py_str id))); injection H as <- <-; [reflexivity|].
  rewrite Happ, Hcall, app_nil_r. reflexivity.
Qed.

Lemma enrich_match_inv (server : provider) (seen : list value) (st st' : enrichment)
    (m : value) :
  enrich_inv server seen st ->
  enrich_match server st m = Ok st' ->
  enrich_inv server (seen ++ [m]) st'.
Proof.
  intros (T1 & T2 & C1 & C2 & D & L) H. unfold enrich_match in H.
  destruct m as [| | | | | |d]; try discriminate H.
  destruct (hashable (get d "id" VNone)); cbn [negb] in H; [|discriminate H].
  bind_inv H.
  match goal with
  | E : attr_get (unwrap_first _) "status_id" VNone = Ok ?status |- _ =>
      apply attr_get_field in E; rename E into Hstatus
  end.
  destruct (fetch_missing (fetch_team_info server) TeamInfo (team_info st) _ _)
    as [teams1 log1] eqn:F1.
  destruct (fetch_missing (fetch_team_info server) TeamInfo teams1 log1 _)
    as [teams2 log2] eqn:F2.
  destruct (fetch_missing (fetch_competition_info server) CompetitionInfo
              (competition_info st) log2 _) as [comps log3] eqn:F3.
  injection H as <-. unfold enrich_inv.
  cbn [team_info competition_info calls live_results].
  assert (T0 : team_calls (calls st ++ [MatchDetails (get d "id" VNone);
                                        MatchOdds (get d "id" VNone)])
               = team_calls (calls st))
    by (rewrite team_calls_app; cbn; apply app_nil_r).
  assert (C0 : competition_calls (calls st ++ [MatchDetails (get d "id" VNone);
                                               MatchOdds (get d "id" VNone)])
               = competition_calls (calls st))
    by (rewrite competition_calls_app; cbn; apply app_nil_r).
  destruct (fetch_missing_inv _ TeamInfo team_calls _ _ _ _ _ team_calls_app
              (fun x => eq_refl) F1) as [T1a T2a];
    [rewrite T0; exact T1|exact T2|].
  destruct (fetch_missing_inv _ TeamInfo team_calls _ _ _ _ _ team_calls_app
              (fun x => eq_refl) F2 T1a T2a) as [T1b T2b].
  pose proof (fetch_missing_other _ TeamInfo competition_calls _ _ _ _ _
                competition_calls_app (fun x => eq_refl) F1) as C1a.
  pose proof (fetch_missing_other _ TeamInfo competition_calls _ _ _ _ _
                competition_calls_app (fun x => eq_refl) F2) as C1b.
  destruct (fetch_missing_inv _ CompetitionInfo competition_calls _ _ _ _ _
              competition_calls_app (fun x => eq_refl) F3) as [C1c C2c];
    [rewrite C1b, C1a, C0; exact C1|exact C2|].
  pose proof (fetch_missing_other _ CompetitionInfo team_calls _ _ _ _ _
                team_calls_app (fun x => eq_refl) F3) as T3.
  pose proof (fetch_missing_other _ TeamInfo detail_calls _ _ _ _ _
                detail_calls_app (fun x => eq_refl) F1) as D1.
  pose proof (fetch_missing_other _ TeamInfo detail_calls _ _ _ _ _
                detail_calls_app (fun x => eq_refl) F2) as D2.
  pose proof (fetch_missing_other _ CompetitionInfo detail_calls _ _ _ _ _
                detail_calls_app (fun x => eq_refl) F3) as D3.
  repeat split.
  - rewrite T3. exact T1b.
  - exact T2b.
  - exact C1c.
  - exact C2c.
  - rewrite D3, D2, D1, detail_calls_app, D, map_app. reflexivity.
  - rewrite L, map_app. cbn [map with_detail_status]. rewrite <- Hstatus.
    match goal with
    | |- context [match ?x with VNone => _ | _ => _ end] => destruct x
    end; reflexivity.
Qed.

Lemma enrich_loop_inv (server : provider) (ms : list value) :
  forall (seen : list value) (st st' : enrichment),
    enrich_inv server seen st ->
    foldM (enrich_match server) ms st = Ok st' ->
    enrich_inv server (seen ++ ms) st'.
Proof.
  induction ms as [|m ms IH]; intros seen st st' Hinv H; cbn [foldM] in H.
  - injection H as <-. rewrite app_nil_r. exact Hinv.
  - destruct (enrich_match server st m) as [st1|] eqn:E; [|discriminate H].
    replace (seen ++ m :: ms)%list with ((seen ++ [m]) ++ ms)%list
      by (rewrite <- app_assoc; reflexivity).
    apply (IH _ st1 st'); [|exact H].
    eapply enrich_match_inv; eassumption.
Qed.

(** X19.  When the enrichment of a list of live matches returns, it has
    requested the details of every match, in order, and the country list
    last; it has requested no team twice and no competition twice (a team
    or competition is known by the text of its id), and [team_info] and
    [competition_info] hold exactly what was requested; and each live
    match has received the status id of its detail record when that
    record has one, and is otherwise unchanged. *)
Theorem enrich_match_data_fetches_once :
  forall (server : provider) (matches : list value) (all_data : enrichment),
    enrich_match_data server (VList matches) = Ok all_data ->
    detail_calls (calls all_data) = map (fun m => field m "id" VNone) matches /\
    last (calls all_data) CountryList = CountryList /\
    countries all_data = Some (fetch_country_list server) /\
    NoDup (team_calls (calls all_data)) /\
    map fst (team_info all_data) = map VStr (team_calls (calls all_data)) /\
    NoDup (competition_calls (calls all_data)) /\
    map fst (competition_info all_data)
    = map VStr (competition_calls (calls all_data)) /\
    live_results all_data = map (with_detail_status server) matches.
Proof.
  intros server matches all_data H. unfold enrich_match_data in H.
  cbn [py_len py_iter bind] in H.
  match type of H with
  | context [foldM (enrich_match server) matches ?s0] =>
      destruct (foldM (enrich_match server) matches s0) as [st|] eqn:Ef;
        cbn [bind] in H; [|discriminate H];
        destruct (enrich_loop_inv server matches [] s0 st) as (T1 & T2 & C1 & C2 & D & L);
        [repeat split; constructor|exact Ef|]
  end.
  injection H as <-. cbn [calls countries team_info competition_info live_results app] in *.
  rewrite team_calls_app, competition_calls_app, detail_calls_app.
  cbn [team_calls competition_calls detail_calls flat_map]. rewrite !app_nil_r.
  assert (Hinj : forall l : list string, NoDup (map VStr l) -> NoDup l).
  { intros l. induction l as [|x l IH]; intros Hn; [constructor|].
    cbn [map] in Hn. inversion Hn as [|? ? Hx Hn']; subst.
    constructor; [|exact (IH Hn')]. intros Hin. apply Hx. apply in_map. exact Hin. }
  repeat split.
  - exact D.
  - apply last_last.
  - apply Hinj. rewrite <- T1. exact T2.
  - exact T1.
  - apply Hinj. rewrite <- C1. exact C2.
  - exact C1.
  - exact L.
Qed.

(** Two matches of the same home team, given as the integer 5 by the
    detail record: the team is requested once, and both matches receive
    status 4. *)
Lemma enrich_match_data_fetches_once_witness :
  exists all_data,
    enrich_match_data provider_example
      (VList [VDict [("id", VStr "m1"); ("status_id", VInt 2)];
              VDict [("id", VStr "m2")]]) = Ok all_data /\
    team_calls (calls all_data) = ["5"] /\
    live_results all_data
    = [VDict [("id", VStr "m1"); ("status_id", VInt 4)];
       VDict [("id", VStr "m2"); ("status_id", VInt 4)]].
Proof.
  destruct (enrich_match_data provider_example
              (VList [VDict [("id", VStr "m1"); ("status_id", VInt 2)];
                      VDict [("id", VStr "m2")]])) as [all_data|] eqn:E;
    [|vm_compute in E; discriminate E].
  exists all_data. split; [reflexivity|].
  destruct (enrich_match_data_fetches_once _ _ _ E) as (_ & _ & _ & _ & _ & _ & _ & L).
  split; [|rewrite L; reflexivity].
  vm_compute in E. injection E as <-. reflexivity.
Defined.

(** ** The comprehensive match breakdown *)

Lemma kv_bump {A : Type} (m m' : list (value * A)) (desc : string) (a0 : A)
    (upd : A -> A) :
  match kv_find match kv_find m (VStr desc) with
                | Some _ => m
                | None => kv_set m (VStr desc) a0
                end (VStr desc) with
  | Some g =>
      Ok (kv_set match kv_find m (VStr desc) with
                 | Some _ => m
                 | None => kv_set m (VStr desc) a0
                 end (VStr desc) (upd g))
  | None => Raise KeyError
  end = Ok m' ->
  (exists m1 m2 g,
      m = (m1 ++ (VStr desc, g) :: m2)%list /\
      m' = (m1 ++ (VStr desc, upd g) :: m2)%list) \/
  (kv_find m (VStr desc) = None /\ m' = (m ++ [(VStr desc, upd a0)])%list).
Proof.
  intros H. destruct (kv_find m (VStr desc)) as [g|] eqn:Ef.
  - rewrite Ef in H.
    destruct (kv_set_found m (VStr desc) g Ef) as (m1 & k' & m2 & -> & Hk & Hset).
    apply py_eq_str_true in Hk. subst k'. rewrite Hset in H. injection H as <-.
    left. exists m1, m2, g. split; reflexivity.
  - rewrite (kv_set_fresh m (VStr desc) Ef) in H.
    rewrite (kv_find_snoc m (VStr desc) _ Ef (String.eqb_refl desc)) in H.
    rewrite (kv_set_snoc m (VStr desc) _ _ Ef (String.eqb_refl desc)) in H.
    injection H as <-. right. split; reflexivity.
Qed.

Lemma count_where_app (p : string -> bool) (b1 b2 : list (value * breakdown_group)) :
  count_where p (b1 ++ b2) = count_where p b1 + count_where p b2.
Proof.
  unfold count_where. induction b1 as [|g b1 IH]; cbn [app map fold_right]; [lia|].
  rewrite IH. lia.
Qed.

Lemma bumped_breakdown_inv (seen : list value) (b b' : list (value * breakdown_group))
    (m : value) (sid : value) (desc : string) (listed : listed_match) :
  breakdown_inv seen b ->
  has_status m = true ->
  status_of m = sid ->
  breakdown_status_desc sid = Ok desc ->
  match kv_find match kv_find b (VStr desc) with
                | Some _ => b
                | None => kv_set b (VStr desc)
                            {| bg_status_id := sid; bg_count := 0; bg_matches := [] |}
                end (VStr desc) with
  | Some g =>
      Ok (kv_set match kv_find b (VStr desc) with
                 | Some _ => b
                 | None => kv_set b (VStr desc)
                             {| bg_status_id := sid; bg_count := 0; bg_matches := [] |}
                 end (VStr desc)
            {| bg_status_id := bg_status_id g;
               bg_count := bg_count g + 1;
               bg_matches := (bg_matches g ++ [listed])%list |})
  | None => Raise KeyError
  end = Ok b' ->
  breakdown_inv (seen ++ [m]) b'.
Proof.
  intros (K & N & L & Hh & C) Hhas Hst Hdesc Hb.
  assert (Hhash : hashable sid = true).
  { unfold breakdown_status_desc, kv_get in Hdesc.
    destruct (hashable sid); [reflexivity|discriminate Hdesc]. }
  assert (Hd : breakdown_desc_of m = desc).
  { unfold breakdown_desc_of. rewrite Hst, Hdesc. reflexivity. }
  assert (Hseen : Forall (fun m => has_status m = true -> hashable (status_of m) = true)
                         (seen ++ [m])).
  { apply Forall_app. split; [exact Hh|]. constructor; [|constructor].
    intros _. rewrite Hst. exact Hhash. }
  apply (kv_bump b b' desc _
           (fun g => {| bg_status_id := bg_status_id g;
                        bg_count := bg_count g + 1;
                        bg_matches := (bg_matches g ++ [listed])%list |})) in Hb.
  destruct Hb as [(m1 & m2 & g & Eb & Eb')|(Ef & Eb')]; rewrite Eb'; clear Eb'.
  - rewrite Eb in *. clear Eb.
    apply Forall_app in K. destruct K as [K1 K2].
    apply Forall_cons_iff in K2. destruct K2 as [_ K2].
    apply Forall_app in L. destruct L as [L1 L2].
    apply Forall_cons_iff in L2. destruct L2 as [Lg L2].
    split; [|split; [|split; [|split]]].
    + apply Forall_app. split; [exact K1|].
      constructor; [exists desc; reflexivity|exact K2].
    + rewrite map_app in *. exact N.
    + apply Forall_app. split; [exact L1|]. constructor; [|exact L2].
      cbn [snd bg_count bg_matches] in *. rewrite length_app. cbn [List.length]. lia.
    + exact Hseen.
    + intros p. specialize (C p). rewrite count_where_app in *.
      unfold count_where at 2. unfold count_where at 2 in C.
      cbn [map fold_right fst snd key_text bg_count] in *.
      fold (count_where p m2) in *.
      rewrite filter_app, length_app. cbn [filter]. rewrite Hhas, Hd. cbn [andb].
      destruct (p desc); cbn [List.length]; lia.
  - split; [|split; [|split; [|split]]].
    + apply Forall_app. split; [exact K|].
      constructor; [exists desc; reflexivity|constructor].
    + rewrite map_app. cbn [map fst]. apply NoDup_app_iff_snoc; [exact N|].
      apply kv_find_text_none. exact Ef.
    + apply Forall_app. split; [exact L|]. constructor; [|constructor].
      cbn. reflexivity.
    + exact Hseen.
    + intros p. specialize (C p). rewrite count_where_app.
      unfold count_where at 2. cbn [map fold_right fst snd key_text bg_count].
      rewrite filter_app, length_app. cbn [filter]. rewrite Hhas, Hd. cbn [andb].
      destruct (p desc); cbn [List.length]; lia.
Qed.

Lemma add_breakdown_inv (all_data : enrichment) (seen : list value)
    (b b' : list (value * breakdown_group)) (m : value) :
  breakdown_inv seen b ->
  add_breakdown all_data b m = Ok b' ->
  breakdown_inv (seen ++ [m]) b'.
Proof.
  intros Hinv H. unfold add_breakdown in H.
  destruct m as [| | | | | |d]; try discriminate H.
  destruct (extract_status_id (VDict d)) as [sid|] eqn:Es; cbn [bind] in H;
    [|discriminate H].
  assert (Hst : status_of (VDict d) = sid) by (unfold status_of; rewrite Es; reflexivity).
  destruct (value_is_none sid) as [->|Hne].
  - injection H as <-. destruct Hinv as (K & N & L & Hh & C).
    assert (Hhas : has_status (VDict d) = false)
      by (unfold has_status; rewrite Es; reflexivity).
    repeat split; try assumption.
    + apply Forall_app. split; [exact Hh|]. constructor; [|constructor].
      rewrite Hhas. discriminate.
    + intros p. rewrite filter_app. cbn [filter]. rewrite Hhas. cbn [andb].
      rewrite app_nil_r. apply C.
  - assert (Hhas : has_status (VDict d) = true).
    { unfold has_status. rewrite Es. destruct sid; try reflexivity. contradiction. }
    destruct sid; try contradiction;
      (destruct (breakdown_status_desc _) as [desc|] eqn:Ed; cbn [bind] in H;
       [|discriminate H];
       bind_inv H;
       exact (bumped_breakdown_inv seen b b' _ _ desc _ Hinv Hhas Hst Ed H)).
Qed.

Lemma breakdown_loop_inv (all_data : enrichment) (ms : list value) :
  forall (seen : list value) (b b' : list (value * breakdown_group)),
    breakdown_inv seen b ->
    foldM (add_breakdown all_data) ms b = Ok b' ->
    breakdown_inv (seen ++ ms) b'.
Proof.
  induction ms as [|m ms IH]; intros seen b b' Hinv H; cbn [foldM] in H.
  - injection H as <-. rewrite app_nil_r. exact Hinv.
  - destruct (add_breakdown all_data b m) as [b1|] eqn:E; [|discriminate H].
    replace (seen ++ m :: ms)%list with ((seen ++ [m]) ++ ms)%list
      by (rewrite <- app_assoc; reflexivity).
    apply (IH _ b1 b'); [|exact H].
    eapply add_breakdown_inv; eassumption.
Qed.

Lemma sum_permutation {A : Type} (f : A -> Z) (l l' : list A) :
  Permutation l l' -> fold_right Z.add 0 (map f l) = fold_right Z.add 0 (map f l').
Proof.
  intros H. induction H; cbn [map fold_right]; lia.
Qed.

(** The addend of one key in the loop of
    [print_comprehensive_match_breakdown]. *)
Lemma print_loop_sum (b : list (value * breakdown_group)) (keys : list value) :
  forall total,
    (forall k, In k keys -> In k (map fst b)) ->
    Forall (fun g => exists desc, fst g = VStr desc) b ->
    foldM (fun total_in_play status_desc =>
             match kv_find b status_desc with
             | Some status_data =>
                 Ok (if py_in status_desc in_play_statuses
                     then total_in_play + bg_count status_data
                     else total_in_play)
             | None => Raise KeyError
             end) keys total
    = Ok (total
          + fold_right Z.add 0
              (map (fun k => match kv_find b k with
                             | Some g => if in_play_name (key_text k)
                                         then bg_count g else 0
                             | None => 0
                             end) keys)).
Proof.
  induction keys as [|k keys IH]; intros total Hin K; cbn [foldM map fold_right].
  - f_equal. lia.
  - assert (Hk : In k (map fst b)) by (apply Hin; now left).
    apply in_map_iff in Hk. destruct Hk as ([k0 g0] & Hk0 & Hg0). cbn [fst] in Hk0.
    subst k0.
    destruct (proj1 (Forall_forall _ _) K _ Hg0) as (desc & Hdesc). cbn [fst] in Hdesc.
    subst k.
    destruct (kv_find b (VStr desc)) as [g|] eqn:Ef.
    + rewrite IH by (intros; auto; apply Hin; now right). cbn [key_text].
      unfold in_play_name. f_equal. destruct (py_in (VStr desc) in_play_statuses); lia.
    + exfalso. apply (kv_find_text_none b desc Ef).
      apply in_map_iff. exists (VStr desc, g0). split; [reflexivity|exact Hg0].
Qed.

Lemma lookup_sum (p : string -> bool) (b : list (value * breakdown_group)) :
  Forall (fun g => exists desc, fst g = VStr desc) b ->
  NoDup (map fst b) ->
  fold_right Z.add 0
    (map (fun k => match kv_find b k with
                   | Some g => if p (key_text k) then bg_count g else 0
                   | None => 0
                   end) (map fst b))
  = count_where p b.
Proof.
  induction b as [|[k g] b IH]; intros K N; [reflexivity|].
  apply Forall_cons_iff in K. destruct K as [(desc & Hk) K]. cbn [fst] in Hk. subst k.
  cbn [map fst] in N. apply NoDup_cons_iff in N. destruct N as [Hnin N].
  unfold count_where. cbn [map fold_right fst snd key_text].
  fold (count_where p b). rewrite <- (IH K N). f_equal.
  - cbn [kv_find]. change (py_eq (VStr desc) (VStr desc)) with (String.eqb desc desc).
    rewrite String.eqb_refl. reflexivity.
  - f_equal. apply map_ext_in. intros k' Hk'. cbn [kv_find].
    destruct (py_eq (VStr desc) k') eqn:E; [|reflexivity].
    exfalso. apply Hnin.
    apply in_map_iff in Hk'. destruct Hk' as ([k0 g0] & Hk0 & Hg0). cbn [fst] in Hk0.
    subst k0. destruct (proj1 (Forall_forall _ _) K _ Hg0) as (d' & Hd').
    cbn [fst] in Hd'. subst k'. cbn [py_eq] in E. apply String.eqb_eq in E. subst d'.
    apply in_map_iff. exists (VStr desc, g0). split; [reflexivity|exact Hg0].
Qed.

Lemma print_breakdown_total (b : list (value * breakdown_group)) :
  Forall (fun g => exists desc, fst g = VStr desc) b ->
  NoDup (map fst b) ->
  print_comprehensive_match_breakdown b = Ok (count_where in_play_name b).
Proof.
  intros K N. unfold print_comprehensive_match_breakdown.
  rewrite (py_sorted_pure py_lt
             (fun a c => String.ltb (key_text a) (key_text c))
             (fun v => exists s, v = VStr s)).
  - cbn [bind].
    assert (P : Permutation
                  (isort (fun a c => String.ltb (key_text a) (key_text c)) (map fst b))
                  (map fst b)).
    { apply (py_sorted_perm py_lt).
      apply (py_sorted_pure py_lt
               (fun a c => String.ltb (key_text a) (key_text c))
               (fun v => exists s, v = VStr s)).
      - intros x y [s ->] [t ->]. reflexivity.
      - apply Forall_map. exact K. }
    rewrite print_loop_sum; [|intros k Hk; eapply Permutation_in; eassumption|exact K].
    rewrite (sum_permutation _ _ _ P), (lookup_sum in_play_name b K N). f_equal.
  - intros x y [s ->] [t ->]. reflexivity.
  - apply Forall_map. exact K.
Qed.

Lemma py_eq_code (s : value) (k : Z) :
  py_eq (VInt k) s = true -> forall j, py_eq (VInt j) s = (j =? k).
Proof.
  intros Hk j.
  destruct (num_of s) as [q|] eqn:Eq.
  - rewrite (py_eq_numeric (VInt k) s _ q eq_refl Eq) in Hk.
    rewrite (py_eq_numeric (VInt j) s _ q eq_refl Eq).
    rewrite <- (Qeq_bool_inject_Z j k).
    rewrite (Qeq_bool_comm (inject_Z j) q), (Qeq_bool_comm (inject_Z j) (inject_Z k)).
    apply Qeq_bool_trans_l. rewrite Qeq_bool_comm. exact Hk.
  - destruct s; cbn [num_of] in Eq; try discriminate Eq; cbn [py_eq num_of] in Hk;
      discriminate Hk.
Qed.

Lemma kv_find_cons {A : Type} (k' : value) (a : A) (rest : list (value * A)) (k : value) :
  kv_find ((k', a) :: rest) k = if py_eq k' k then Some a else kv_find rest k.
Proof. reflexivity. Qed.

Lemma Ok_inj {A : Type} (a b : A) : Ok a = Ok b -> a = b.
Proof. intros [= ->]. reflexivity. Qed.

Ltac in_play_code E :=
  unfold in_play_name, in_play_summary, py_in, in_play_status_ids;
  cbn [existsb]; rewrite !(py_eq_code _ _ E); reflexivity.

(** A description is one of the in-play ones exactly for the status ids
    that equal 2, 3, 4, 5 or 7. *)
Lemma in_play_name_of_status (s : value) (desc : string) :
  breakdown_status_desc s = Ok desc ->
  in_play_name desc = in_play_summary s.
Proof.
  unfold breakdown_status_desc, kv_get. intros H.
  destruct (hashable s); [|discriminate H]. cbn [bind] in H.
  apply Ok_inj in H. rewrite <- H. clear H desc.
  unfold breakdown_desc_map. rewrite !kv_find_cons.
  change (@kv_find string [] s) with (@None string).
  destruct (py_eq (VInt 0) s) eqn:E0; [in_play_code E0|].
  destruct (py_eq (VInt 1) s) eqn:E1; [in_play_code E1|].
  destruct (py_eq (VInt 2) s) eqn:E2; [in_play_code E2|].
  destruct (py_eq (VInt 3) s) eqn:E3; [in_play_code E3|].
  destruct (py_eq (VInt 4) s) eqn:E4; [in_play_code E4|].
  destruct (py_eq (VInt 5) s) eqn:E5; [in_play_code E5|].
  destruct (py_eq (VInt 6) s) eqn:E6; [in_play_code E6|].
  destruct (py_eq (VInt 7) s) eqn:E7; [in_play_code E7|].
  destruct (py_eq (VInt 8) s) eqn:E8; [in_play_code E8|].
  destruct (py_eq (VInt 9) s) eqn:E9; [in_play_code E9|].
  destruct (py_eq (VInt 10) s) eqn:E10; [in_play_code E10|].
  destruct (py_eq (VInt 11) s) eqn:E11; [in_play_code E11|].
  destruct (py_eq (VInt 12) s) eqn:E12; [in_play_code E12|].
  destruct (py_eq (VInt 13) s) eqn:E13; [in_play_code E13|].
  unfold in_play_name, in_play_summary, py_in, in_play_status_ids.
  cbn [existsb]. rewrite E2, E3, E4, E5, E7. reflexivity.
Qed.

Lemma filter_map_length {A B : Type} (f : A -> B) (p : B -> bool) (l : list A) :
  List.length (filter p (map f l)) = List.length (filter (fun x => p (f x)) l).
Proof.
  induction l as [|x l IH]; [reflexivity|].
  cbn [map filter]. destruct (p (f x)); cbn [List.length]; rewrite IH; reflexivity.
Qed.

Lemma unified_in_play_count (live : dict) (matches : list value)
    (summary : status_summary) :
  dict_get live "results" = Some (VList matches) ->
  create_unified_status_summary (VDict live) = Ok summary ->
  Forall (fun m => status_ok (status_of m)) matches ->
  in_play_matches summary
  = Z.of_nat (List.length (filter in_play_summary (map status_of matches))).
Proof.
  intros Hres Hs Hok. unfold create_unified_status_summary in Hs.
  destruct live as [|kv live]; [discriminate Hres|].
  cbn [truthy negb] in Hs. rewrite Hres in Hs. cbn [py_len py_iter bind] in Hs.
  match type of Hs with
  | context [foldM count_match matches ?a] =>
      destruct (foldM count_match matches a) as [[st n]|] eqn:Ef;
        cbn [bind] in Hs; [|discriminate Hs]
  end.
  pose proof (count_matches_statuses _ _ _ Ef) as Hmap.
  destruct (py_sorted py_lt (map fst st)); cbn [bind] in Hs; [|discriminate Hs].
  injection Hs as <-. cbn [in_play_matches].
  assert (Hok' : Forall status_ok (map status_of matches))
    by (apply Forall_map; exact Hok).
  destruct (count_matches_numeric matches (map status_of matches) [] 0 Hmap Hok')
    as (st' & n' & Hf' & _ & Hc); [constructor|].
  rewrite Ef in Hf'. injection Hf' as <- <-.
  assert (Hip := in_play_sum st (map status_of matches) Hok').
  unfold in_play_status_ids in *. cbn [map fold_right] in *.
  apply Hip. intros v Hv. rewrite (Hc v Hv). reflexivity.
Qed.

(** X20.  For the data that [step1_main] builds from a feed, when the
    comprehensive breakdown returns, every group's count is the number of
    matches it lists, and the in-play total printed from it is the number
    of matches whose status id equals 2, 3, 4, 5 or 7.  So the two in-play
    figures of one run agree: the total printed from the breakdown is the
    [in_play_matches] of the unified status summary (stated, like that
    one, for status ids that are numbers). *)
Theorem breakdown_in_play_total_agrees :
  forall (live : dict) (all_data : enrichment) (matches : list value)
         (b : list (value * breakdown_group)),
    dict_get live "results" = Some (VList matches) ->
    create_comprehensive_match_breakdown (VDict live) all_data = Ok b ->
    Forall (fun g => bg_count (snd g) = Z.of_nat (List.length (bg_matches (snd g)))) b /\
    print_comprehensive_match_breakdown b
    = Ok (Z.of_nat (List.length (filter in_play_summary (map status_of matches)))) /\
    (forall summary,
        create_unified_status_summary (VDict live) = Ok summary ->
        Forall (fun m => status_ok (status_of m)) matches ->
        print_comprehensive_match_breakdown b = Ok (in_play_matches summary)).
Proof.
  intros live all_data matches b Hres H.
  unfold create_comprehensive_match_breakdown in H.
  cbn [attr_get] in H. unfold get in H. rewrite Hres in H. cbn [bind py_iter] in H.
  destruct (breakdown_loop_inv all_data matches [] [] b) as (K & N & L & Hh & C);
    [|exact H|].
  { repeat split; try constructor. }
  cbn [app] in Hh, C.
  assert (Hprint : print_comprehensive_match_breakdown b
                   = Ok (Z.of_nat (List.length
                                     (filter in_play_summary (map status_of matches))))).
  { rewrite (print_breakdown_total b K N), (C in_play_name), filter_map_length.
    do 3 f_equal. apply filter_ext_in. intros m Hm.
    pose proof (proj1 (Forall_forall _ _) Hh m Hm) as Hhash.
    destruct (has_status m) eqn:Ehas; cbn [andb].
    - specialize (Hhash Ehas). unfold breakdown_desc_of.
      destruct (breakdown_status_desc (status_of m)) as [desc|] eqn:Ed.
      + apply in_play_name_of_status. exact Ed.
      + unfold breakdown_status_desc, kv_get in Ed. rewrite Hhash in Ed.
        discriminate Ed.
    - unfold has_status in Ehas. unfold status_of.
      destruct (extract_status_id m) as [[]|]; try discriminate Ehas; reflexivity. }
  split; [exact L|]. split; [exact Hprint|].
  intros summary Hs Hok. rewrite Hprint.
  rewrite (unified_in_play_count live matches summary Hres Hs Hok). reflexivity.
Qed.

(** The feed of the example: of its four matches with a status, two are
    in the first half. *)
Lemma breakdown_in_play_total_agrees_witness :
  exists b summary,
    create_comprehensive_match_breakdown feed_example breakdown_example = Ok b /\
    create_unified_status_summary feed_example = Ok summary /\
    print_comprehensive_match_breakdown b = Ok 2 /\
    in_play_matches summary = 2.
Proof.
  destruct (create_comprehensive_match_breakdown feed_example breakdown_example)
    as [b|] eqn:E; [|vm_compute in E; discriminate E].
  destruct (create_unified_status_summary feed_example) as [summary|] eqn:Es;
    [|vm_compute in Es; discriminate Es].
  exists b, summary. split; [reflexivity|]. split; [reflexivity|].
  destruct (breakdown_in_play_total_agrees
              [("results",
                VList [VDict [("id", VStr "a"); ("status_id", VInt 2)];
                       VDict [("id", VStr "b"); ("status_id", VInt 8)];
                       VDict [("id", VStr "c"); ("score", VList [VStr "c"; VInt 2])];
                       VDict [("id", VStr "d")];
                       VDict [("status_id", VInt 42)]])]
              breakdown_example _ b eq_refl E) as (_ & P & A).
  assert (Hp : print_comprehensive_match_breakdown b = Ok 2)
    by (rewrite P; reflexivity).
  split; [exact Hp|].
  specialize (A summary Es).
  rewrite Hp in A. injection A as <-; [reflexivity|].
  repeat constructor; (now left) || (now right).
Defined.

(** ** The in-play count of the footer *)

Lemma enrich_loop_dicts (server : provider) (ms : list value) :
  forall st st',
    foldM (enrich_match server) ms st = Ok st' ->
    Forall (fun m => exists d, m = VDict d) ms.
Proof.
  induction ms as [|m ms IH]; intros st st' H; [constructor|].
  cbn [foldM] in H. destruct (enrich_match server st m) as [st1|] eqn:E;
    [|discriminate H].
  constructor; [|exact (IH _ _ H)].
  destruct m; try discriminate E. eexists. reflexivity.
Qed.

Lemma extract_status_id_dicts (ms : list value) :
  Forall (fun m => exists d, m = VDict d) ms ->
  mapM extract_status_id ms = Ok (map status_of ms).
Proof.
  intros H. induction H as [|m ms [d ->] _ IH]; [reflexivity|].
  cbn [mapM map]. rewrite IH. reflexivity.
Qed.

Lemma with_detail_status_dict (server : provider) (m : value) :
  (exists d, m = VDict d) -> exists d', with_detail_status server m = VDict d'.
Proof.
  intros [d ->]. cbn [with_detail_status].
  match goal with
  | |- context [match ?x with VNone => _ | _ => _ end] => destruct x
  end; eexists; reflexivity.
Qed.

(** X21.  [step1_main] counts the in-play matches of its footer after the
    enrichment, on the matches that the enrichment has assigned to: the
    count is the number of matches whose status id, with the status of the
    detail record copied in, is one of 2 to 7, not the number by the
    status ids of the live feed; and the feed it returns holds these
    updated matches. *)
Theorem step1_main_counts_enriched_status :
  forall (live_server : Z -> response) (server : provider) (r : step1_result)
         (live : dict) (matches : list value),
    step1_main live_server server = Ok r ->
    fst (fetch_json live_server) = VDict live ->
    dict_get live "results" = Some (VList matches) ->
    live_results (enriched_data r) = map (with_detail_status server) matches /\
    live_matches_ r
    = VDict (dict_set live "results" (VList (map (with_detail_status server) matches))) /\
    footer_in_play_count r
    = Z.of_nat (List.length
                  (filter in_play_filter
                     (map (fun m => status_of (with_detail_status server m)) matches))).
Proof.
  intros live_server server r live matches H Hlive Hres.
  unfold step1_main in H.
  destruct (fetch_live_data live_server) as [live_data|] eqn:Ef; cbn [bind] in H;
    [|discriminate H].
  assert (Hld : live_data = VDict live).
  { unfold fetch_live_data in Ef. bind_inv Ef. apply Ok_inj in Ef.
    rewrite <- Ef. exact Hlive. }
  subst live_data. cbn [attr_get bind] in H. unfold get in H. rewrite Hres in H.
  destruct (enrich_match_data server (VList matches)) as [enriched|] eqn:Ee;
    cbn [bind] in H; [|discriminate H].
  assert (Hen : live_results enriched = map (with_detail_status server) matches /\
                Forall (fun m => exists d, m = VDict d) matches).
  { unfold enrich_match_data in Ee. cbn [py_len py_iter bind] in Ee.
    match type of Ee with
    | context [foldM (enrich_match server) matches ?s0] =>
        destruct (foldM (enrich_match server) matches s0) as [st|] eqn:El;
          cbn [bind] in Ee; [|discriminate Ee];
          destruct (enrich_loop_inv server matches [] s0 st) as (_ & _ & _ & _ & _ & L);
          [repeat split; constructor|exact El|];
          pose proof (enrich_loop_dicts server matches _ _ El) as Hd
    end.
    apply Ok_inj in Ee. rewrite <- Ee. cbn [live_results]. split; [exact L|exact Hd]. }
  destruct Hen as [Hlr Hd].
  unfold feed_after in H. rewrite Hres in H.
  destruct (step1_main_in_play_count
              (VDict (dict_set live "results" (VList (live_results enriched)))))
    as [n|] eqn:En; cbn [bind] in H; [|discriminate H].
  apply Ok_inj in H. rewrite <- H.
  cbn [live_matches_ enriched_data footer_in_play_count].
  rewrite Hlr in *. split; [reflexivity|]. split; [reflexivity|].
  unfold step1_main_in_play_count in En. cbn [attr_get bind] in En.
  rewrite get_set_same in En. cbn [py_iter bind] in En.
  rewrite (step1_count _ (map status_of (map (with_detail_status server) matches)) 0)
    in En.
  - apply Ok_inj in En. rewrite <- En, map_map. lia.
  - apply extract_status_id_dicts. apply Forall_map.
    eapply Forall_impl; [|exact Hd]. intros m Hm.
    apply with_detail_status_dict. exact Hm.
Qed.

(** The only match of the feed has no status id of its own; its detail
    record says 4, and the footer counts it as in play. *)
Lemma step1_main_counts_enriched_status_witness :
  exists r,
    step1_main quiet_feed provider_example = Ok r /\
    footer_in_play_count r = 1 /\
    step1_main_in_play_count (fst (fetch_json quiet_feed)) = Ok 0.
Proof.
  destruct (step1_main quiet_feed provider_example) as [r|] eqn:E;
    [|vm_compute in E; discriminate E].
  exists r. split; [reflexivity|]. split; [|reflexivity].
  destruct (step1_main_counts_enriched_status quiet_feed provider_example r
              [("results", VList [VDict [("id", VStr "m1")]])]
              [VDict [("id", VStr "m1")]] E eq_refl eq_refl) as (_ & _ & C).
  rewrite C. reflexivity.
Defined.

(** ** The counts by description *)

Lemma table_total_app (s1 s2 : status_table) :
  table_total (s1 ++ s2)%list = table_total s1 + table_total s2.
Proof.
  unfold table_total. induction s1 as [|e s1 IH]; cbn [app map fold_right]; [lia|].
  rewrite IH. lia.
Qed.

Lemma counts_total_app (c1 c2 : list (value * Z)) :
  counts_total (c1 ++ c2)%list = counts_total c1 + counts_total c2.
Proof.
  unfold counts_total. induction c1 as [|e c1 IH]; cbn [app map fold_right]; [lia|].
  rewrite IH. lia.
Qed.

(** Counting one status id adds one to the total of the table and keeps
    every count positive. *)
Lemma count_status_total (st st' : status_table) (sid : value) :
  count_status st sid = Ok st' ->
  Forall (fun e : value * status_entry => 0 <= snd (snd e)) st ->
  table_total st' = table_total st + 1 /\
  Forall (fun e : value * status_entry => 0 <= snd (snd e)) st'.
Proof.
  unfold count_status, kv_get. intros H Hpos.
  destruct (hashable sid) eqn:Hh; [|discriminate H]. cbn [bind] in H.
  pose proof (py_eq_refl_hashable sid Hh) as Hrefl.
  destruct (kv_find st sid) as [[desc n]|] eqn:Ef.
  - rewrite Ef in H.
    destruct (kv_set_found st sid (desc, n) Ef) as (m1 & k' & m2 & -> & _ & Hset).
    rewrite Hset in H. apply Ok_inj in H. rewrite <- H.
    apply Forall_app in Hpos. destruct Hpos as [P1 P2].
    apply Forall_cons_iff in P2. destruct P2 as [Pn P2]. cbn [snd] in Pn.
    split.
    + rewrite !table_total_app. unfold table_total. cbn [map fold_right snd]. lia.
    + apply Forall_app. split; [exact P1|]. constructor; [cbn [snd]; lia|exact P2].
  - rewrite (kv_set_fresh st sid Ef) in H.
    rewrite (kv_find_snoc st sid _ Ef Hrefl) in H.
    rewrite (kv_set_snoc st sid _ _ Ef Hrefl) in H.
    apply Ok_inj in H. rewrite <- H. split.
    + rewrite table_total_app. unfold table_total. cbn [map fold_right snd]. lia.
    + apply Forall_app. split; [exact Hpos|]. constructor; [cbn [snd]; lia|constructor].
Qed.

Lemma count_matches_total (ms : list value) :
  forall (acc acc' : status_table * Z),
    foldM count_match ms acc = Ok acc' ->
    Forall (fun e : value * status_entry => 0 <= snd (snd e)) (fst acc) ->
    table_total (fst acc') - snd acc' = table_total (fst acc) - snd acc /\
    Forall (fun e : value * status_entry => 0 <= snd (snd e)) (fst acc').
Proof.
  induction ms as [|m ms IH]; intros acc acc' H Hpos; cbn [foldM] in H.
  - apply Ok_inj in H. rewrite <- H. split; [reflexivity|exact Hpos].
  - destruct (count_match acc m) as [a1|] eqn:E; [|discriminate H].
    assert (Hstep : table_total (fst a1) - snd a1 = table_total (fst acc) - snd acc /\
                    Forall (fun e : value * status_entry => 0 <= snd (snd e)) (fst a1)).
    { unfold count_match in E.
      destruct (extract_status_id m) as [sid|]; cbn [bind] in E; [|discriminate E].
      destruct (value_is_none sid) as [->|Hne].
      - apply Ok_inj in E. rewrite <- E. split; [reflexivity|exact Hpos].
      - assert (E' : (st <- count_status (fst acc) sid ;; Ok (st, snd acc + 1)) = Ok a1)
          by (destruct sid; try contradiction; exact E).
        destruct (count_status (fst acc) sid) as [st1|] eqn:Ec; cbn [bind] in E';
          [|discriminate E'].
        apply Ok_inj in E'. rewrite <- E'. cbn [fst snd].
        destruct (count_status_total _ _ _ Ec Hpos) as [T P]. split; [lia|exact P]. }
    destruct Hstep as [T1 P1]. destruct (IH a1 acc' H P1) as [T2 P2].
    split; [lia|exact P2].
Qed.

(** Storing a count under a description never adds more than that count
    to the total. *)
Lemma kv_set_counts_total (counts : list (value * Z)) (k : value) (n : Z) :
  Forall (fun e : value * Z => 0 <= snd e) counts -> 0 <= n ->
  counts_total (kv_set counts k n) <= counts_total counts + n /\
  Forall (fun e : value * Z => 0 <= snd e) (kv_set counts k n).
Proof.
  intros Hpos Hn. destruct (kv_find counts k) as [old|] eqn:Ef.
  - destruct (kv_set_found counts k old Ef) as (m1 & k' & m2 & -> & _ & Hset).
    rewrite Hset. apply Forall_app in Hpos. destruct Hpos as [P1 P2].
    apply Forall_cons_iff in P2. destruct P2 as [Po P2]. cbn [snd] in Po. split.
    + rewrite !counts_total_app. unfold counts_total. cbn [map fold_right snd]. lia.
    + apply Forall_app. split; [exact P1|]. constructor; [exact Hn|exact P2].
  - rewrite (kv_set_fresh counts k Ef). split.
    + rewrite counts_total_app. unfold counts_total. cbn [map fold_right snd]. lia.
    + apply Forall_app. split; [exact Hpos|]. constructor; [exact Hn|constructor].
Qed.

Lemma counts_by_description_total (st : status_table) :
  Forall (fun e : value * status_entry => 0 <= snd (snd e)) st ->
  counts_total (counts_by_description st) <= table_total st.
Proof.
  unfold counts_by_description.
  assert (Hgen : forall acc,
             Forall (fun e : value * Z => 0 <= snd e) acc ->
             Forall (fun e : value * status_entry => 0 <= snd (snd e)) st ->
             counts_total
               (fold_left (fun acc (e : value * status_entry) =>
                             kv_set acc (VStr (fst (snd e))) (snd (snd e))) st acc)
             <= counts_total acc + table_total st).
  { induction st as [|e st IH]; intros acc Ha Hs; cbn [fold_left].
    - unfold table_total. cbn. lia.
    - apply Forall_cons_iff in Hs. destruct Hs as [He Hs].
      destruct (kv_set_counts_total acc (VStr (fst (snd e))) (snd (snd e)) Ha He)
        as [T P].
      specialize (IH _ P Hs). unfold table_total in *. cbn [map fold_right]. lia. }
  intros Hpos. specialize (Hgen [] (Forall_nil _) Hpos).
  unfold counts_total at 2 in Hgen. cbn in Hgen. lia.
Qed.

(** X22.  The counts by description that the unified status summary
    returns as [status_counts] (and that [print_status_summary] prints)
    never add up to more than [matches_with_status]; they can add up to
    less, since all the status ids that are not in the table share the
    description "Unknown Status" and the count stored last replaces the
    others. *)
Theorem status_counts_can_lose_matches :
  forall (live : dict) (matches : list value) (counts : list (value * Z))
         (summary : status_summary),
    dict_get live "results" = Some (VList matches) ->
    unified_status_counts (VDict live) = Ok counts ->
    create_unified_status_summary (VDict live) = Ok summary ->
    exists with_status,
      matches_with_status summary = Some with_status /\
      counts_total counts <= with_status.
Proof.
  intros live matches counts summary Hres Hc Hs.
  unfold unified_status_counts in Hc. unfold create_unified_status_summary in Hs.
  destruct live as [|kv live]; [discriminate Hres|].
  cbn [truthy negb] in Hc, Hs. rewrite Hres in Hc, Hs.
  cbn [py_len py_iter bind] in Hc, Hs.
  match type of Hs with
  | context [foldM count_match matches ?a] =>
      destruct (foldM count_match matches a) as [[st n]|] eqn:Ef;
        cbn [bind] in Hs, Hc; [|discriminate Hs]
  end.
  cbn [fst] in Hc.
  destruct (py_sorted py_lt (map fst st)); cbn [bind] in Hs, Hc; [|discriminate Hs].
  apply Ok_inj in Hs. apply Ok_inj in Hc. rewrite <- Hs, <- Hc.
  cbn [matches_with_status]. exists n. split; [reflexivity|].
  destruct (count_matches_total matches _ _ Ef) as [T P]; [constructor|].
  cbn [fst snd] in T, P. unfold table_total at 2 in T. cbn in T.
  pose proof (counts_by_description_total st P). lia.
Qed.

(** Three matches with the unknown codes 42, 42 and 43: three matches
    have a status, and the counts by description hold one match. *)
Lemma status_counts_can_lose_matches_witness :
  exists counts summary,
    unified_status_counts unknown_codes_feed = Ok counts /\
    create_unified_status_summary unknown_codes_feed = Ok summary /\
    matches_with_status summary = Some 3 /\
    counts = [(VStr "Unknown Status", 1)] /\
    counts_total counts <= 3.
Proof.
  destruct (unified_status_counts unknown_codes_feed) as [counts|] eqn:Ec;
    [|vm_compute in Ec; discriminate Ec].
  destruct (create_unified_status_summary unknown_codes_feed) as [summary|] eqn:Es;
    [|vm_compute in Es; discriminate Es].
  exists counts, summary. split; [reflexivity|]. split; [reflexivity|].
  destruct (status_counts_can_lose_matches
              [("results",
                VList [VDict [("id", VStr "a"); ("status_id", VInt 42)];
                       VDict [("id", VStr "b"); ("status_id", VInt 42)];
                       VDict [("id", VStr "c"); ("status_id", VInt 43)]])]
              _ counts summary eq_refl Ec Es) as (w & Hw & Hle).
  assert (Hw3 : matches_with_status summary = Some 3)
    by (vm_compute in Es; apply Ok_inj in Es; rewrite <- Es; reflexivity).
  rewrite Hw3 in Hw. apply (f_equal (fun o => match o with Some z => z | None => 0 end)) in Hw.
  cbn in Hw. subst w.
  split; [exact Hw3|]. split; [|exact Hle].
  vm_compute in Ec. apply Ok_inj in Ec. rewrite <- Ec. reflexivity.
Defined.

(** ** The status summary of the footer *)











Section SortedNumbers.
Context {A : Type} (ltb : A -> A -> bool) (P : A -> Prop).
Hypothesis asym : forall a b, P a -> P b -> ltb a b = true -> ltb b a = false.
Hypothesis trans : forall a b c, P a -> P b -> P c ->
                                 ltb b a = false -> ltb c b = false -> ltb c a = false.




End SortedNumbers.






